(** * gCite backend: the search -> filter -> rank -> format pipeline

    A shallow embedding of [backend/agents/{base,filter,rank,format}.py],
    [backend/api/models.py], [backend/api/routes.py] and
    [backend/services/cite_assist.py].

    - Python values that travel through the pipeline are JSON values
      ([value]); a [float] is an IEEE-754 binary64 number (Rocq's primitive
      floats), an [int] is a [Z], a [str] is its UTF-8 byte string.
    - A chunk is a Python [dict] that the stages mutate in place, so dicts
      live in a heap ([gmap loc dict]) and a chunk list is a list of
      references.
    - A stage is a computation in a state-and-exception monad [M]; the state
      carries the heap, the hidden state of the outside world (generative
      model, search service, clock) and the log of calls made to the
      generative model.
    - What the repository imports from elsewhere (the [json] module, [str]
      formatting, pydantic's coercions, the Gemini SDK, the cite-assist
      service) is a parameter of the development. *)

From Stdlib Require Import ZArith Floats Ascii String Lia.
From stdpp Require Import gmap strings list fin_maps.

Set Warnings "-register-all,-inexact-float".
#[local] Open Scope string_scope.
#[local] Open Scope Z_scope.

(* ===================================================================== *)
(** ** Python values, exceptions and builtins                             *)
(* ===================================================================== *)

Inductive value : Type :=
  | VNone
  | VBool (b : bool)
  | VInt (n : Z)
  | VFloat (f : float)
  | VStr (s : string)
  | VList (l : list value)
  | VDict (d : gmap string value).

Abbreviation dict := (gmap string value).

(** Exceptions, all of them subclasses of [Exception]. The text of
    [str(e)] is the runtime's, see [exn_str] below. *)
Inductive exn : Type :=
  | JSONDecodeError
  | ValueError
  | ValueErrorMsg (msg : string)
  | TypeError
  | AttributeError
  | KeyError (key : string)
  | KeyErrorSlice (stop : nat)               (* KeyError(slice(None, stop, None)) *)
  | IndexError
  | OverflowError
  | ValidationError
  | ExternalError (tag : string)
  | HTTPException (status_code : Z) (detail : string).

Inductive result (A : Type) : Type :=
  | Ok (a : A)
  | Raise (e : exn).
Arguments Ok {A} a.
Arguments Raise {A} e.

#[global] Instance result_ret : MRet result := fun A a => Ok a.
#[global] Instance result_bind : MBind result := fun A B f r =>
  match r with Ok a => f a | Raise e => Raise e end.

(** What the Python runtime and the [json] module provide. *)
Record PyLib : Type := {
  str_strip : string -> string;            (* s.strip() *)
  json_loads : string -> result value;     (* json.loads(s) *)
  json_dumps : value -> string;            (* json.dumps(v, indent=2) *)
  float_of_str : string -> option float;   (* float(s); None: ValueError *)
  int_of_str : string -> option Z;         (* int(s); None: ValueError *)
  py_str : value -> string;                (* str(v), as in f"{v}" *)
  fmt_f : nat -> float -> string;          (* f"{x:.nf}" *)
  exn_str : exn -> string;                 (* str(e) *)
  hashable_slices : bool                   (* hash(slice(...)) is defined:
                                              Python 3.12 and later *)
}.

Module Py.

Definition dq : string := String (ascii_of_nat 34) EmptyString.
Definition nl : string := String (ascii_of_nat 10) EmptyString.

(** [bool(v)] *)
Definition truthy (v : value) : bool :=
  match v with
  | VNone => false
  | VBool b => b
  | VInt n => negb (n =? 0)
  | VFloat f => negb (f =? 0)%float
  | VStr s => negb (String.eqb s "")
  | VList l => match l with [] => false | _ => true end
  | VDict d => match map_to_list d with [] => false | _ => true end
  end.

(** [bool(s)] for an [Optional[str]] *)
Definition truthy_text (t : option string) : bool :=
  match t with
  | None => false
  | Some s => negb (String.eqb s "")
  end.

(** [d.get(k, default)] *)
Definition get (d : dict) (k : string) (default : value) : value :=
  match d !! k with Some v => v | None => default end.

(** [d[k]] *)
Definition getitem (d : dict) (k : string) : result value :=
  match d !! k with Some v => Ok v | None => Raise (KeyError k) end.

(** [v.get(k, default)] on a value that may not be a dict *)
Definition attr_get (v : value) (k : string) (default : value) : result value :=
  match v with
  | VDict d => Ok (get d k default)
  | _ => Raise AttributeError
  end.

(** *** float *)

(** [float(n)] for an int: round to nearest even, [OverflowError] when the
    result is not finite. *)
Definition float_of_Z (n : Z) : result float :=
  match binary_normalize prec emax n 0 false with
  | S754_infinity _ => Raise OverflowError
  | sf => Ok (SF2Prim sf)
  end.

(** [float(v)] *)
Definition to_float (lib : PyLib) (v : value) : result float :=
  match v with
  | VFloat f => Ok f
  | VInt n => float_of_Z n
  | VBool b => Ok (if b then 1 else 0)%float
  | VStr s =>
      match float_of_str lib s with
      | Some f => Ok f
      | None => Raise ValueError
      end
  | _ => Raise TypeError
  end.

(** [min(a, b)] and [max(a, b)]: the first argument unless the second is
    strictly smaller (resp. larger). *)
Definition min (a b : float) : float := if (b <? a)%float then b else a.
Definition max (a b : float) : float := if (a <? b)%float then b else a.

(** [int(x)] for a float: truncation towards zero. *)
Definition int_of_float (x : float) : result Z :=
  match Prim2SF x with
  | S754_zero _ => Ok 0
  | S754_finite s m e => Ok (cond_Zopp s (Z.shiftl (Zpos m) e))
  | S754_infinity _ => Raise OverflowError
  | S754_nan => Raise ValueError
  end.

(** [math.floor(x)], the largest integer below the number [x] denotes. *)
Definition floor_of_float (x : float) : option Z :=
  match Prim2SF x with
  | S754_zero _ => Some 0
  | S754_finite s m e =>
      Some (if 0 <=? e then cond_Zopp s (Zpos m) * 2 ^ e
            else cond_Zopp s (Zpos m) / 2 ^ (- e))
  | _ => None
  end.

(** [x < n] for a float [x] and an int [n]: Python compares the exact
    values. *)
Definition float_lt_Z (x : float) (n : Z) : bool :=
  match Prim2SF x with
  | S754_nan => false
  | S754_infinity s => s
  | S754_zero _ => 0 <? n
  | S754_finite s m e =>
      if 0 <=? e then cond_Zopp s (Zpos m) * 2 ^ e <? n
      else cond_Zopp s (Zpos m) <? n * 2 ^ (- e)
  end.

(** [x <= n] for a float [x] and an int [n]. *)
Definition float_le_Z (x : float) (n : Z) : bool :=
  match Prim2SF x with
  | S754_nan => false
  | S754_infinity s => s
  | S754_zero _ => 0 <=? n
  | S754_finite s m e =>
      if 0 <=? e then cond_Zopp s (Zpos m) * 2 ^ e <=? n
      else cond_Zopp s (Zpos m) <=? n * 2 ^ (- e)
  end.

(** [v >= t] for a float [t]. *)
Definition ge_float (v : value) (t : float) : result bool :=
  match v with
  | VFloat f => Ok (t <=? f)%float
  | VInt n => Ok (float_le_Z t n)
  | VBool b => Ok (float_le_Z t (Z.b2z b))
  | _ => Raise TypeError
  end.

(** The int a float is equal to, if any. *)
Definition float_integral (x : float) : option Z :=
  match Prim2SF x with
  | S754_zero _ => Some 0
  | S754_finite s m e =>
      if 0 <=? e then Some (cond_Zopp s (Zpos m) * 2 ^ e)
      else if Zpos m mod 2 ^ (- e) =? 0
           then Some (cond_Zopp s (Zpos m / 2 ^ (- e)))
           else None
  | _ => None
  end.

(** *** str *)

(** A byte that continues a UTF-8 sequence ([10xxxxxx]). *)
Definition is_continuation (c : ascii) : bool :=
  let n := Z.of_nat (nat_of_ascii c) in (128 <=? n) && (n <? 192).

(** [len(s)]: the number of code points. *)
Fixpoint len (s : string) : Z :=
  match s with
  | EmptyString => 0
  | String c s' => (if is_continuation c then 0 else 1) + len s'
  end.

(** [s[:n]] for [n >= 0]: the first [n] code points. *)
Fixpoint take (n : nat) (s : string) : string :=
  match s with
  | EmptyString => EmptyString
  | String c s' =>
      if is_continuation c then String c (take n s')
      else match n with
           | O => EmptyString
           | S n' => String c (take n' s')
           end
  end.

(** [s * n] *)
Definition repeat (s : string) (n : Z) : string :=
  String.concat "" (List.repeat s (Z.to_nat n)).

(** [s.split('\n')] *)
Fixpoint split_lines_aux (cur : string) (s : string) : list string :=
  match s with
  | EmptyString => [cur]
  | String c s' =>
      if Ascii.eqb c (ascii_of_nat 10) then cur :: split_lines_aux "" s'
      else split_lines_aux (cur +:+ String c "") s'
  end.
Definition split_lines (s : string) : list string := split_lines_aux "" s.

(** [v[:n]] for [n >= 0]; only [str] and [list] can be sliced. A [dict]
    takes the slice for a key: where slices are hashable the lookup fails
    with [KeyError], elsewhere the slice is rejected with [TypeError]. *)
Definition slice_to (lib : PyLib) (v : value) (n : nat) : result value :=
  match v with
  | VStr s => Ok (VStr (take n s))
  | VList l => Ok (VList (firstn n l))
  | VDict _ =>
      Raise (if hashable_slices lib then KeyErrorSlice n else TypeError)
  | _ => Raise TypeError
  end.

(** [l[:k]] for a list and any int [k]. *)
Definition list_slice_to {A} (l : list A) (k : Z) : list A :=
  if 0 <=? k then firstn (Z.to_nat k) l
  else firstn (length l - Z.to_nat (- k)) l.

(** The text of a model response with its code fences removed:
<<
    cleaned_text = response_text.strip()
    if cleaned_text.startswith('```'):
        lines = cleaned_text.split('\n')
        cleaned_text = '\n'.join(
            line for line in lines if not line.startswith('```'))
>> *)
Definition strip_code_fence (lib : PyLib) (response_text : string) : string :=
  let cleaned_text := str_strip lib response_text in
  if String.prefix "```" cleaned_text then
    String.concat nl
      (List.filter (fun line => negb (String.prefix "```" line))
                   (split_lines cleaned_text))
  else cleaned_text.

(** *** Numbers as the pipeline uses them *)

(** [v * k] for an int [k] *)
Definition mul_int (v : value) (k : Z) : result value :=
  match v with
  | VFloat f =>
      kf ← float_of_Z k;
      Ok (VFloat (f * kf)%float)
  | VInt n => Ok (VInt (n * k))
  | VBool b => Ok (VInt (Z.b2z b * k))
  | VStr s => Ok (VStr (repeat s k))
  | VList l => Ok (VList (List.concat (List.repeat l (Z.to_nat k))))
  | _ => Raise TypeError
  end.

(** [int(v)] *)
Definition to_int (lib : PyLib) (v : value) : result Z :=
  match v with
  | VFloat f => int_of_float f
  | VInt n => Ok n
  | VBool b => Ok (Z.b2z b)
  | VStr s =>
      match int_of_str lib s with
      | Some n => Ok n
      | None => Raise ValueError
      end
  | _ => Raise TypeError
  end.

(** [f"{v:.nf}"] *)
Definition format_f (lib : PyLib) (n : nat) (v : value) : result string :=
  match v with
  | VFloat f => Ok (fmt_f lib n f)
  | VInt k =>
      f ← float_of_Z k;
      Ok (fmt_f lib n f)
  | VBool b =>
      f ← float_of_Z (Z.b2z b);
      Ok (fmt_f lib n f)
  | VStr _ => Raise ValueError
  | _ => Raise TypeError
  end.

(** The int an index or a set element stands for: [bool] is a subclass
    of [int], and [True == 1]. *)
Definition as_index (v : value) : option Z :=
  match v with
  | VInt n => Some n
  | VBool b => Some (Z.b2z b)
  | _ => None
  end.

(** [v < n] for an int [n] *)
Definition lt_int (v : value) (n : Z) : result bool :=
  match v with
  | VInt k => Ok (k <? n)
  | VBool b => Ok (Z.b2z b <? n)
  | VFloat f => Ok (float_lt_Z f n)
  | _ => Raise TypeError
  end.

(** [v in s] for a set [s] of ints *)
Definition in_set (v : value) (s : gset Z) : result bool :=
  match v with
  | VInt k => Ok (bool_decide (k ∈ s))
  | VBool b => Ok (bool_decide (Z.b2z b ∈ s))
  | VFloat f =>
      Ok (match float_integral f with
          | Some k => bool_decide (k ∈ s)
          | None => false
          end)
  | VNone | VStr _ => Ok false
  | VList _ | VDict _ => Raise TypeError
  end.

(** [l[v]] for a list [l] *)
Definition list_getitem {A} (l : list A) (v : value) : result A :=
  match as_index v with
  | None => Raise TypeError
  | Some i =>
      let n := Z.of_nat (length l) in
      let j := if i <? 0 then n + i else i in
      if (0 <=? j) && (j <? n) then
        match l !! Z.to_nat j with
        | Some x => Ok x
        | None => Raise IndexError
        end
      else Raise IndexError
  end.

(** The code points of a [str], each a [str] of length one. *)
Fixpoint chars_aux (cur : option string) (s : string) : list string :=
  match s with
  | EmptyString => match cur with Some c => [c] | None => [] end
  | String b s' =>
      if is_continuation b then
        chars_aux (Some (default "" cur +:+ String b "")) s'
      else
        match cur with
        | Some c => c :: chars_aux (Some (String b "")) s'
        | None => chars_aux (Some (String b "")) s'
        end
  end.

(** [iter(v)]: what a [for] loop over [v] visits. A dict yields its keys
    (here in the order of the map, not of insertion). *)
Definition iterate (v : value) : result (list value) :=
  match v with
  | VList l => Ok l
  | VStr s => Ok (List.map VStr (chars_aux None s))
  | VDict d => Ok (List.map (fun kv => VStr (fst kv)) (map_to_list d))
  | _ => Raise TypeError
  end.

End Py.

(* ===================================================================== *)
(** ** The heap, the outside world and the monad of the stages            *)
(* ===================================================================== *)

Abbreviation loc := positive.

(** [config/settings.py], the two settings the agents read. *)
Record Settings : Type := {
  GOOGLE_GENAI_API_KEY : string;
  GEMINI_MODEL : string
}.

(** What [await self.model.generate_content_async(...)] followed by
    [response.text] comes to: a text, or an exception. *)
Inductive call_outcome : Type :=
  | Responded (text : string)
  | CallFailed (e : exn).

(** The collaborators outside the process, over a hidden state [W]: the
    Gemini SDK, the cite-assist client ([CiteAssistClient.search], with its
    retries) and the wall clock ([int((time.time() - start_time) * 1000)]). *)
Record External (W : Type) : Type := {
  generate_content_async :
    W -> string -> string -> float -> Z -> call_outcome * W;
  cite_assist_search : W -> string -> Z -> result (list value) * W;
  elapsed_ms : W -> Z
}.
Arguments generate_content_async {W} _ _ _ _ _ _.
Arguments cite_assist_search {W} _ _ _ _.
Arguments elapsed_ms {W} _ _.

Record state (W : Type) : Type := State {
  heap : gmap loc dict;      (* the dict objects *)
  world : W;                 (* the collaborators' state *)
  calls : list string        (* prompts sent to the generative model *)
}.
Arguments State {W} _ _ _.
Arguments heap {W} _.
Arguments world {W} _.
Arguments calls {W} _.

Definition M (W A : Type) : Type := state W -> result A * state W.

#[global] Instance M_ret {W} : MRet (M W) := fun A a s => (Ok a, s).
#[global] Instance M_bind {W} : MBind (M W) := fun A B f m s =>
  match m s with
  | (Ok a, s') => f a s'
  | (Raise e, s') => (Raise e, s')
  end.

Section Monad.
Context {W : Type}.

Definition raise {A} (e : exn) : M W A := fun s => (Raise e, s).

Definition lift {A} (r : result A) : M W A := fun s => (r, s).

(** [try: m  except Exception as e: h e] *)
Definition try_except {A} (m : M W A) (h : exn -> M W A) : M W A := fun s =>
  match m s with
  | (Ok a, s') => (Ok a, s')
  | (Raise e, s') => h e s'
  end.

(** The dict a reference denotes (the empty dict where nothing was
    stored yet). *)
Definition load (l : loc) : M W dict := fun s => (Ok (heap s !!! l), s).

(** [chunk[k] = v] *)
Definition setitem (l : loc) (k : string) (v : value) : M W unit := fun s =>
  (Ok tt,
   State (<[l := <[k := v]> (heap s !!! l)]> (heap s)) (world s) (calls s)).

(** A new dict object. *)
Definition alloc (d : dict) : M W loc := fun s =>
  let l := fresh (dom (heap s)) in
  (Ok l, State (<[l := d]> (heap s)) (world s) (calls s)).

(** [chunk.copy()] *)
Definition copy (l : loc) : M W loc := d ← load l; alloc d.

(** [for i, chunk in enumerate(chunks, start): body i chunk] *)
Fixpoint for_enumerate {A} (body : Z -> A -> M W unit) (i : Z) (xs : list A)
  : M W unit :=
  match xs with
  | [] => mret tt
  | x :: xs' => body i x ;; for_enumerate body (i + 1) xs'
  end.

End Monad.

(* ===================================================================== *)
(** ** agents/base.py                                                     *)
(* ===================================================================== *)

Module BaseAgent.

(** [self.model] is the SDK object, present exactly when [enabled]. *)
Record t : Type := Build {
  model_name : string;
  enabled : bool
}.

(** [BaseAgent.__init__] *)
Definition init (settings : Settings) (model_name : option string) : t :=
  {| model_name :=
       if Py.truthy_text model_name then default "" model_name
       else GEMINI_MODEL settings;
     enabled := negb (String.eqb (GOOGLE_GENAI_API_KEY settings) "") |}.

Section WithWorld.
Context {W : Type} (ext : External W).

(** The SDK call inside the [try] of [generate_content]; the prompt is
    logged. *)
Definition call_model (self : t) (prompt : string) (temperature : float)
    (max_output_tokens : Z) : M W call_outcome := fun s =>
  let '(out, w) :=
    generate_content_async ext (world s) (model_name self) prompt
                           temperature max_output_tokens in
  (Ok out, State (heap s) w (calls s ++ [prompt])).

(** [BaseAgent.generate_content] *)
Definition generate_content (self : t) (prompt : string)
    (temperature : float) (max_output_tokens : Z) : M W (option string) :=
  if negb (enabled self) then mret None
  else
    out ← call_model self prompt temperature max_output_tokens;
    match out with
    | Responded text => mret (Some text)
    | CallFailed e => mret None
    end.

End WithWorld.

(** [get_agent_enabled] *)
Definition get_agent_enabled (settings : Settings) : bool :=
  negb (String.eqb (GOOGLE_GENAI_API_KEY settings) "").

End BaseAgent.

(* ===================================================================== *)
(** ** agents/filter.py                                                   *)
(* ===================================================================== *)

Module FilterAgent.
Import BaseAgent.

Section WithWorld.
Context {W : Type} (lib : PyLib) (ext : External W).

(** [{f"Context: {context}" if context else ""}] *)
Definition context_line (context : option string) : string :=
  if Py.truthy_text context then "Context: " +:+ default "" context else "".

Definition prompt (query : string) (context : option string)
    (chunk_text source_title year : value) : string :=
  "You are a citation relevance evaluator. Determine if this chunk is relevant to the user's query.

Query: " +:+ query +:+ "
" +:+ context_line context +:+ "

Chunk Text:
" +:+ py_str lib chunk_text +:+ "

Source: " +:+ py_str lib source_title +:+ " (" +:+ py_str lib year +:+ ")

Evaluate:
1. Does this chunk directly address the query topic?
2. Is the information substantive (not just tangential mention)?
3. Would this be a good citation for someone writing about the query topic?
4. Is the source credible and relevant?

Respond ONLY with valid JSON in this exact format:
{
  " +:+ Py.dq +:+ "relevant" +:+ Py.dq +:+ ": true,
  " +:+ Py.dq +:+ "confidence" +:+ Py.dq +:+ ": 0.95,
  " +:+ Py.dq +:+ "reasoning" +:+ Py.dq +:+ ": " +:+ Py.dq +:+ "brief explanation" +:+ Py.dq +:+ "
}".

(** The verdict returned when the evaluation could not be made. *)
Definition keep_verdict (reasoning : string) : dict :=
  <["relevant" := VBool true]>
    (<["confidence" := VFloat 0.5]>
       (<["reasoning" := VStr reasoning]> ∅)).

(** [max(0.0, min(1.0, x))] *)
Definition clamp (x : float) : float := Py.max 0 (Py.min 1 x).

(** The body of the [try] block of [_evaluate_chunk]. *)
Definition evaluate_response (self : t) (prompt : string) : M W dict :=
  response_text ← generate_content ext self prompt 0.1 200;
  if negb (Py.truthy_text response_text) then
    mret (keep_verdict "Error in evaluation - defaulted to keeping chunk")
  else
    let cleaned_text := Py.strip_code_fence lib (default "" response_text) in
    result ← lift (json_loads lib cleaned_text);
    match result with
    | VDict result =>
        match result !! "relevant", result !! "confidence" with
        | Some _, Some confidence =>
            x ← lift (Py.to_float lib confidence);
            mret (<["confidence" := VFloat (clamp x)]> result)
        | _, _ => raise (ValueErrorMsg "Missing required fields")
        end
    | _ => raise (ValueErrorMsg "Response is not a dictionary")
    end.

(** [FilterAgent._evaluate_chunk]. The metadata lookups come before the
    [try]: an exception there escapes. *)
Definition _evaluate_chunk (self : t) (query : string)
    (context : option string) (chunk : loc) : M W dict :=
  c ← load chunk;
  let chunk_text := Py.get c "text" (VStr "") in
  let metadata := Py.get c "metadata" (VDict ∅) in
  source_title ← lift (Py.attr_get metadata "title" (VStr "Unknown"));
  year ← lift (Py.attr_get metadata "year" (VStr "Unknown"));
  try_except
    (evaluate_response self (prompt query context chunk_text source_title year))
    (fun e =>
       match e with
       | JSONDecodeError =>
           mret (keep_verdict ("JSON parse error: " +:+ exn_str lib e))
       | _ =>
           mret (keep_verdict ("Error in evaluation: " +:+ exn_str lib e))
       end).

(** [asyncio.gather] with [return_exceptions=True]: every task
    is run, in the order of the list, and an exception becomes the
    task's result. *)
Fixpoint gather {A} (tasks : list (M W A)) : M W (list (result A)) :=
  match tasks with
  | [] => mret []
  | task :: tasks' =>
      r ← try_except (a ← task; mret (Ok a)) (fun e => mret (Raise e));
      rs ← gather tasks';
      mret (r :: rs)
  end.

(** One turn of the loop [for chunk, evaluation in zip(chunks,
    evaluations)]; the result says whether the chunk is appended to
    [filtered]. *)
Definition filter_step (threshold : float) (chunk : loc)
    (evaluation : result dict) : M W bool :=
  match evaluation with
  | Raise _ =>
      setitem chunk "agent_filtered" (VBool false) ;;
      c ← load chunk;
      setitem chunk "relevance_score" (Py.get c "score" (VFloat 0.5)) ;;
      mret true
  | Ok evaluation =>
      relevant ← lift (Py.getitem evaluation "relevant");
      keep ← (if Py.truthy relevant then
                confidence ← lift (Py.getitem evaluation "confidence");
                lift (Py.ge_float confidence threshold)
              else mret false);
      if (keep : bool) then
        setitem chunk "agent_filtered" (VBool true) ;;
        confidence ← lift (Py.getitem evaluation "confidence");
        setitem chunk "relevance_score" confidence ;;
        reasoning ← lift (Py.getitem evaluation "reasoning");
        setitem chunk "filter_reasoning" reasoning ;;
        mret true
      else
        (* the arguments of [logger.debug] are evaluated *)
        confidence ← lift (Py.getitem evaluation "confidence");
        _ ← lift (Py.format_f lib 2 confidence);
        c ← load chunk;
        _ ← lift (Py.slice_to lib (Py.get c "text" (VStr "")) 50);
        mret false
  end.

Fixpoint filter_loop (threshold : float)
    (pairs : list (loc * result dict)) (filtered : list loc)
  : M W (list loc) :=
  match pairs with
  | [] => mret filtered
  | (chunk, evaluation) :: pairs' =>
      keep ← filter_step threshold chunk evaluation;
      filter_loop threshold pairs'
        (if (keep : bool) then filtered ++ [chunk] else filtered)
  end.

(** [FilterAgent.filter] *)
Definition filter (self : t) (query : string) (context : option string)
    (chunks : list loc) (threshold : float) : M W (list loc) :=
  if negb (enabled self) then mret chunks
  else if bool_decide (chunks = []) then mret []
  else
    let tasks := List.map (_evaluate_chunk self query context) chunks in
    evaluations ← gather tasks;
    filter_loop threshold (zip chunks evaluations) [].

End WithWorld.
End FilterAgent.

(* ===================================================================== *)
(** ** agents/rank.py                                                     *)
(* ===================================================================== *)

Module RankAgent.
Import BaseAgent.

Section WithWorld.
Context {W : Type} (lib : PyLib) (ext : External W).

Definition prompt (query : string) (context : option string)
    (chunks_summary : value) : string :=
  "You are a citation ranking specialist. Rank these chunks by their importance and relevance to the query.

Query: " +:+ query +:+ "
" +:+ FilterAgent.context_line context +:+ "

Chunks to rank:
" +:+ json_dumps lib chunks_summary +:+ "

Rank by:
1. Direct relevance to query (primary factor)
2. Strength and quality of evidence
3. Source credibility and impact
4. Recency (prefer newer unless historical context needed)

Respond ONLY with valid JSON in this exact format:
{
  " +:+ Py.dq +:+ "ranked_ids" +:+ Py.dq +:+ ": [2, 0, 5, 1],
  " +:+ Py.dq +:+ "reasoning" +:+ Py.dq +:+ ": " +:+ Py.dq +:+ "brief explanation of ranking logic" +:+ Py.dq +:+ "
}".

(** [for i, chunk in enumerate(chunks): chunk['agent_rank'] = i + 1] *)
Definition assign_sequential_ranks (chunks : list loc) : M W unit :=
  for_enumerate
    (fun i chunk => setitem chunk "agent_rank" (VInt (i + 1))) 0 chunks.

(** One entry of [chunks_summary]. *)
Definition summary_entry (i : Z) (chunk : loc) : M W value :=
  c ← load chunk;
  let metadata := Py.get c "metadata" (VDict ∅) in
  text_preview ← lift (Py.slice_to lib (Py.get c "text" (VStr "")) 200);
  source ← lift (Py.attr_get metadata "title" (VStr "Unknown"));
  year ← lift (Py.attr_get metadata "year" (VStr "Unknown"));
  mret (VDict (<["id" := VInt i]>
              (<["text_preview" := text_preview]>
              (<["source" := source]>
              (<["year" := year]>
              (<["similarity_score" := Py.get c "score" (VFloat 0)]> ∅)))))).

Fixpoint summarize (i : Z) (chunks : list loc) : M W (list value) :=
  match chunks with
  | [] => mret []
  | chunk :: chunks' =>
      entry ← summary_entry i chunk;
      entries ← summarize (i + 1) chunks';
      mret (entry :: entries)
  end.

(** [for rank, chunk_id in enumerate(ranked_ids): ...], from position
    [rank] on; the accumulator is [(ranked_chunks, used_ids)]. *)
Fixpoint place_ranked (reasoning : value) (chunks : list loc)
    (ranked_ids : list value) (rank : Z) (acc : list loc * gset Z)
  : M W (list loc * gset Z) :=
  match ranked_ids with
  | [] => mret acc
  | chunk_id :: ranked_ids' =>
      let '(ranked_chunks, used_ids) := acc in
      in_range ← lift (Py.lt_int chunk_id (Z.of_nat (length chunks)));
      fresh_id ← (if (in_range : bool) then
                    used ← lift (Py.in_set chunk_id used_ids);
                    mret (negb used)
                  else mret false);
      if (fresh_id : bool) then
        original ← lift (Py.list_getitem chunks chunk_id);
        chunk ← copy original;
        setitem chunk "agent_rank" (VInt (rank + 1)) ;;
        setitem chunk "rank_reasoning" reasoning ;;
        place_ranked reasoning chunks ranked_ids' (rank + 1)
          ((ranked_chunks ++ [chunk])%list,
           match Py.as_index chunk_id with
           | Some k => {[ k ]} ∪ used_ids
           | None => used_ids
           end)
      else
        place_ranked reasoning chunks ranked_ids' (rank + 1) acc
  end.

(** [for i, chunk in enumerate(chunks): if i not in used_ids: ...],
    from position [i] on. *)
Fixpoint place_unranked (used_ids : gset Z) (i : Z) (chunks : list loc)
    (ranked_chunks : list loc) : M W (list loc) :=
  match chunks with
  | [] => mret ranked_chunks
  | original :: chunks' =>
      if bool_decide (i ∈ used_ids) then
        place_unranked used_ids (i + 1) chunks' ranked_chunks
      else
        chunk ← copy original;
        setitem chunk "agent_rank"
                (VInt (Z.of_nat (length ranked_chunks) + 1)) ;;
        setitem chunk "rank_reasoning"
                (VStr "Not included in agent ranking") ;;
        place_unranked used_ids (i + 1) chunks' (ranked_chunks ++ [chunk])
  end.

(** The [try] block of [rank] from [cleaned_text = ...] on: the
    verdict is parsed and the chunks are reordered. *)
Definition apply_verdict (chunks : list loc) (response_text : string)
  : M W (list loc) :=
  let cleaned_text := Py.strip_code_fence lib response_text in
  result ← lift (json_loads lib cleaned_text);
  ranked_ids ← lift (Py.attr_get result "ranked_ids" (VList []));
  reasoning ← lift (Py.attr_get result "reasoning" (VStr ""));
  ids ← lift (Py.iterate ranked_ids);
  '(ranked_chunks, used_ids) ←
    place_ranked reasoning chunks ids 0 ([], ∅);
  place_unranked used_ids 0 chunks ranked_chunks.

(** The body of the [try] block of [rank]. *)
Definition rank_with_model (self : t) (query : string)
    (context : option string) (chunks : list loc) : M W (list loc) :=
  chunks_summary ← summarize 0 chunks;
  response_text ←
    generate_content ext self (prompt query context (VList chunks_summary))
                     0.2 500;
  if negb (Py.truthy_text response_text) then
    assign_sequential_ranks chunks ;; mret chunks
  else
    apply_verdict chunks (default "" response_text).

(** [RankAgent.rank] *)
Definition rank (self : t) (query : string) (context : option string)
    (chunks : list loc) : M W (list loc) :=
  if negb (enabled self) then
    assign_sequential_ranks chunks ;; mret chunks
  else if bool_decide (chunks = []) then mret []
  else
    match chunks with
    | [chunk] => setitem chunk "agent_rank" (VInt 1) ;; mret chunks
    | _ =>
        try_except (rank_with_model self query context chunks)
          (fun e =>
             match e with
             | JSONDecodeError =>
                 assign_sequential_ranks chunks ;; mret chunks
             | _ =>
                 assign_sequential_ranks chunks ;; mret chunks
             end)
    end.

End WithWorld.
End RankAgent.

(* ===================================================================== *)
(** ** agents/format.py                                                   *)
(* ===================================================================== *)

Module FormatAgent.
Import BaseAgent.

Definition filled_star : string := "★".
Definition empty_star : string := "☆".

Section WithWorld.
Context {W : Type} (lib : PyLib) (ext : External W).

Definition prompt (style : string) (include_context : bool)
    (chunks_data : value) : string :=
  "You are a citation formatting specialist. Format these chunks as professional citations.

Citation Style: " +:+ style +:+ "
Include Context: " +:+ py_str lib (VBool include_context) +:+ "

Chunks to format:
" +:+ json_dumps lib chunks_data +:+ "

Format requirements:
1. Clean, professional output ready to paste into a document
2. Proper " +:+ style +:+ " citation style formatting
3. Include relevance indicators (use stars: ★★★★★ for high, ★★★☆☆ for medium, etc.)
4. Group by source if multiple chunks from same paper
5. Include key quotes from the text
6. Add visual separators (use ─ characters) for readability
7. Make it immediately useful for academic writing

Output the formatted citations as plain text.".

(** [FormatAgent._add_wrapper] *)
Definition _add_wrapper (content : string) (count : Z) : string :=
  "━━━━━━━━━━━━━━━━━━━━━━━━━━━━━━━━━━━━━━━━━━━━━━━━
📚 CITATION RESULTS (" +:+ py_str lib (VInt count) +:+ " citations)
━━━━━━━━━━━━━━━━━━━━━━━━━━━━━━━━━━━━━━━━━━━━━━━━

" +:+ str_strip lib content +:+ "

━━━━━━━━━━━━━━━━━━━━━━━━━━━━━━━━━━━━━━━━━━━━━━━━
Generated by gCite • cite-assist + Gemini AI
━━━━━━━━━━━━━━━━━━━━━━━━━━━━━━━━━━━━━━━━━━━━━━━━".

(** [int(relevance * 5)] *)
Definition filled_count (relevance : value) : result Z :=
  product ← Py.mul_int relevance 5;
  Py.to_int lib product.

(** ['★' * int(relevance * 5) + '☆' * (5 - int(relevance * 5))] *)
Definition stars (relevance : value) : result string :=
  filled ← filled_count relevance;
  Ok (Py.repeat filled_star filled +:+ Py.repeat empty_star (5 - filled)).

(** The lines one chunk contributes in [_format_basic]. *)
Definition basic_block (include_context : bool) (chunk : dict)
  : result (list string) :=
  let rank := Py.get chunk "agent_rank" (VInt 0) in
  let text := Py.get chunk "text" (VStr "") in
  let relevance := Py.get chunk "relevance_score" (VFloat 0) in
  let metadata := Py.get chunk "metadata" (VDict ∅) in
  title ← Py.attr_get metadata "title" (VStr "Unknown");
  citation ← Py.attr_get metadata "citation" (VStr "");
  stars ← stars relevance;
  shown ← Py.format_f lib 2 relevance;
  Ok ([ "[" +:+ py_str lib rank +:+ "] " +:+ py_str lib title;
        Py.repeat "─" 50;
        "Relevance: " +:+ stars +:+ " (" +:+ shown +:+ ")";
        "" ]
      ++ (if include_context
          then [ Py.dq +:+ py_str lib text +:+ Py.dq; "" ]
          else [])
      ++ [ "Citation: " +:+ py_str lib citation;
           "";
           Py.repeat "─" 50;
           "" ])%list.

Fixpoint basic_lines (include_context : bool) (chunks : list dict)
  : result (list string) :=
  match chunks with
  | [] => Ok []
  | chunk :: chunks' =>
      block ← basic_block include_context chunk;
      lines ← basic_lines include_context chunks';
      Ok (block ++ lines)%list
  end.

(** [FormatAgent._format_basic] *)
Definition _format_basic (chunks : list dict) (style : string)
    (include_context : bool) : result string :=
  lines ← basic_lines include_context chunks;
  let output := String.concat Py.nl lines in
  Ok (_add_wrapper output (Z.of_nat (length chunks))).

(** One entry of [chunks_data]. *)
Definition data_entry (chunk : dict) : result value :=
  let metadata := Py.get chunk "metadata" (VDict ∅) in
  title ← Py.attr_get metadata "title" (VStr "Unknown");
  authors ← Py.attr_get metadata "authors" (VList []);
  year ← Py.attr_get metadata "year" (VStr "Unknown");
  citation ← Py.attr_get metadata "citation" (VStr "");
  Ok (VDict (<["rank" := Py.get chunk "agent_rank" (VInt 0)]>
            (<["text" := Py.get chunk "text" (VStr "")]>
            (<["source" := VDict (<["title" := title]>
                                 (<["authors" := authors]>
                                 (<["year" := year]>
                                 (<["citation" := citation]> ∅))))]>
            (<["relevance" := Py.get chunk "relevance_score" (VFloat 0)]>
             ∅))))).

Fixpoint collect_data (chunks : list dict) : result (list value) :=
  match chunks with
  | [] => Ok []
  | chunk :: chunks' =>
      entry ← data_entry chunk;
      entries ← collect_data chunks';
      Ok (entry :: entries)
  end.

(** The body of the [try] block of [format]. *)
Definition format_with_model (self : t) (chunks : list dict)
    (style : string) (include_context : bool) : M W string :=
  chunks_data ← lift (collect_data chunks);
  response_text ←
    generate_content ext self
      (prompt style include_context (VList chunks_data)) 0.3 2000;
  if negb (Py.truthy_text response_text) then
    lift (_format_basic chunks style include_context)
  else
    mret (_add_wrapper (default "" response_text)
                       (Z.of_nat (length chunks))).

(** [FormatAgent.format]. The stage only reads its chunks. *)
Definition format (self : t) (chunks : list dict) (style : string)
    (include_context : bool) : M W string :=
  if bool_decide (chunks = []) then mret "No citations found."
  else if negb (enabled self) then
    lift (_format_basic chunks style include_context)
  else
    try_except (format_with_model self chunks style include_context)
      (fun e => lift (_format_basic chunks style include_context)).

End WithWorld.
End FormatAgent.

(* ===================================================================== *)
(** ** api/models.py                                                      *)
(* ===================================================================== *)

(** pydantic's coercion of an input to a field type ([None]: the input is
    rejected with a [ValidationError]). *)
Record Pydantic : Type := {
  validate_str : value -> option string;
  validate_int : value -> option Z;
  validate_float : value -> option float;
  validate_bool : value -> option bool;
  validate_str_list : value -> option (list string)
}.

Module Models.

Inductive CitationStyle : Type := APA | MLA | CHICAGO | BLUEBOOK.

Definition CitationStyle_value (c : CitationStyle) : string :=
  match c with
  | APA => "APA"
  | MLA => "MLA"
  | CHICAGO => "Chicago"
  | BLUEBOOK => "Bluebook"
  end.

Record SearchRequest : Type := {
  query : string;
  context : option string;
  max_results : Z;
  citation_style : CitationStyle;
  filter : bool;
  min_relevance : float;
  include_context : bool
}.

(** The [Field] constraints of [SearchRequest]. *)
Definition SearchRequest_valid (r : SearchRequest) : bool :=
  (1 <=? Py.len (query r)) && (Py.len (query r) <=? 1000)
  && match context r with Some c => Py.len c <=? 2000 | None => true end
  && (1 <=? max_results r) && (max_results r <=? 50)
  && (0 <=? min_relevance r)%float && (min_relevance r <=? 1)%float.

Record Source : Type := {
  title : string;
  authors : list string;
  year : Z;
  citation : string;
  item_key : option string
}.

Record Chunk : Type := {
  id : string;
  text : string;
  source : Source;
  relevance_score : float;
  agent_filtered : bool;
  agent_rank : option Z
}.

Record SearchResponse : Type := {
  response_query : string;
  results_count : Z;
  chunks : list Chunk;
  formatted_output : string;
  processing_time_ms : Z
}.

Section Validation.
Context (pyd : Pydantic).

Definition required {A} (o : option A) : result A :=
  match o with Some a => Ok a | None => Raise ValidationError end.

(** An [Optional[...]] field *)
Definition optional {A} (validate : value -> option A) (v : value)
  : result (option A) :=
  match v with
  | VNone => Ok None
  | _ => a ← required (validate v); Ok (Some a)
  end.

(** [Source(title=..., authors=..., year=..., citation=..., item_key=...)] *)
Definition Source_new (title authors year citation item_key : value)
  : result Source :=
  title ← required (validate_str pyd title);
  authors ← required (validate_str_list pyd authors);
  year ← required (validate_int pyd year);
  citation ← required (validate_str pyd citation);
  item_key ← optional (validate_str pyd) item_key;
  Ok {| title := title; authors := authors; year := year;
        citation := citation; item_key := item_key |}.

(** [Chunk(id=..., ...)]; [relevance_score] is declared
    [Field(..., ge=0.0, le=1.0)]. *)
Definition Chunk_new (id text : value) (source : Source)
    (relevance_score agent_filtered agent_rank : value) : result Chunk :=
  id ← required (validate_str pyd id);
  text ← required (validate_str pyd text);
  relevance_score ← required (validate_float pyd relevance_score);
  if negb ((0 <=? relevance_score)%float && (relevance_score <=? 1)%float)
  then Raise ValidationError
  else
    agent_filtered ← required (validate_bool pyd agent_filtered);
    agent_rank ← optional (validate_int pyd) agent_rank;
    Ok {| id := id; text := text; source := source;
          relevance_score := relevance_score;
          agent_filtered := agent_filtered; agent_rank := agent_rank |}.

End Validation.
End Models.

(* ===================================================================== *)
(** ** api/routes.py                                                      *)
(* ===================================================================== *)

Module Routes.
Import Models.

Definition no_results_message : string :=
  "No results found. Try refining your query.".
Definition nothing_relevant_message : string :=
  "No relevant citations found after filtering. Try broadening your query.".

Definition heavy_rule : string := "â”â”â”â”â”â”â”â”â”â”â”â”â”â”â”â”â”â”â”â”â”â”â”â”â”â”â”â”â”â”â”â”â”â”â”â”â”â”â”â”â”â”â”â”â”â”â”â”".
Definition light_rule : string := "â”€â”€â”€â”€â”€â”€â”€â”€â”€â”€â”€â”€â”€â”€â”€â”€â”€â”€â”€â”€â”€â”€â”€â”€â”€â”€â”€â”€â”€â”€â”€â”€â”€â”€â”€â”€â”€â”€â”€â”€â”€â”€â”€â”€â”€â”€â”€â”€â”€".
Definition results_icon : string := "ğŸ“š".
Definition basic_footer : string := "Generated by gCite â€¢ cite-assist semantic search".

Section WithWorld.
Context {W : Type} (lib : PyLib) (pyd : Pydantic) (ext : External W).

(** [await cite_assist.search(query=..., limit=...)] *)
Definition search (query : string) (limit : Z) : M W (list value) := fun s =>
  let '(r, w) := cite_assist_search ext (world s) query limit in
  (r, State (heap s) w (calls s)).

(** [int((time.time() - start_time) * 1000)] *)
Definition processing_time : M W Z := fun s =>
  (Ok (elapsed_ms ext (world s)), s).

(** The dict built from one raw result. *)
Definition chunk_data_of (raw : value) : result dict :=
  chunk_id ← Py.attr_get raw "chunk_id" (VStr "");
  text ← Py.attr_get raw "text" (VStr "");
  metadata ← Py.attr_get raw "metadata" (VDict ∅);
  source_key ← Py.attr_get raw "source_key" (VStr "");
  score ← Py.attr_get raw "score" (VFloat 0);
  Ok (<["chunk_id" := chunk_id]>
     (<["text" := text]>
     (<["metadata" := metadata]>
     (<["source_key" := source_key]>
     (<["score" := score]> ∅))))).

Fixpoint build_chunks_data (raw_results : list value) : M W (list loc) :=
  match raw_results with
  | [] => mret []
  | raw :: raw_results' =>
      d ← lift (chunk_data_of raw);
      l ← alloc d;
      ls ← build_chunks_data raw_results';
      mret (l :: ls)
  end.

(** The [Chunk] object built from one ranked dict. *)
Definition to_chunk (chunk_data : dict) : result Chunk :=
  let metadata := Py.get chunk_data "metadata" (VDict ∅) in
  let id := Py.get chunk_data "chunk_id" (VStr "") in
  let text := Py.get chunk_data "text" (VStr "") in
  title ← Py.attr_get metadata "title" (VStr "Unknown");
  authors ← Py.attr_get metadata "authors" (VList []);
  year ← Py.attr_get metadata "year" (VInt 0);
  citation ← Py.attr_get metadata "citation" (VStr "");
  source ← Source_new pyd title authors year citation
             (Py.get chunk_data "source_key" VNone);
  Chunk_new pyd id text source
    (Py.get chunk_data "relevance_score" (Py.get chunk_data "score" (VFloat 0)))
    (Py.get chunk_data "agent_filtered" (VBool false))
    (Py.get chunk_data "agent_rank" (VInt 0)).

Fixpoint to_chunks (ranked_data : list loc) : M W (list Chunk) :=
  match ranked_data with
  | [] => mret []
  | l :: ranked_data' =>
      chunk_data ← load l;
      chunk ← lift (to_chunk chunk_data);
      chunks ← to_chunks ranked_data';
      mret (chunk :: chunks)
  end.

Definition rank_value (r : option Z) : value :=
  match r with Some n => VInt n | None => VNone end.

(** One entry of [chunks_for_format]. *)
Definition for_format (chunk : Chunk) : dict :=
  <["agent_rank" := rank_value (agent_rank chunk)]>
  (<["text" := VStr (text chunk)]>
  (<["metadata" :=
       VDict (<["title" := VStr (title (source chunk))]>
             (<["authors" := VList (List.map VStr (authors (source chunk)))]>
             (<["year" := VInt (year (source chunk))]>
             (<["citation" := VStr (citation (source chunk))]> ∅))))]>
  (<["relevance_score" := VFloat (relevance_score chunk)]> ∅))).

(** The lines one chunk contributes in [_format_basic]. *)
Definition basic_block (chunk : Chunk) : list string :=
  [ "[" +:+ py_str lib (rank_value (agent_rank chunk)) +:+ "] "
        +:+ title (source chunk);
    light_rule;
    "Relevance: " +:+ fmt_f lib 2 (relevance_score chunk);
    "";
    Py.dq +:+ text chunk +:+ Py.dq;
    "";
    "Citation: " +:+ citation (source chunk);
    "";
    light_rule;
    "" ].

(** [_format_basic] of [routes.py] *)
Definition _format_basic (chunks : list Chunk) (style : string) : string :=
  if bool_decide (length chunks = 0%nat) then "No citations found."
  else
    String.concat Py.nl
      (([ heavy_rule;
          results_icon +:+ " CITATION RESULTS ("
            +:+ py_str lib (VInt (Z.of_nat (length chunks))) +:+ " found)";
          heavy_rule;
          "" ]
        ++ List.concat (List.map basic_block chunks))
        ++ [ heavy_rule; basic_footer; heavy_rule ])%list.

(** The body of the [try] block of [search_citations]. *)
Definition search_pipeline (request : SearchRequest)
    (filter_agent rank_agent format_agent : BaseAgent.t)
  : M W SearchResponse :=
  let search_limit :=
    if filter request then max_results request * 2
    else max_results request in
  raw_results ← search (query request) search_limit;
  if bool_decide (length raw_results = 0%nat) then
    t ← processing_time;
    mret {| response_query := query request;
            results_count := 0;
            chunks := [];
            formatted_output := no_results_message;
            processing_time_ms := t |}
  else
    chunks_data ← build_chunks_data raw_results;
    filtered_data ←
      (if filter request && BaseAgent.enabled filter_agent then
         FilterAgent.filter lib ext filter_agent (query request)
           (context request) chunks_data (min_relevance request)
       else mret chunks_data);
    let filtered_data := Py.list_slice_to filtered_data (max_results request) in
    if bool_decide (length filtered_data = 0%nat) then
      t ← processing_time;
      mret {| response_query := query request;
              results_count := 0;
              chunks := [];
              formatted_output := nothing_relevant_message;
              processing_time_ms := t |}
    else
      ranked_data ←
        (if BaseAgent.enabled rank_agent then
           RankAgent.rank lib ext rank_agent (query request)
             (context request) filtered_data
         else
           RankAgent.assign_sequential_ranks filtered_data ;;
           mret filtered_data);
      chunks ← to_chunks ranked_data;
      formatted_output ←
        (if BaseAgent.enabled format_agent then
           FormatAgent.format lib ext format_agent
             (List.map for_format chunks)
             (CitationStyle_value (citation_style request))
             (include_context request)
         else
           mret (_format_basic chunks
                   (CitationStyle_value (citation_style request))));
      t ← processing_time;
      mret {| response_query := query request;
              results_count := Z.of_nat (length chunks);
              chunks := chunks;
              formatted_output := formatted_output;
              processing_time_ms := t |}.

(** [search_citations]: an exception of the pipeline becomes an
    [HTTPException] with status 500. *)
Definition search_citations (request : SearchRequest)
    (filter_agent rank_agent format_agent : BaseAgent.t)
  : M W SearchResponse :=
  try_except
    (search_pipeline request filter_agent rank_agent format_agent)
    (fun e => raise (HTTPException 500 ("Search failed: " +:+ exn_str lib e))).

End WithWorld.
End Routes.


(* ===================================================================== *)
(** ** A scripted outside world, to run the stages on concrete inputs     *)
(* ===================================================================== *)

Module Script.

(** The model answers with the outcomes of [responses], in order; the
    search service returns [results]. *)
Record world : Type := World {
  responses : list call_outcome;
  results : result (list value);
  clock : Z
}.

Definition ext : External world := {|
  generate_content_async w _ _ _ _ :=
    match responses w with
    | [] => (CallFailed (ExternalError "no response scripted"), w)
    | r :: rs => (r, World rs (results w) (clock w))
    end;
  cite_assist_search w _ _ := (results w, w);
  elapsed_ms := clock
|}.

(** A runtime whose [json.loads] is the table [parse]. *)
Definition lib (parse : string -> result value) : PyLib := {|
  str_strip s := s;
  json_loads := parse;
  json_dumps _ := "";
  float_of_str _ := None;
  int_of_str _ := None;
  py_str v := match v with VStr s => s | _ => "" end;
  fmt_f _ _ := "";
  exn_str _ := "";
  hashable_slices := true
|}.

Definition no_json : string -> result value := fun _ => Raise JSONDecodeError.

(** pydantic's strict reading of a JSON value. *)
Definition pyd : Pydantic := {|
  validate_str v := match v with VStr s => Some s | _ => None end;
  validate_int v := match v with VInt n => Some n | _ => None end;
  validate_float v := match v with VFloat f => Some f | _ => None end;
  validate_bool v := match v with VBool b => Some b | _ => None end;
  validate_str_list v :=
    match v with
    | VList l =>
        mapM (fun x => match x with VStr s => Some s | _ => None end) l
    | _ => None
    end
|}.

Definition agent_on : BaseAgent.t := BaseAgent.Build "gemini" true.
Definition agent_off : BaseAgent.t := BaseAgent.Build "gemini" false.

Definition start (h : gmap loc dict) (rs : list call_outcome)
    (found : result (list value)) : state world :=
  State h (World rs found 0) [].

(** The text [{"ranked_ids": ids, "reasoning": "by relevance"}] of a
    ranking verdict, [ids] being the text of the list. *)
Definition ranking_text (ids : string) : string :=
  "{" +:+ Py.dq +:+ "ranked_ids" +:+ Py.dq +:+ ": " +:+ ids +:+ ", "
      +:+ Py.dq +:+ "reasoning" +:+ Py.dq +:+ ": "
      +:+ Py.dq +:+ "by relevance" +:+ Py.dq +:+ "}".

(** A [json.loads] that knows one text, the ranking verdict above, and
    rejects every other. *)
Definition ranking (ids_text : string) (ids : list Z) : string -> result value :=
  fun s =>
    if String.eqb s (ranking_text ids_text) then
      Ok (VDict (<["ranked_ids" := VList (List.map VInt ids)]>
                (<["reasoning" := VStr "by relevance"]> ∅)))
    else Raise JSONDecodeError.

(** The text [{"relevant": relevant, "confidence": confidence,
    "reasoning": "r"}] of a relevance verdict. *)
Definition relevance_text (relevant confidence : string) : string :=
  "{" +:+ Py.dq +:+ "relevant" +:+ Py.dq +:+ ": " +:+ relevant +:+ ", "
      +:+ Py.dq +:+ "confidence" +:+ Py.dq +:+ ": " +:+ confidence +:+ ", "
      +:+ Py.dq +:+ "reasoning" +:+ Py.dq +:+ ": "
      +:+ Py.dq +:+ "r" +:+ Py.dq +:+ "}".

(** A [json.loads] that knows one text, the relevance verdict above. *)
Definition relevance (relevant_text confidence_text : string)
    (relevant : bool) (confidence : value) : string -> result value :=
  fun s =>
    if String.eqb s (relevance_text relevant_text confidence_text) then
      Ok (VDict (<["relevant" := VBool relevant]>
                (<["confidence" := confidence]>
                (<["reasoning" := VStr "r"]> ∅))))
    else Raise JSONDecodeError.

(** Three chunks, at the references 1, 2 and 3. *)
Definition three_chunks : gmap loc dict :=
  <[1%positive := {[ "text" := VStr "first" ]}]>
  (<[2%positive := {[ "text" := VStr "second" ]}]>
  (<[3%positive := {[ "text" := VStr "third" ]}]> ∅)).

(** A search result as cite-assist returns them. *)
Definition found (chunk_id text : string) (score : float) : value :=
  VDict (<["chunk_id" := VStr chunk_id]>
        (<["text" := VStr text]>
        (<["metadata" := VDict (<["title" := VStr "A title"]>
                               (<["authors" := VList [VStr "Author, A."]]>
                               (<["year" := VInt 2024]>
                               (<["citation" := VStr "Author, A. (2024)."]> ∅))))]>
        (<["source_key" := VStr "KEY"]>
        (<["score" := VFloat score]> ∅))))).

(** The request [{"query": "climate policy", "max_results": 5}], with the
    defaults of the other fields. *)
Definition request : Models.SearchRequest := {|
  Models.query := "climate policy";
  Models.context := None;
  Models.max_results := 5;
  Models.citation_style := Models.APA;
  Models.filter := true;
  Models.min_relevance := 0.7;
  Models.include_context := true
|}.

(** The [agent_rank] values of the chunks a stage returned. *)
Definition returned_ranks (r : result (list loc) * state world)
  : option (list (option value)) :=
  match r with
  | (Ok out, s') => Some (List.map (fun l => (heap s' !!! l) !! "agent_rank") out)
  | (Raise _, _) => None
  end.

(** The [text] values of the chunks a stage returned. *)
Definition returned_texts (r : result (list loc) * state world)
  : option (list (option value)) :=
  match r with
  | (Ok out, s') => Some (List.map (fun l => (heap s' !!! l) !! "text") out)
  | (Raise _, _) => None
  end.

End Script.


(* ===================================================================== *)
(** ** Statements the properties below refer to                           *)
(* ===================================================================== *)

(** The outcome of the SDK call [generate_content] would make. *)
Definition sdk_outcome {W} (ext : External W) (self : BaseAgent.t)
    (prompt : string) (temperature : float) (max_output_tokens : Z)
    (s : state W) : call_outcome :=
  fst (generate_content_async ext (world s) (BaseAgent.model_name self) prompt
         temperature max_output_tokens).

(** The three situations in which the adapter has nothing to offer: no
    credential, a failing call, an empty response. *)
Definition unavailable {W} (ext : External W) (self : BaseAgent.t)
    (prompt : string) (temperature : float) (max_output_tokens : Z)
    (s : state W) : Prop :=
  BaseAgent.enabled self = false
  \/ (exists e, sdk_outcome ext self prompt temperature max_output_tokens s
                = CallFailed e)
  \/ sdk_outcome ext self prompt temperature max_output_tokens s = Responded "".

(** The [agent_rank] a dict carries, and the ranks of a list of chunks. *)
Definition rank_of {W} (s : state W) (l : loc) : option value :=
  (heap s !!! l) !! "agent_rank".

Definition in_unit_interval (x : float) : Prop :=
  (0 <=? x)%float = true /\ (x <=? 1)%float = true.

(** The data model of the search collaborator: the score of a chunk, when
    it has one, is a float in [0, 1]. *)
Definition score_in_unit (d : dict) : Prop :=
  match d !! "score" with
  | Some v => exists c, v = VFloat c /\ in_unit_interval c
  | None => True
  end.

(** The relevance score of a chunk, when it has one, is a float in
    [0, 1]. *)
Definition relevance_in_unit (d : dict) : Prop :=
  match d !! "relevance_score" with
  | Some v => exists c, v = VFloat c /\ in_unit_interval c
  | None => True
  end.

(** The chunk carries a relevance score, a float in [0, 1]. *)
Definition scored {W} (s : state W) (l : loc) : Prop :=
  exists c, (heap s !!! l) !! "relevance_score" = Some (VFloat c)
            /\ in_unit_interval c.


(** The dicts of [h1] are as they were in [h2]. *)
Definition heap_frame (h1 h2 : gmap loc dict) : Prop :=
  forall l, l ∈ dom h1 -> h2 !! l = h1 !! l.

(** The chunks were ranked in place, in their order. *)
Definition ranked_in_place {W} (s s' : state W) (chunks : list loc) : Prop :=
  forall (i : nat) (l : loc),
    chunks !! i = Some l ->
    heap s' !!! l = <["agent_rank" := VInt (Z.of_nat i + 1)]> (heap s !!! l).

(** The chunks of [out] are new dicts, each a copy of an input dict with
    [agent_rank] and [rank_reasoning] set; the input dicts are untouched. *)
Definition ranked_copies {W} (s s' : state W) (chunks out : list loc) : Prop :=
  heap_frame (heap s) (heap s')
  /\ Forall (fun o =>
       (o ∉ dom (heap s))
       /\ exists (l : loc) (r : Z) (why : value),
            l ∈ chunks
            /\ heap s' !! o
               = Some (<["rank_reasoning" := why]>
                         (<["agent_rank" := VInt r]> (heap s !!! l)))) out.

(** The copies made so far: each one is a new dict, built from an input
    dict as the caller had it. *)
Definition copies_of {W} (s0 s : state W) (chunks out : list loc) : Prop :=
  Forall (fun o =>
    (o ∉ dom (heap s0))
    /\ exists (l : loc) (r : Z) (why : value),
         l ∈ chunks
         /\ heap s !! o
            = Some (<["rank_reasoning" := why]>
                      (<["agent_rank" := VInt r]> (heap s0 !!! l)))) out.

(** The path [RankAgent.rank] takes, read off its control flow. *)
Inductive rank_path : Type :=
  | Disabled
  | NoChunk
  | SingleChunk
  | EmptyResponse
  | Raised (e : exn)
  | VerdictApplied.

Definition path_of_rank {W} (lib : PyLib) (ext : External W)
    (self : BaseAgent.t) (query : string) (context : option string)
    (chunks : list loc) (s : state W) : rank_path :=
  if negb (BaseAgent.enabled self) then Disabled
  else
    match chunks with
    | [] => NoChunk
    | [_] => SingleChunk
    | _ =>
        match RankAgent.summarize lib 0 chunks s with
        | (Raise e, _) => Raised e
        | (Ok chunks_summary, s0) =>
            match BaseAgent.generate_content ext self
                    (RankAgent.prompt lib query context (VList chunks_summary))
                    0.2 500 s0 with
            | (Raise e, _) => Raised e
            | (Ok response_text, s1) =>
                if negb (Py.truthy_text response_text) then EmptyResponse
                else
                  match RankAgent.apply_verdict lib chunks
                          (default "" response_text) s1 with
                  | (Raise e, _) => Raised e
                  | (Ok _, _) => VerdictApplied
                  end
            end
        end
    end.

(* ===================================================================== *)
(** ** What a stage leaves alone, and what it may spend                   *)
(* ===================================================================== *)

(** A relation between the state a computation starts in and the one it
    ends in, whatever its outcome. *)
Definition preserves {W A} (R : relation (state W)) (m : M W A) : Prop :=
  forall s, R s (snd (m s)).

(** No dict was written. *)
Definition same_heap {W} : relation (state W) :=
  fun s s' => heap s' = heap s.

(** The dicts differ at most at the keys [ks]. *)
Definition only_keys {W} (ks : list string) : relation (state W) :=
  fun s s' =>
    forall (l : loc) (k : string),
      k ∉ ks -> (heap s' !!! l) !! k = (heap s !!! l) !! k.

(** The keys the filter stage writes. *)
Definition filter_keys : list string :=
  ["agent_filtered"; "relevance_score"; "filter_reasoning"].

(** At most [n] prompts were sent to the generative model, after those
    sent before. *)
Definition calls_within {W} (n : nat) : relation (state W) :=
  fun s s' =>
    exists more, calls s' = (calls s ++ more)%list /\ (length more <= n)%nat.

(** A chunk marked as verified by the model carries a score in [0, 1] at or
    above the threshold. *)
Definition verified_score {W} (threshold : float) (s : state W) (l : loc)
  : Prop :=
  (heap s !!! l) !! "agent_filtered" = Some (VBool true) ->
  exists c, (heap s !!! l) !! "relevance_score" = Some (VFloat c)
            /\ in_unit_interval c /\ (threshold <=? c)%float = true.

(** A verdict as [_evaluate_chunk] returns them. *)
Definition checked_verdict (d : dict) : Prop :=
  is_Some (d !! "relevant")
  /\ exists c, d !! "confidence" = Some (VFloat c) /\ in_unit_interval c.


(** Further scripted inputs. *)
Module Scenario.

(** The text [{"relevant": true, "confidence": 0.9}] of a relevance verdict
    that leaves [reasoning] out. *)
Definition bare_verdict_text : string :=
  "{" +:+ Py.dq +:+ "relevant" +:+ Py.dq +:+ ": true, "
      +:+ Py.dq +:+ "confidence" +:+ Py.dq +:+ ": 0.9}".

(** A [json.loads] that knows that text only. *)
Definition bare_verdict : string -> result value := fun s =>
  if String.eqb s bare_verdict_text then
    Ok (VDict (<["relevant" := VBool true]>
              (<["confidence" := VFloat 0.9]> ∅)))
  else Raise JSONDecodeError.

(** Two chunks, at the references 1 and 2. *)
Definition two_chunks : gmap loc dict :=
  <[1%positive := {[ "text" := VStr "first" ]}]>
  (<[2%positive := {[ "text" := VStr "second" ]}]> ∅).

End Scenario.


(** The reason [rank] gives for a chunk the verdict did not name. *)
Definition unranked_reason : value := VStr "Not included in agent ranking".

(** The order a ranking verdict asks for, over [n] chunks: the positions it
    names, each with the verdict's reasoning, then the positions it left
    out, in their order. *)
Definition rank_plan (reasoning : value) (n : nat) (ids : list Z)
  : list (Z * value) :=
  (List.map (fun j => (j, reasoning)) ids
   ++ List.map (fun j => (j, unranked_reason))
        (filter (fun j => j ∉ ids) (seqZ 0 (Z.of_nat n))))%list.

(** [out] realises [plan]: its i-th chunk is a new dict, a copy of the input
    chunk at the i-th position of the plan as the caller had it, with
    [agent_rank = i + 1] and the reason of the plan. *)
Definition ranked_as {W} (s s' : state W) (chunks : list loc)
    (plan : list (Z * value)) (out : list loc) : Prop :=
  length out = length plan
  /\ (forall (i : nat) (j : Z) (why : value) (o : loc),
        plan !! i = Some (j, why) -> out !! i = Some o ->
        (o ∉ dom (heap s))
        /\ (exists l,
              chunks !! Z.to_nat j = Some l
              /\ heap s' !! o
                 = Some (<["rank_reasoning" := why]>
                           (<["agent_rank" := VInt (Z.of_nat i + 1)]>
                              (heap s !!! l))))).


(** What [format] can return for a non-empty chunk list: the basic
    rendering, or a non-empty text of the model inside the wrapper. *)
Definition format_outcome {W} (lib : PyLib) (ext : External W)
    (self : BaseAgent.t) (chunks : list dict) (style : string)
    (include_context : bool) (s : state W) (r : result string) : Prop :=
  r = FormatAgent._format_basic lib chunks style include_context
  \/ exists data text,
       FormatAgent.collect_data chunks = Ok data
       /\ BaseAgent.enabled self = true
       /\ sdk_outcome ext self
            (FormatAgent.prompt lib style include_context (VList data))
            0.3 2000 s = Responded text
       /\ text <> ""
       /\ r = Ok (FormatAgent._add_wrapper lib text (Z.of_nat (length chunks))).


(** A text without a line break. *)
Fixpoint one_line (s : string) : bool :=
  match s with
  | EmptyString => true
  | String c s' => negb (Ascii.eqb c (ascii_of_nat 10)) && one_line s'
  end.

(** [not line.startswith('```')] *)
Definition unfenced (line : string) : bool := negb (String.prefix "```" line).


(** The limit [search_citations] gives to the search: twice the number of
    results asked for when the filter is requested. *)
Definition search_limit (request : Models.SearchRequest) : Z :=
  if Models.filter request then Models.max_results request * 2
  else Models.max_results request.

(** The chunk of a response that a raw search result becomes at position
    [i] when no agent runs: its dict, ranked by position, validated. *)
Definition chunk_at (pyd : Pydantic) (i : nat) (raw : value)
  : result Models.Chunk :=
  d ← Routes.chunk_data_of raw;
  Routes.to_chunk pyd (<["agent_rank" := VInt (Z.of_nat i + 1)]> d).

(* ===================================================================== *)
(** ** services/cite_assist.py                                            *)
(* ===================================================================== *)

Module CiteAssist.

(** The exceptions [search] tells apart: the two it catches, and the
    others. *)
Inductive error : Type :=
  | TimeoutException
  | HTTPStatusError (status_code : Z)
  | Other (e : exn).

(** What [await self.client.post(...)] comes to: a response, with its
    status and what [response.json()] gives, or an exception. *)
Inductive post_outcome : Type :=
  | Response (status_code : Z) (json : result value)
  | PostRaised (e : error).

(** httpx and tenacity, as far as [search] uses them, over the hidden state
    [W] of the network: the request, the statuses for which
    [raise_for_status] raises, and the pause tenacity makes after a failed
    attempt. *)
Record Http (W : Type) : Type := {
  post : W -> string -> value -> list (string * string) -> post_outcome * W;
  raises_for_status : Z -> bool;
  sleep : W -> nat -> W
}.
Arguments post {W} _ _ _ _ _.
Arguments raises_for_status {W} _ _.
Arguments sleep {W} _ _ _.

(** [CiteAssistClient] *)
Record t : Type := { base_url : string; api_key : string }.

(** The network, and the payloads posted so far. *)
Record cstate (W : Type) : Type := CState {
  transport : W;
  requests : list value
}.
Arguments CState {W} _ _.
Arguments transport {W} _.
Arguments requests {W} _.

Inductive outcome : Type :=
  | Returned (results : value)
  | Raised (e : error).

Definition payload (query : string) (limit : Z) (search_mode : string)
  : value :=
  VDict (<["query" := VStr query]>
        (<["limit" := VInt limit]>
        (<["search_mode" := VStr search_mode]> ∅))).

Definition headers (self : t) : list (string * string) :=
  if negb (String.eqb (api_key self) "")
  then [("Authorization", "Bearer " +:+ api_key self)]
  else [].

(** Whether [len(v)] is defined *)
Definition has_len (v : value) : bool :=
  match v with
  | VStr _ | VList _ | VDict _ => true
  | _ => false
  end.

(** The [except] clauses of [search]. *)
Definition handle (e : error) : outcome :=
  match e with
  | TimeoutException => Raised TimeoutException
  | HTTPStatusError status_code =>
      if 500 <=? status_code then Raised (HTTPStatusError status_code)
      else Returned (VList [])
  | Other e' => Raised (Other e')
  end.

Section WithNetwork.
Context {W : Type} (http : Http W).

(** The body of [search]: one attempt. *)
Definition search_once (self : t) (query : string) (limit : Z)
    (search_mode : string) (s : cstate W) : outcome * cstate W :=
  let '(out, w) :=
    post http (transport s) "/api/v1/search" (payload query limit search_mode)
         (headers self) in
  (match out with
   | PostRaised e => handle e
   | Response status_code json =>
       if raises_for_status http status_code
       then handle (HTTPStatusError status_code)
       else
         match json with
         | Raise e => handle (Other e)
         | Ok data =>
             match Py.attr_get data "results" (VList []) with
             | Raise e => handle (Other e)
             | Ok results =>
                 (* [len(results)] is evaluated for the log line *)
                 if has_len results then Returned results
                 else handle (Other TypeError)
             end
         end
   end,
   CState w (requests s ++ [payload query limit search_mode])).

(** [@retry(stop=stop_after_attempt(...), wait=..., reraise=True)]: after
    attempt [attempt_number] fails and [remaining] attempts are left, pause
    and try again; after the last one, raise its exception. *)
Fixpoint retry (remaining : nat) (attempt_number : nat)
    (attempt : cstate W -> outcome * cstate W) (s : cstate W)
  : outcome * cstate W :=
  match attempt s with
  | (Returned results, s') => (Returned results, s')
  | (Raised e, s') =>
      match remaining with
      | O => (Raised e, s')
      | S remaining' =>
          retry remaining' (S attempt_number) attempt
            (CState (sleep http (transport s') attempt_number) (requests s'))
      end
  end.

(** [CiteAssistClient.search], with [stop_after_attempt(3)]. *)
Definition search (self : t) (query : string) (limit : Z)
    (search_mode : string) : cstate W -> outcome * cstate W :=
  retry 2 1 (search_once self query limit search_mode).

(** The state in which the attempt after [k] failed ones starts: [s] for
    the first attempt, then what the failed attempt left, after the
    pause. *)
Fixpoint before (k : nat) (attempt_number : nat)
    (attempt : cstate W -> outcome * cstate W) (s : cstate W) : cstate W :=
  match k with
  | O => s
  | S k' =>
      before k' (S attempt_number) attempt
        (CState (sleep http (transport (snd (attempt s))) attempt_number)
                (requests (snd (attempt s))))
  end.

(** The attempts of [search] before attempt [k + 1] raised. *)
Definition failed_before (self : t) (query : string) (limit : Z)
    (search_mode : string) (k : nat) (s : cstate W) : Prop :=
  forall j : nat,
    (j < k)%nat ->
    exists e,
      fst (search_once self query limit search_mode
             (before j 1 (search_once self query limit search_mode) s))
      = Raised e.

End WithNetwork.

(** A scripted network: its state is the list of the outcomes still to
    come, one per post; [raise_for_status] raises for the statuses from 400
    on. *)
Definition scripted : Http (list post_outcome) := {|
  post w _ _ _ :=
    match w with
    | [] => (PostRaised TimeoutException, [])
    | out :: w' => (out, w')
    end;
  raises_for_status status_code := 400 <=? status_code;
  sleep w _ := w
|}.

End CiteAssist.


(** The text [{"relevant": true, "confidence": NaN, "reasoning": "r"}]:
    [json.loads] reads the literal [NaN] as the float of that name. *)
Definition nan_verdict_text : string := Script.relevance_text "true" "NaN".

Definition nan_verdict : string -> result value :=
  Script.relevance "true" "NaN" true (VFloat nan).


(** The keys the rank stage writes. *)
Definition rank_keys : list string := ["agent_rank"; "rank_reasoning"].

(** The dict [o] of the state [s'] is the dict [l] of the state [s], but
    for what the rank stage wrote. *)
Definition same_but_rank {W} (s s' : state W) (l o : loc) : Prop :=
  forall k : string,
    k ∉ rank_keys -> (heap s' !!! o) !! k = (heap s !!! l) !! k.

(** [o] is a marked copy of the dict [l] had in [s0]. *)
Definition copy_of {W} (s0 s : state W) (l o : loc) : Prop :=
  exists (r : Z) (why : value),
    heap s !! o
    = Some (<["rank_reasoning" := why]>
              (<["agent_rank" := VInt r]> (heap s0 !!! l))).

(** The chunks at the positions [I] have a copy in [out]. *)
Definition covered {W} (s0 s : state W) (chunks : list loc)
    (I : nat -> Prop) (out : list loc) : Prop :=
  forall (i : nat) (l : loc),
    I i -> chunks !! i = Some l -> exists o, o ∈ out /\ copy_of s0 s l o.

(* ===================================================================== *)
(** ** Properties                                                         *)
(* ===================================================================== *)

(** *** The monad, unfolded *)

Lemma run_bind {W A B} (m : M W A) (f : A -> M W B) (s : state W) :
  (m ≫= f) s =
  match m s with
  | (Ok a, s') => f a s'
  | (Raise e, s') => (Raise e, s')
  end.
Proof. reflexivity. Qed.

Lemma run_ret {W A} (a : A) (s : state W) : (mret a : M W A) s = (Ok a, s).
Proof. reflexivity. Qed.

Lemma run_lift {W A} (r : result A) (s : state W) : lift r s = (r, s).
Proof. reflexivity. Qed.

Lemma run_raise {W A} (e : exn) (s : state W) :
  (raise e : M W A) s = (Raise e, s).
Proof. reflexivity. Qed.

Lemma run_try_except {W A} (m : M W A) (h : exn -> M W A) (s : state W) :
  try_except m h s =
  match m s with
  | (Ok a, s') => (Ok a, s')
  | (Raise e, s') => h e s'
  end.
Proof. reflexivity. Qed.

Lemma run_load {W} (l : loc) (s : state W) : load l s = (Ok (heap s !!! l), s).
Proof. reflexivity. Qed.

Lemma run_setitem {W} (l : loc) (k : string) (v : value) (s : state W) :
  setitem l k v s =
  (Ok tt, State (<[l := <[k := v]> (heap s !!! l)]> (heap s)) (world s) (calls s)).
Proof. reflexivity. Qed.

Ltac run :=
  repeat first
    [ rewrite run_bind | rewrite run_ret | rewrite run_lift | rewrite run_raise
    | rewrite run_load | rewrite run_setitem ];
  cbn [fst snd heap world calls].

Section BaseAgentProperties.
Context {W : Type} (ext : External W).

Lemma generate_content_disabled (self : BaseAgent.t) prompt temperature n
    (s : state W) :
  BaseAgent.enabled self = false ->
  BaseAgent.generate_content ext self prompt temperature n s = (Ok None, s).
Proof.
  intros Hoff. unfold BaseAgent.generate_content. rewrite Hoff. reflexivity.
Qed.

Lemma generate_content_enabled (self : BaseAgent.t) prompt temperature n
    (s : state W) :
  BaseAgent.enabled self = true ->
  BaseAgent.generate_content ext self prompt temperature n s =
    (Ok match sdk_outcome ext self prompt temperature n s with
        | Responded text => Some text
        | CallFailed _ => None
        end,
     State (heap s)
           (snd (generate_content_async ext (world s)
                   (BaseAgent.model_name self) prompt temperature n))
           (calls s ++ [prompt])).
Proof.
  intros Hon. unfold BaseAgent.generate_content, sdk_outcome.
  rewrite Hon. cbn [negb]. rewrite run_bind. unfold BaseAgent.call_model.
  destruct (generate_content_async ext (world s) _ prompt temperature n)
    as [[text|e] w]; reflexivity.
Qed.

(** The heap is never touched by the adapter, and the log of calls only
    grows. *)
Lemma generate_content_heap (self : BaseAgent.t) prompt temperature n
    (s : state W) :
  heap (snd (BaseAgent.generate_content ext self prompt temperature n s)) = heap s.
Proof.
  destruct (BaseAgent.enabled self) eqn:E.
  - rewrite generate_content_enabled by assumption. reflexivity.
  - rewrite generate_content_disabled by assumption. reflexivity.
Qed.

Lemma generate_content_total (self : BaseAgent.t) prompt temperature n
    (s : state W) :
  exists o, fst (BaseAgent.generate_content ext self prompt temperature n s) = Ok o.
Proof.
  destruct (BaseAgent.enabled self) eqn:E.
  - rewrite generate_content_enabled by assumption. eauto.
  - rewrite generate_content_disabled by assumption. eauto.
Qed.

(** In the three situations of [unavailable] the adapter returns
    something falsy. *)
Lemma generate_content_falsy (self : BaseAgent.t) prompt temperature n
    (s : state W) :
  unavailable ext self prompt temperature n s ->
  exists o,
    fst (BaseAgent.generate_content ext self prompt temperature n s) = Ok o
    /\ Py.truthy_text o = false.
Proof.
  intros Hun. destruct (BaseAgent.enabled self) eqn:Hen.
  - rewrite generate_content_enabled by assumption. cbn [fst].
    destruct Hun as [Hoff | [[e He] | Hempty]]; [congruence | |].
    + rewrite He. exists None. auto.
    + rewrite Hempty. exists (Some ""). auto.
  - rewrite generate_content_disabled by assumption. exists None. auto.
Qed.

End BaseAgentProperties.

(** C5, as the code has it. [generate_content] never raises, whatever the
    agent, the prompt and the state of the service. It returns [None] when
    the service is unconfigured (no credential) and when the underlying call
    fails. When the call responds it returns the text of the response as it
    is: an empty text comes back as that empty text, which is not [None] but
    is just as falsy for the callers' test [if not response_text]. So in
    each of the three situations of [unavailable] the caller gets something
    falsy. *)
Theorem generate_content_unavailable {W} (ext : External W)
    (self : BaseAgent.t) (prompt : string) (temperature : float)
    (max_output_tokens : Z) (s : state W) :
  (exists o,
      fst (BaseAgent.generate_content ext self prompt temperature
             max_output_tokens s) = Ok o)
  /\ (BaseAgent.enabled self = false ->
      fst (BaseAgent.generate_content ext self prompt temperature
             max_output_tokens s) = Ok None)
  /\ (forall e,
        BaseAgent.enabled self = true ->
        sdk_outcome ext self prompt temperature max_output_tokens s
          = CallFailed e ->
        fst (BaseAgent.generate_content ext self prompt temperature
               max_output_tokens s) = Ok None)
  /\ (forall text,
        BaseAgent.enabled self = true ->
        sdk_outcome ext self prompt temperature max_output_tokens s
          = Responded text ->
        fst (BaseAgent.generate_content ext self prompt temperature
               max_output_tokens s) = Ok (Some text))
  /\ (BaseAgent.enabled self = true ->
      sdk_outcome ext self prompt temperature max_output_tokens s
        = Responded "" ->
      fst (BaseAgent.generate_content ext self prompt temperature
             max_output_tokens s) = Ok (Some "")
      /\ Some "" <> (None : option string)
      /\ Py.truthy_text (Some "") = false)
  /\ (unavailable ext self prompt temperature max_output_tokens s ->
      exists o,
        fst (BaseAgent.generate_content ext self prompt temperature
               max_output_tokens s) = Ok o
        /\ Py.truthy_text o = false).
Proof.
  assert (Hon : BaseAgent.enabled self = true ->
                fst (BaseAgent.generate_content ext self prompt temperature
                       max_output_tokens s)
                = Ok match sdk_outcome ext self prompt temperature
                             max_output_tokens s with
                     | Responded text => Some text
                     | CallFailed _ => None
                     end).
  { intros Hen. rewrite generate_content_enabled by assumption. reflexivity. }
  assert (Hoff : BaseAgent.enabled self = false ->
                 fst (BaseAgent.generate_content ext self prompt temperature
                        max_output_tokens s) = Ok None).
  { intros Hen. rewrite generate_content_disabled by assumption. reflexivity. }
  split; [|split; [|split; [|split; [|split]]]].
  - destruct (BaseAgent.enabled self); [rewrite Hon|rewrite Hoff]; eauto.
  - exact Hoff.
  - intros e Hen He. rewrite Hon, He by assumption. reflexivity.
  - intros text Hen Htext. rewrite Hon, Htext by assumption. reflexivity.
  - intros Hen Hempty. rewrite Hon, Hempty by assumption.
    split; [reflexivity|]. split; [discriminate|reflexivity].
  - intros Hun. destruct (BaseAgent.enabled self) eqn:Hen.
    + rewrite Hon by reflexivity.
      destruct Hun as [Habs | [[e He] | Hempty]]; [congruence| |].
      * rewrite He. exists None. auto.
      * rewrite Hempty. exists (Some ""). auto.
    + rewrite Hoff by reflexivity. exists None. auto.
Qed.

(** A witness of [generate_content_unavailable]: an enabled agent whose call
    fails returns [None], and one whose response is empty returns the empty
    text. *)
Lemma generate_content_unavailable_witness :
  fst (BaseAgent.generate_content Script.ext Script.agent_on "prompt" 0.1 200
         (Script.start ∅ [CallFailed (ExternalError "timeout")] (Ok [])))
  = Ok None
  /\ fst (BaseAgent.generate_content Script.ext Script.agent_on "prompt" 0.1
            200 (Script.start ∅ [Responded ""] (Ok [])))
     = Ok (Some "").
Proof.
  split.
  - destruct (generate_content_unavailable Script.ext Script.agent_on "prompt"
                0.1 200
                (Script.start ∅ [CallFailed (ExternalError "timeout")] (Ok [])))
      as (_ & _ & Hfailed & _).
    apply (Hfailed (ExternalError "timeout")); reflexivity.
  - destruct (generate_content_unavailable Script.ext Script.agent_on "prompt"
                0.1 200 (Script.start ∅ [Responded ""] (Ok [])))
      as (_ & _ & _ & _ & Hempty & _).
    apply Hempty; reflexivity.
Defined.

(** C5, as stated, fails: an enabled agent whose response has an empty text
    returns that text, not [None]. *)
Lemma generate_content_empty_response_not_None :
  ~ (forall (W : Type) (ext : External W) (self : BaseAgent.t)
       (prompt : string) (temperature : float) (max_output_tokens : Z)
       (s : state W),
        unavailable ext self prompt temperature max_output_tokens s ->
        fst (BaseAgent.generate_content ext self prompt temperature
               max_output_tokens s) = Ok None).
Proof.
  intros claim.
  specialize (claim Script.world Script.ext Script.agent_on "prompt"
                0.1%float 200 (Script.start ∅ [Responded ""] (Ok []))).
  discriminate claim.
  right. right. reflexivity.
Qed.

(** *** Filter stage, adapter disabled *)

(** C7: with the adapter disabled, [FilterAgent.filter] is the identity: it
    returns the list it was given (the same references, in the same order)
    and leaves the state as it found it: no dict is touched, so no chunk
    gets an [agent_filtered] mark, and no call is made. *)
Theorem filter_disabled_identity {W} (lib : PyLib) (ext : External W)
    (model_name query : string) (context : option string)
    (chunks : list loc) (threshold : float) (s : state W) :
  FilterAgent.filter lib ext (BaseAgent.Build model_name false) query context
    chunks threshold s = (Ok chunks, s)
  /\ Forall (fun l =>
       (heap (snd (FilterAgent.filter lib ext
                     (BaseAgent.Build model_name false) query context
                     chunks threshold s)) !!! l) !! "agent_filtered"
       = (heap s !!! l) !! "agent_filtered") chunks.
Proof.
  assert (H : FilterAgent.filter lib ext (BaseAgent.Build model_name false)
                query context chunks threshold s = (Ok chunks, s))
    by reflexivity.
  split; [exact H|]. rewrite H. apply Forall_forall. reflexivity.
Qed.

(** *** Rank stage, single chunk *)

(** C8: on a single chunk, [RankAgent.rank] returns that chunk with
    [agent_rank = 1]; the log of calls to the generative model and the
    outside world are as before, and nothing else is written. *)
Theorem rank_single_chunk {W} (lib : PyLib) (ext : External W)
    (self : BaseAgent.t) (query : string) (context : option string)
    (chunk : loc) (s : state W) :
  exists s',
    RankAgent.rank lib ext self query context [chunk] s = (Ok [chunk], s')
    /\ rank_of s' chunk = Some (VInt 1)
    /\ calls s' = calls s
    /\ world s' = world s
    /\ heap s' = <[chunk := <["agent_rank" := VInt 1]> (heap s !!! chunk)]> (heap s).
Proof.
  unfold RankAgent.rank, rank_of.
  destruct (BaseAgent.enabled self); cbn [negb].
  - rewrite bool_decide_false by discriminate. run.
    eexists. split; [reflexivity|]. cbn [heap world calls].
    rewrite lookup_total_insert_eq, lookup_insert_eq. auto.
  - unfold RankAgent.assign_sequential_ranks. cbn [for_enumerate]. run.
    eexists. split; [reflexivity|]. cbn [heap world calls].
    rewrite lookup_total_insert_eq, lookup_insert_eq. auto.
Qed.

(** *** Format stage, no chunk *)

(** C9: on an empty chunk list [FormatAgent.format] returns the fixed
    sentence, whatever the style, the context flag and the agent; the state
    is left as it was. *)
Theorem format_empty {W} (lib : PyLib) (ext : External W)
    (self : BaseAgent.t) (style : string) (include_context : bool)
    (s : state W) :
  FormatAgent.format lib ext self [] style include_context s
  = (Ok "No citations found.", s).
Proof.
  unfold FormatAgent.format.
  rewrite bool_decide_true by reflexivity.
  apply run_ret.
Qed.

(** *** Filter stage, failed evaluations *)

Lemma keep_verdict_relevant (r : string) :
  FilterAgent.keep_verdict r !! "relevant" = Some (VBool true).
Proof. unfold FilterAgent.keep_verdict. apply lookup_insert_eq. Qed.

Lemma keep_verdict_confidence (r : string) :
  FilterAgent.keep_verdict r !! "confidence" = Some (VFloat 0.5).
Proof.
  unfold FilterAgent.keep_verdict.
  rewrite lookup_insert_ne by discriminate. apply lookup_insert_eq.
Qed.

Lemma keep_verdict_reasoning (r : string) :
  FilterAgent.keep_verdict r !! "reasoning" = Some (VStr r).
Proof.
  unfold FilterAgent.keep_verdict.
  do 2 (rewrite lookup_insert_ne by discriminate). apply lookup_insert_eq.
Qed.

Section FilterProperties.
Context {W : Type} (lib : PyLib) (ext : External W).

(** What the loop of [filter] does with the verdict of a failed evaluation:
    the chunk goes through the threshold test like any other, with
    confidence 0.5. *)
Lemma filter_step_keep_verdict (threshold : float) (chunk : loc)
    (reasoning : string) (s : state W) :
  FilterAgent.filter_step lib threshold chunk
    (Ok (FilterAgent.keep_verdict reasoning)) s =
  if (threshold <=? 0.5)%float then
    (Ok true,
     State (<[chunk :=
                <["filter_reasoning" := VStr reasoning]>
                  (<["relevance_score" := VFloat 0.5]>
                     (<["agent_filtered" := VBool true]> (heap s !!! chunk)))]>
              (heap s))
           (world s) (calls s))
  else
    match Py.slice_to lib (Py.get (heap s !!! chunk) "text" (VStr "")) 50 with
    | Ok _ => (Ok false, s)
    | Raise e => (Raise e, s)
    end.
Proof.
  unfold FilterAgent.filter_step, Py.getitem.
  rewrite keep_verdict_relevant, keep_verdict_confidence, keep_verdict_reasoning.
  run. cbn [Py.truthy]. run. cbn [Py.ge_float]. run.
  destruct (threshold <=? 0.5)%float.
  - run. rewrite !lookup_total_insert_eq, !insert_insert_eq. reflexivity.
  - run. cbn [Py.format_f]. run.
    destruct (Py.slice_to lib _ 50); reflexivity.
Qed.

(** The evaluation of a chunk whose adapter call fails or comes back empty
    ends in the fail-open verdict. *)
Lemma evaluate_chunk_unavailable (self : BaseAgent.t) (query : string)
    (context : option string) (chunk : loc) (s : state W) (md : dict) :
  Py.get (heap s !!! chunk) "metadata" (VDict ∅) = VDict md ->
  unavailable ext self
    (FilterAgent.prompt lib query context
       (Py.get (heap s !!! chunk) "text" (VStr ""))
       (Py.get md "title" (VStr "Unknown"))
       (Py.get md "year" (VStr "Unknown"))) 0.1 200 s ->
  exists s',
    FilterAgent._evaluate_chunk lib ext self query context chunk s =
      (Ok (FilterAgent.keep_verdict
             "Error in evaluation - defaulted to keeping chunk"), s')
    /\ heap s' = heap s.
Proof.
  intros Hmd Hun. unfold FilterAgent._evaluate_chunk. run.
  rewrite Hmd. cbn [Py.attr_get]. run.
  rewrite run_try_except. unfold FilterAgent.evaluate_response. run.
  set (p := FilterAgent.prompt lib query context _ _ _) in *.
  pose proof (generate_content_heap ext self p 0.1%float 200 s) as Hheap.
  destruct (generate_content_falsy ext self p _ _ s Hun)
    as (o & Ho & Hfalsy).
  revert Hheap Ho.
  destruct (BaseAgent.generate_content ext self p 0.1 200 s) as [r s1].
  cbn [fst snd]. intros Hheap ->. rewrite Hfalsy. cbn [negb]. run.
  eauto.
Qed.

End FilterProperties.

(** C1, the code at its failing inputs: a chunk whose evaluation ended in
    the fail-open verdict (confidence 0.5) is dropped by [filter] as soon as
    the threshold is above 0.5, the default 0.7 included, although that
    verdict is commented "default to keeping chunk". *)
Theorem filter_drops_failed_evaluation {W} (lib : PyLib) (ext : External W)
    (self : BaseAgent.t) (query : string) (context : option string)
    (chunk : loc) (threshold : float) (reasoning : string)
    (s s1 : state W) (preview : value) :
  BaseAgent.enabled self = true ->
  FilterAgent._evaluate_chunk lib ext self query context chunk s
    = (Ok (FilterAgent.keep_verdict reasoning), s1) ->
  (threshold <=? 0.5)%float = false ->
  Py.slice_to lib (Py.get (heap s1 !!! chunk) "text" (VStr "")) 50
    = Ok preview ->
  FilterAgent.filter lib ext self query context [chunk] threshold s
    = (Ok [], s1).
Proof.
  intros Hon Heval Hthr Htext. unfold FilterAgent.filter.
  rewrite Hon. cbn [negb]. rewrite bool_decide_false by discriminate.
  cbn [List.map FilterAgent.gather]. run. rewrite run_try_except. run.
  rewrite Heval. run. cbn [zip zip_with FilterAgent.filter_loop]. run.
  rewrite filter_step_keep_verdict, Hthr, Htext. reflexivity.
Qed.

(** A witness of [filter_drops_failed_evaluation]: the adapter call fails
    and the threshold is the default 0.7. *)
Lemma filter_drops_failed_evaluation_witness :
  FilterAgent.filter (Script.lib Script.no_json) Script.ext Script.agent_on
    "query" None [1%positive] 0.7
    (Script.start {[ 1%positive := {[ "text" := VStr "a chunk" ]} ]}
       [CallFailed (ExternalError "timeout")] (Ok []))
  = (Ok [],
     State {[ 1%positive := {[ "text" := VStr "a chunk" ]} ]}
           (Script.World [] (Ok []) 0)
           [FilterAgent.prompt (Script.lib Script.no_json) "query" None
              (VStr "a chunk") (VStr "Unknown") (VStr "Unknown")]).
Proof.
  apply (filter_drops_failed_evaluation (Script.lib Script.no_json) Script.ext
           Script.agent_on "query" None 1%positive 0.7
           "Error in evaluation - defaulted to keeping chunk" _ _
           (VStr "a chunk")).
  - reflexivity.
  - vm_compute. reflexivity.
  - reflexivity.
  - vm_compute. reflexivity.
Defined.

(** *** Rank stage, malformed id lists *)

(** C2, the code at its failing inputs. Three chunks are ranked.
    - The model answers [ranked_ids = [0, 0, 1]]: the duplicate is skipped
      but its position is counted, so the ranks come out as 1, 3, 3.
    - The model answers [ranked_ids = [5, 0]]: the invalid id is skipped but
      its position is counted, so the ranks come out as 2, 2, 3.
    - The model answers [ranked_ids = [-1]]: the negative id indexes from
      the end and is never matched by the positions 0..2, so the last chunk
      is returned twice, among four chunks. *)
Theorem rank_malformed_ids :
  Script.returned_ranks
    (RankAgent.rank (Script.lib (Script.ranking "[0, 0, 1]" [0; 0; 1]))
       Script.ext
       Script.agent_on "query" None [1; 2; 3]%positive
       (Script.start Script.three_chunks
          [Responded (Script.ranking_text "[0, 0, 1]")] (Ok [])))
  = Some [Some (VInt 1); Some (VInt 3); Some (VInt 3)]
  /\ Script.returned_ranks
       (RankAgent.rank (Script.lib (Script.ranking "[5, 0]" [5; 0]))
          Script.ext
          Script.agent_on "query" None [1; 2; 3]%positive
          (Script.start Script.three_chunks
             [Responded (Script.ranking_text "[5, 0]")] (Ok [])))
     = Some [Some (VInt 2); Some (VInt 2); Some (VInt 3)]
  /\ Script.returned_texts
       (RankAgent.rank (Script.lib (Script.ranking "[-1]" [-1]))
          Script.ext
          Script.agent_on "query" None [1; 2; 3]%positive
          (Script.start Script.three_chunks
             [Responded (Script.ranking_text "[-1]")] (Ok [])))
     = Some [Some (VStr "third"); Some (VStr "first"); Some (VStr "second");
             Some (VStr "third")].
Proof. repeat split; vm_compute; reflexivity. Qed.

(** *** Orchestrator, empty outcomes *)

Lemma search_keeps_calls {W} (ext : External W) (query : string) (limit : Z)
    (s : state W) :
  calls (snd (Routes.search ext query limit s)) = calls s
  /\ heap (snd (Routes.search ext query limit s)) = heap s.
Proof.
  unfold Routes.search.
  destruct (cite_assist_search ext (world s) query limit); auto.
Qed.

(** C3: (1) when the search collaborator returns no result, the response
    has [results_count = 0], no chunk and the message "No results found. Try
    refining your query."; the log of calls to the generative model is as it
    was: no AI stage ran. (2) When there were results and the AI filter
    returned none of them, the response has [results_count = 0], no chunk and
    the message "No relevant citations found after filtering. Try broadening
    your query.". (3) The two messages differ. *)
Theorem search_citations_empty {W} (lib : PyLib) (pyd : Pydantic)
    (ext : External W) (request : Models.SearchRequest)
    (filter_agent rank_agent format_agent : BaseAgent.t) (s : state W) :
  let search_limit :=
    if Models.filter request then Models.max_results request * 2
    else Models.max_results request in
  (forall s1,
      Routes.search ext (Models.query request) search_limit s = (Ok [], s1) ->
      Routes.search_citations lib pyd ext request filter_agent rank_agent
        format_agent s
      = (Ok {| Models.response_query := Models.query request;
               Models.results_count := 0;
               Models.chunks := [];
               Models.formatted_output :=
                 "No results found. Try refining your query.";
               Models.processing_time_ms := elapsed_ms ext (world s1) |}, s1)
      /\ calls s1 = calls s)
  /\ (forall raw raw_results s1 chunks_data s2 s3,
      Routes.search ext (Models.query request) search_limit s
        = (Ok (raw :: raw_results), s1) ->
      Routes.build_chunks_data (raw :: raw_results) s1 = (Ok chunks_data, s2) ->
      Models.filter request = true ->
      BaseAgent.enabled filter_agent = true ->
      FilterAgent.filter lib ext filter_agent (Models.query request)
        (Models.context request) chunks_data (Models.min_relevance request) s2
        = (Ok [], s3) ->
      Routes.search_citations lib pyd ext request filter_agent rank_agent
        format_agent s
      = (Ok {| Models.response_query := Models.query request;
               Models.results_count := 0;
               Models.chunks := [];
               Models.formatted_output :=
                 "No relevant citations found after filtering. Try broadening your query.";
               Models.processing_time_ms := elapsed_ms ext (world s3) |}, s3))
  /\ Routes.no_results_message <> Routes.nothing_relevant_message.
Proof.
  intros search_limit. split; [|split].
  - intros s1 Hsearch. split.
    + unfold Routes.search_citations, Routes.search_pipeline.
      rewrite run_try_except. run. fold search_limit. rewrite Hsearch.
      reflexivity.
    + pose proof (search_keeps_calls ext (Models.query request) search_limit s)
        as [Hc _].
      rewrite Hsearch in Hc. exact Hc.
  - intros raw raw_results s1 chunks_data s2 s3 Hsearch Hbuild Hf Hon Hfilter.
    unfold Routes.search_citations, Routes.search_pipeline.
    rewrite run_try_except. run. fold search_limit. rewrite Hsearch.
    rewrite bool_decide_false by discriminate. run.
    rewrite Hbuild. run. rewrite Hf, Hon. cbn [andb]. rewrite Hfilter.
    unfold Py.list_slice_to.
    destruct (0 <=? Models.max_results request); rewrite take_nil; reflexivity.
  - discriminate.
Qed.

(** A witness of [search_citations_empty]: a search that finds nothing, and
    a search that finds one chunk which the model judges irrelevant. *)
Lemma search_citations_empty_witness :
  Routes.search_citations (Script.lib Script.no_json) Script.pyd Script.ext
    Script.request Script.agent_on Script.agent_on Script.agent_on
    (Script.start ∅ [] (Ok []))
  = (Ok {| Models.response_query := "climate policy";
           Models.results_count := 0;
           Models.chunks := [];
           Models.formatted_output :=
             "No results found. Try refining your query.";
           Models.processing_time_ms := 0 |},
     Script.start ∅ [] (Ok []))
  /\ fst (Routes.search_citations
            (Script.lib
               (Script.relevance "false" "0.9" false (VFloat 0.9))) Script.pyd
            Script.ext Script.request Script.agent_on Script.agent_on
            Script.agent_on
            (Script.start ∅
               [Responded (Script.relevance_text "false" "0.9")]
               (Ok [Script.found "c1" "a chunk" 0.8])))
     = Ok {| Models.response_query := "climate policy";
             Models.results_count := 0;
             Models.chunks := [];
             Models.formatted_output :=
               "No relevant citations found after filtering. Try broadening your query.";
             Models.processing_time_ms := 0 |}.
Proof.
  split.
  - pose proof (search_citations_empty (Script.lib Script.no_json) Script.pyd
                  Script.ext Script.request Script.agent_on Script.agent_on
                  Script.agent_on (Script.start ∅ [] (Ok [])))
      as (Hnothing & _ & _).
    apply (Hnothing (Script.start ∅ [] (Ok []))). reflexivity.
  - pose proof (search_citations_empty
                  (Script.lib
                     (Script.relevance "false" "0.9" false (VFloat 0.9)))
                  Script.pyd Script.ext Script.request Script.agent_on
                  Script.agent_on Script.agent_on
                  (Script.start ∅
                     [Responded (Script.relevance_text "false" "0.9")]
                     (Ok [Script.found "c1" "a chunk" 0.8])))
      as (_ & Hfiltered & _).
    erewrite Hfiltered; [ | vm_compute; reflexivity ..].
    reflexivity.
Defined.

(** *** Relevance scores and the unit interval *)

Lemma float_ltb_leb (x y : float) :
  (x <? y)%float = true -> (x <=? y)%float = true.
Proof.
  rewrite ltb_spec, leb_spec. unfold SFltb, SFleb.
  destruct (SFcompare (Prim2SF x) (Prim2SF y)) as [[]|]; congruence.
Qed.

(** [max(0.0, min(1.0, x))] lies in [0, 1], for every float [x], the
    infinities and NaN included. *)
Lemma clamp_in_unit_interval (x : float) :
  in_unit_interval (FilterAgent.clamp x).
Proof.
  unfold FilterAgent.clamp, Py.min, Py.max, in_unit_interval.
  destruct (x <? 1)%float eqn:Hx1.
  - destruct (0 <? x)%float eqn:H0x.
    + split; apply float_ltb_leb; assumption.
    + split; reflexivity.
  - cbn. split; reflexivity.
Qed.

Lemma bind_Ok_inv {W A B} (m : M W A) (f : A -> M W B) (s s' : state W) (b : B) :
  (m ≫= f) s = (Ok b, s') ->
  exists a s1, m s = (Ok a, s1) /\ f a s1 = (Ok b, s').
Proof.
  rewrite run_bind. destruct (m s) as [[a|e] s1]; [eauto | discriminate].
Qed.

Lemma result_bind_Ok_inv {A B} (r : result A) (f : A -> result B) (b : B) :
  r ≫= f = Ok b -> exists a, r = Ok a /\ f a = Ok b.
Proof. destruct r as [a|e]; [eauto | discriminate]. Qed.

Tactic Notation "inv_bind" hyp(H) "as" ident(a) ident(s1) ident(H1) :=
  apply bind_Ok_inv in H; destruct H as (a & s1 & H1 & H).

Tactic Notation "inv_result_bind" hyp(H) "as" ident(a) ident(H1) :=
  apply result_bind_Ok_inv in H; destruct H as (a & H1 & H).

Section ScoreProperties.
Context {W : Type} (lib : PyLib) (pyd : Pydantic) (ext : External W).

(** Every verdict [_evaluate_chunk] returns carries a confidence in [0, 1]:
    the clamped one of the model, or the 0.5 of the fail-open verdict. *)
Lemma evaluate_chunk_confidence (self : BaseAgent.t) (query : string)
    (context : option string) (chunk : loc) (s s' : state W) (d : dict) :
  FilterAgent._evaluate_chunk lib ext self query context chunk s = (Ok d, s') ->
  exists c, d !! "confidence" = Some (VFloat c) /\ in_unit_interval c.
Proof.
  assert (Hkeep : forall r,
    exists c, FilterAgent.keep_verdict r !! "confidence" = Some (VFloat c)
              /\ in_unit_interval c).
  { intros r. exists 0.5%float. split; [apply keep_verdict_confidence|].
    split; reflexivity. }
  unfold FilterAgent._evaluate_chunk. intros H.
  inv_bind H as c s1 Hload. inv_bind H as title s2 Htitle.
  inv_bind H as year s3 Hyear.
  rewrite run_try_except in H.
  destruct (FilterAgent.evaluate_response lib ext self _ s3) as [[v|e] s4] eqn:Hev.
  - injection H as <- <-. clear - Hev Hkeep.
    unfold FilterAgent.evaluate_response in Hev.
    inv_bind Hev as response_text s5 Hgen.
    destruct (negb (Py.truthy_text response_text)).
    + injection Hev as <- <-. apply Hkeep.
    + inv_bind Hev as parsed s6 Hparse.
      destruct parsed as [| | | | | |result]; try discriminate.
      destruct (result !! "relevant"); [|discriminate].
      destruct (result !! "confidence"); [|discriminate].
      inv_bind Hev as x s7 Hfloat. injection Hev as <- <-.
      exists (FilterAgent.clamp x). split.
      * apply lookup_insert_eq.
      * apply clamp_in_unit_interval.
  - destruct e; injection H as <- <-; apply Hkeep.
Qed.

(** The loop of [filter] stores the verdict's confidence on a chunk it
    keeps, and on the branch for a raised evaluation the prior [score] as it
    is, 0.5 when there is none. *)
Lemma filter_step_stores (threshold : float) (chunk : loc) (s : state W) :
  (forall d s', FilterAgent.filter_step lib threshold chunk (Ok d) s
                = (Ok true, s') ->
     (heap s' !!! chunk) !! "relevance_score" = d !! "confidence"
     /\ (heap s' !!! chunk) !! "agent_filtered" = Some (VBool true))
  /\ (forall e, exists s',
       FilterAgent.filter_step lib threshold chunk (Raise e) s = (Ok true, s')
       /\ (heap s' !!! chunk) !! "relevance_score"
          = Some (Py.get (heap s !!! chunk) "score" (VFloat 0.5))
       /\ (heap s' !!! chunk) !! "agent_filtered" = Some (VBool false)).
Proof.
  split.
  - intros d s' H. unfold FilterAgent.filter_step in H.
    inv_bind H as relevant s1 Hrel. inv_bind H as keep s2 Hkeep.
    destruct keep.
    + inv_bind H as u1 s3 H1. inv_bind H as confidence s4 Hconf.
      inv_bind H as u2 s5 H2. inv_bind H as reasoning s6 Hreason.
      inv_bind H as u3 s7 H3. injection H as <-.
      rewrite run_setitem in H1, H2, H3. rewrite run_lift in Hconf, Hreason.
      injection H1 as _ <-. injection Hconf as Hconf <-.
      injection H2 as _ <-. injection Hreason as _ <-. injection H3 as _ <-.
      cbn [heap]. unfold Py.getitem in Hconf.
      destruct (d !! "confidence") as [c|]; [|discriminate].
      injection Hconf as <-.
      rewrite !lookup_total_insert_eq.
      rewrite lookup_insert_ne by discriminate. rewrite lookup_insert_eq.
      split; [reflexivity|].
      do 2 (rewrite lookup_insert_ne by discriminate). apply lookup_insert_eq.
    + inv_bind H as c s3 Hc. inv_bind H as u s4 Hu. inv_bind H as c' s5 Hc'.
      inv_bind H as u' s6 Hu'. discriminate.
  - intros e. cbn [FilterAgent.filter_step]. run. eexists. split; [reflexivity|].
    cbn [heap]. rewrite !lookup_total_insert_eq.
    rewrite lookup_insert_eq. split.
    + unfold Py.get. rewrite lookup_insert_ne by discriminate. reflexivity.
    + rewrite lookup_insert_ne by discriminate. apply lookup_insert_eq.
Qed.

(** [Chunk(...)] validates [relevance_score] against [ge=0.0, le=1.0]. *)
Lemma to_chunk_in_unit_interval (chunk_data : dict) (c : Models.Chunk) :
  Routes.to_chunk pyd chunk_data = Ok c ->
  in_unit_interval (Models.relevance_score c).
Proof.
  unfold Routes.to_chunk. intros H.
  inv_result_bind H as title Ht. inv_result_bind H as authors Ha.
  inv_result_bind H as year Hy. inv_result_bind H as citation Hc.
  inv_result_bind H as source Hs.
  unfold Models.Chunk_new in H.
  inv_result_bind H as id Hid. inv_result_bind H as text Htext.
  inv_result_bind H as r Hr.
  destruct ((0 <=? r)%float && (r <=? 1)%float) eqn:Hrange; [|discriminate].
  cbn [negb] in H.
  inv_result_bind H as af Haf. inv_result_bind H as ar Har.
  injection H as <-. cbn. apply andb_prop in Hrange. exact Hrange.
Qed.

Lemma to_chunks_in_unit_interval (ranked_data : list loc) (s s' : state W)
    (cs : list Models.Chunk) :
  Routes.to_chunks pyd ranked_data s = (Ok cs, s') ->
  Forall (fun c => in_unit_interval (Models.relevance_score c)) cs.
Proof.
  revert s s' cs. induction ranked_data as [|l ls IH]; intros s s' cs H.
  - injection H as <- <-. constructor.
  - cbn [Routes.to_chunks] in H.
    inv_bind H as d s1 Hd. inv_bind H as c s2 Hc. inv_bind H as cs' s3 Hcs.
    injection H as <- <-. constructor.
    + rewrite run_lift in Hc. injection Hc as Hc _.
      eapply to_chunk_in_unit_interval; eassumption.
    + eapply IH; eassumption.
Qed.

(** Every chunk of a response went through that validation. *)
Lemma search_pipeline_scores (request : Models.SearchRequest)
    (filter_agent rank_agent format_agent : BaseAgent.t) (s s' : state W)
    (response : Models.SearchResponse) :
  Routes.search_citations lib pyd ext request filter_agent rank_agent
    format_agent s = (Ok response, s') ->
  Forall (fun c => in_unit_interval (Models.relevance_score c))
         (Models.chunks response).
Proof.
  unfold Routes.search_citations. rewrite run_try_except.
  destruct (Routes.search_pipeline _ _ _ _ _ _ _ s) as [[r|e] s1] eqn:Hp;
    [|discriminate].
  intros H. injection H as <- <-. unfold Routes.search_pipeline in Hp.
  inv_bind Hp as raw s2 Hsearch.
  destruct (bool_decide (length raw = 0%nat)).
  - inv_bind Hp as t s3 Ht. injection Hp as <- <-. constructor.
  - inv_bind Hp as chunks_data s3 Hbuild. inv_bind Hp as filtered s4 Hfilter.
    destruct (bool_decide (length (Py.list_slice_to filtered _) = 0%nat)).
    + inv_bind Hp as t s5 Ht. injection Hp as <- <-. constructor.
    + inv_bind Hp as ranked s5 Hrank. inv_bind Hp as cs s6 Hcs.
      inv_bind Hp as out s7 Hout. inv_bind Hp as t s8 Ht.
      injection Hp as <- <-. cbn. eapply to_chunks_in_unit_interval; eassumption.
Qed.
End ScoreProperties.

(** *** Binary64 arithmetic: the product of a relevance score and 5

    [Prim2SF] reads a primitive float as a [spec_float], on which the
    multiplication is [SFmul]: the exact product, rounded to nearest even by
    [binary_round_aux]. *)

Lemma digits2_pos_size (p : positive) : digits2_pos p = Pos.size p.
Proof. induction p; simpl; congruence. Qed.

Lemma digits2_pos_gt (p : positive) : Zpos p < 2 ^ Zpos (digits2_pos p).
Proof.
  rewrite digits2_pos_size. pose proof (Pos.size_gt p) as H.
  apply Pos2Z.pos_lt_pos in H. rewrite Pos2Z.inj_pow in H. exact H.
Qed.

Lemma digits2_pos_le (p : positive) : 2 ^ (Zpos (digits2_pos p) - 1) <= Zpos p.
Proof.
  rewrite digits2_pos_size. pose proof (Pos.size_le p) as H.
  apply Pos2Z.pos_le_pos in H. rewrite Pos2Z.inj_pow in H.
  replace (Zpos (Pos.size p)) with (Z.succ (Zpos (Pos.size p) - 1)) in H by lia.
  rewrite Z.pow_succ_r in H by lia. lia.
Qed.

(** A number below [2 ^ k] has at most [k] digits. *)
Lemma digits2_pos_bound (p : positive) (k : Z) :
  Zpos p < 2 ^ k -> Zpos (digits2_pos p) <= k.
Proof.
  intros H. pose proof (digits2_pos_le p) as Hle.
  destruct (Z_le_gt_dec (Zpos (digits2_pos p)) k) as [|Hgt]; [assumption|].
  exfalso. assert (2 ^ k <= 2 ^ (Zpos (digits2_pos p) - 1)).
  { apply Z.pow_le_mono_r; lia. }
  lia.
Qed.

Lemma shr_1_m (mrs : shr_record) :
  0 <= shr_m mrs -> shr_m (shr_1 mrs) = shr_m mrs / 2.
Proof.
  destruct mrs as [m r s]. cbn [shr_m]. intros Hm.
  rewrite <- Z.div2_div.
  destruct m as [|[p|p|]|p]; try reflexivity; lia.
Qed.

Lemma iter_shr_1_m (p : positive) (mrs : shr_record) :
  0 <= shr_m mrs ->
  shr_m (SpecFloat.iter_pos shr_1 p mrs) = shr_m mrs / 2 ^ Zpos p.
Proof.
  revert mrs. induction p as [p IH|p IH|]; intros mrs Hm; cbn [SpecFloat.iter_pos].
  - assert (H1 : 0 <= shr_m (shr_1 mrs)).
    { rewrite shr_1_m by assumption. apply Z.div_pos; lia. }
    assert (H2 : 0 <= shr_m (SpecFloat.iter_pos shr_1 p (shr_1 mrs))).
    { rewrite IH by assumption. apply Z.div_pos; [lia|]. apply Z.pow_pos_nonneg; lia. }
    rewrite IH, IH, shr_1_m by assumption.
    rewrite !Z.div_div by (try apply Z.pow_pos_nonneg; lia).
    f_equal. rewrite (Pos2Z.inj_xI p).
    replace (2 * Zpos p + 1) with (1 + Zpos p + Zpos p) by lia.
    rewrite !Z.pow_add_r by lia. lia.
  - assert (H2 : 0 <= shr_m (SpecFloat.iter_pos shr_1 p mrs)).
    { rewrite IH by assumption. apply Z.div_pos; [lia|]. apply Z.pow_pos_nonneg; lia. }
    rewrite IH, IH by assumption.
    rewrite !Z.div_div by (try apply Z.pow_pos_nonneg; lia).
    f_equal. rewrite (Pos2Z.inj_xO p).
    replace (2 * Zpos p) with (Zpos p + Zpos p) by lia.
    rewrite !Z.pow_add_r by lia. lia.
  - rewrite shr_1_m by assumption. reflexivity.
Qed.

(** What [shr] leaves of a mantissa bounded by [c * 2 ^ (- e)], when the
    target exponent stays negative. *)
Lemma shr_bound (c m e n : Z) (r s : bool) :
  0 <= m -> 0 <= c -> m <= c * 2 ^ (- e) -> e + Z.max n 0 <= 0 ->
  let '(mrs, e') := shr (Build_shr_record m r s) e n in
  0 <= shr_m mrs /\ shr_m mrs <= m /\ shr_m mrs <= c * 2 ^ (- e')
  /\ e' = e + Z.max n 0.
Proof.
  intros Hm Hc Hle He. unfold shr. destruct n as [|p|p].
  - cbn [shr_m]. rewrite Z.max_r, Z.add_0_r by lia. repeat split; lia.
  - rewrite iter_shr_1_m by assumption. cbn [shr_m].
    rewrite Z.max_l in * by lia.
    assert (Hpow : 0 < 2 ^ Zpos p) by (apply Z.pow_pos_nonneg; lia).
    split; [apply Z.div_pos; lia|]. split.
    + apply Z.div_le_upper_bound; [lia|]. nia.
    + split; [|reflexivity].
      apply Z.div_le_upper_bound; [lia|].
      replace (- e) with (Zpos p + - (e + Zpos p)) in Hle by lia.
      rewrite Z.pow_add_r in Hle by lia. lia.
  - cbn [shr_m]. rewrite Z.max_r, Z.add_0_r by lia. repeat split; lia.
Qed.

Lemma shr_bound_lt (c m e n : Z) (r s : bool) :
  0 <= m -> 0 <= c -> m < c * 2 ^ (- e) -> e + Z.max n 0 <= 0 ->
  let '(mrs, e') := shr (Build_shr_record m r s) e n in
  0 <= shr_m mrs /\ shr_m mrs < c * 2 ^ (- e') /\ e' = e + Z.max n 0.
Proof.
  intros Hm Hc Hlt He. unfold shr. destruct n as [|p|p].
  - cbn [shr_m]. rewrite Z.max_r, Z.add_0_r by lia. repeat split; lia.
  - rewrite iter_shr_1_m by assumption. cbn [shr_m].
    rewrite Z.max_l in * by lia.
    assert (Hpow : 0 < 2 ^ Zpos p) by (apply Z.pow_pos_nonneg; lia).
    split; [apply Z.div_pos; lia|]. split; [|reflexivity].
    apply Z.div_lt_upper_bound; [lia|].
    replace (- e) with (Zpos p + - (e + Zpos p)) in Hlt by lia.
    rewrite Z.pow_add_r in Hlt by lia. lia.
  - cbn [shr_m]. rewrite Z.max_r, Z.add_0_r by lia. repeat split; lia.
Qed.

Lemma fexp_small (x : Z) : x <= 3 -> fexp prec emax x <= -50.
Proof. unfold fexp, SpecFloat.emin, prec, emax. lia. Qed.

(** Rounding a positive number that is at most 5, given with an exponent
    of at most -50, gives a number below 6. *)
Lemma binary_round_aux_bound (M : positive) (E : Z) :
  Zpos M <= 5 * 2 ^ (- E) -> E <= -50 ->
  match binary_round_aux prec emax false (Zpos M) E loc_Exact with
  | S754_zero _ => True
  | S754_finite false m e => e <= -50 /\ Zpos m < 6 * 2 ^ (- e)
  | _ => False
  end.
Proof.
  intros HM HE. unfold binary_round_aux, shr_fexp.
  cbn [shr_record_of_loc Zdigits2].
  assert (HpE : 0 < 2 ^ (- E)) by (apply Z.pow_pos_nonneg; lia).
  assert (Hd : Zpos (digits2_pos M) + E <= 3).
  { assert (Zpos (digits2_pos M) <= 3 - E); [|lia]. apply digits2_pos_bound.
    replace (3 - E) with (3 + - E) by lia. rewrite Z.pow_add_r by lia.
    change (2 ^ 3) with 8. lia. }
  pose proof (fexp_small _ Hd) as Hf1.
  set (n1 := fexp prec emax (Zpos (digits2_pos M) + E) - E) in *.
  pose proof (shr_bound 5 (Zpos M) E n1 false false) as H1.
  destruct (shr (Build_shr_record (Zpos M) false false) E n1) as [mrs1 e1].
  destruct H1 as (H1a & H1b & H1c & H1d); [lia | lia | assumption | lia |].
  set (m1 := round_nearest_even (shr_m mrs1) (loc_of_shr_record mrs1)).
  assert (Hm1 : shr_m mrs1 <= m1 <= shr_m mrs1 + 1).
  { unfold m1, round_nearest_even.
    destruct (loc_of_shr_record mrs1) as [|[]]; try destruct (Z.even _); lia. }
  assert (He1 : e1 <= -50) by lia.
  assert (Hp1 : 2 ^ 50 <= 2 ^ (- e1)) by (apply Z.pow_le_mono_r; lia).
  change (2 ^ 50) with 1125899906842624 in Hp1.
  assert (Hm1lt : m1 < 6 * 2 ^ (- e1)) by lia.
  assert (Hd2 : Zdigits2 m1 + e1 <= 3).
  { destruct m1 as [|p|p] eqn:Em1; cbn [Zdigits2]; [lia| |lia].
    assert (Zpos (digits2_pos p) <= 3 - e1); [|lia]. apply digits2_pos_bound.
    replace (3 - e1) with (3 + - e1) by lia. rewrite Z.pow_add_r by lia.
    change (2 ^ 3) with 8. lia. }
  pose proof (fexp_small _ Hd2) as Hf2.
  set (n2 := fexp prec emax (Zdigits2 m1 + e1) - e1) in *.
  pose proof (shr_bound_lt 6 m1 e1 n2 false false) as H2.
  destruct (shr (Build_shr_record m1 false false) e1 n2) as [mrs2 e2].
  destruct H2 as (H2a & H2b & H2c); [lia | lia | assumption | lia |].
  assert (He2 : e2 <= -50) by lia.
  destruct (shr_m mrs2) as [|m|m]; [exact I | | lia].
  destruct (Z.leb_spec e2 (emax - prec)) as [_|Hbig].
  - split; assumption.
  - unfold emax, prec in Hbig. lia.
Qed.

Lemma Prim2SF_five : Prim2SF 5 = S754_finite false 5629499534213120 (-50).
Proof. vm_compute. reflexivity. Qed.

Lemma Prim2SF_one : Prim2SF 1 = S754_finite false 4503599627370496 (-52).
Proof. vm_compute. reflexivity. Qed.

Lemma Prim2SF_zero : Prim2SF 0 = S754_zero false.
Proof. vm_compute. reflexivity. Qed.

(** [<=] on two positive finite floats. *)
Lemma SFleb_finite_pos (m m' : positive) (e e' : Z) :
  SFleb (S754_finite false m e) (S754_finite false m' e') = true ->
  e < e' \/ (e = e' /\ Zpos m <= Zpos m').
Proof.
  unfold SFleb, SFcompare.
  destruct (Z.compare_spec e e') as [Heq | Hlt | Hgt].
  - intros H. right. split; [assumption|].
    change (Pos.compare_cont Eq m m') with (Pos.compare m m') in H.
    destruct (Pos.compare_spec m m') as [Hm | Hm | Hm]; [lia | lia | discriminate].
  - intros _. left. assumption.
  - discriminate.
Qed.

(** A float in [0, 1] is a zero, or [m * 2 ^ e] with [m <= 2 ^ (- e)]. *)
Lemma unit_interval_spec (r : float) :
  in_unit_interval r ->
  match Prim2SF r with
  | S754_zero _ => True
  | S754_finite false m e => e <= -52 /\ Zpos m <= 2 ^ (- e)
  | _ => False
  end.
Proof.
  intros [H0 H1]. rewrite leb_spec in H0, H1.
  rewrite Prim2SF_zero in H0. rewrite Prim2SF_one in H1.
  pose proof (Prim2SF_valid r) as Hv.
  destruct (Prim2SF r) as [s|s| |s m e].
  - exact I.
  - destruct s; discriminate.
  - discriminate.
  - destruct s; [discriminate|].
    cbn [valid_binary] in Hv. unfold bounded, canonical_mantissa in Hv.
    apply andb_prop in Hv. destruct Hv as [Hcan _].
    apply Z.eqb_eq in Hcan. unfold fexp, SpecFloat.emin, prec, emax in Hcan.
    assert (Hdig : Zpos (digits2_pos m) <= 53) by lia.
    pose proof (digits2_pos_gt m) as Hlt.
    assert (Hpow : 2 ^ Zpos (digits2_pos m) <= 2 ^ 53)
      by (apply Z.pow_le_mono_r; lia).
    apply SFleb_finite_pos in H1.
    destruct H1 as [Hlow | [-> Hm]].
    + split; [lia|].
      assert (2 ^ 53 <= 2 ^ (- e)) by (apply Z.pow_le_mono_r; lia). lia.
    + split; [lia|]. exact Hm.
Qed.

(** The rounded product of a float in [0, 1] and 5 is a zero, or
    [m * 2 ^ e] below 6. *)
Lemma product_by_5_spec (r : float) :
  in_unit_interval r ->
  match Prim2SF (r * 5)%float with
  | S754_zero _ => True
  | S754_finite false m e => e <= -50 /\ Zpos m < 6 * 2 ^ (- e)
  | _ => False
  end.
Proof.
  intros Hr. apply unit_interval_spec in Hr.
  rewrite mul_spec, Prim2SF_five.
  destruct (Prim2SF r) as [s|s| |s m e]; try contradiction.
  - exact I.
  - destruct s; [contradiction|]. destruct Hr as [He Hm].
    unfold SF64mul, SFmul. cbn [xorb].
    apply binary_round_aux_bound; [|lia].
    rewrite Pos2Z.inj_mul.
    replace (- (e + -50)) with (- e + 50) by lia.
    rewrite Z.pow_add_r by lia.
    change (2 ^ 50) with 1125899906842624. lia.
Qed.

(** [int(r * 5)] is the floor of the product, between 0 and 5. *)
Lemma int_of_product_by_5 (r : float) :
  in_unit_interval r ->
  exists k,
    Py.int_of_float (r * 5) = Ok k
    /\ Py.floor_of_float (r * 5) = Some k
    /\ 0 <= k <= 5.
Proof.
  intros Hr. apply product_by_5_spec in Hr.
  unfold Py.int_of_float, Py.floor_of_float.
  destruct (Prim2SF (r * 5)) as [s|s| |s m e]; try contradiction.
  - exists 0. repeat split; lia.
  - destruct s; [contradiction|]. destruct Hr as [He Hm].
    exists (Zpos m / 2 ^ (- e)). cbn [cond_Zopp].
    assert (Hpow : 0 < 2 ^ (- e)) by (apply Z.pow_pos_nonneg; lia).
    split; [|split].
    + rewrite Z.shiftl_div_pow2 by lia. reflexivity.
    + destruct (Z.leb_spec 0 e); [lia|reflexivity].
    + split.
      * apply Z.div_pos; lia.
      * assert (Zpos m / 2 ^ (- e) < 6); [|lia].
        apply Z.div_lt_upper_bound; lia.
Qed.

(** *** Format stage, the star rating *)

Lemma float_of_Z_five : Py.float_of_Z 5 = Ok 5%float.
Proof. vm_compute. reflexivity. Qed.

Lemma stars_of_float (lib : PyLib) (r : float) :
  FormatAgent.stars lib (VFloat r) =
  match Py.int_of_float (r * 5) with
  | Ok filled =>
      Ok (Py.repeat FormatAgent.filled_star filled
          +:+ Py.repeat FormatAgent.empty_star (5 - filled))
  | Raise e => Raise e
  end.
Proof.
  unfold FormatAgent.stars, FormatAgent.filled_count.
  cbn [Py.mul_int]. rewrite float_of_Z_five. cbn [mbind result_bind Py.to_int].
  destruct (Py.int_of_float (r * 5)); reflexivity.
Qed.

(** Five symbols, whatever the number of filled ones. *)
Lemma stars_len (filled : Z) :
  0 <= filled <= 5 ->
  Py.len (Py.repeat FormatAgent.filled_star filled
          +:+ Py.repeat FormatAgent.empty_star (5 - filled)) = 5.
Proof.
  intros H.
  assert (Hcases : filled = 0 \/ filled = 1 \/ filled = 2 \/ filled = 3
                   \/ filled = 4 \/ filled = 5) by lia.
  destruct Hcases as [-> | [-> | [-> | [-> | [-> | ->]]]]]; reflexivity.
Qed.

(** Equations of the concatenation of texts. *)
Lemma string_app_cons (c : ascii) (s t : string) :
  String c s +:+ t = String c (s +:+ t).
Proof. reflexivity. Qed.

Lemma string_app_nil_l (t : string) : "" +:+ t = t.
Proof. reflexivity. Qed.

Lemma string_app_nil_r (s : string) : s +:+ "" = s.
Proof.
  induction s as [|c s IH]; [reflexivity|].
  rewrite string_app_cons, IH. reflexivity.
Qed.

Lemma string_app_assoc (a b c : string) : (a +:+ b) +:+ c = a +:+ (b +:+ c).
Proof.
  induction a as [|x a IH]; [reflexivity|].
  rewrite !string_app_cons, IH. reflexivity.
Qed.

(** The lines of the basic rendering are the blocks of the chunks, one
    after the other. *)
Lemma basic_lines_concat (lib : PyLib) (include_context : bool)
    (chunks : list dict) (blocks : list (list string)) :
  Forall2 (fun chunk block =>
             FormatAgent.basic_block lib include_context chunk = Ok block)
          chunks blocks ->
  FormatAgent.basic_lines lib include_context chunks
  = Ok (List.concat blocks).
Proof.
  induction 1 as [|chunk block chunks blocks Hblock _ IH];
    cbn [FormatAgent.basic_lines List.concat]; [reflexivity|].
  rewrite Hblock. cbn [mbind result_bind]. rewrite IH. reflexivity.
Qed.

(** C4: for a relevance score [r] in [0, 1] the star rating of the basic
    renderer is [floor(r * 5)] filled stars followed by [5 - floor(r * 5)]
    empty ones, five symbols in all, and it is the rating on the chunk's
    "Relevance:" line; 0.8 gives four filled stars and an empty one, 1.0
    five filled ones, 0.0 none. The product is the binary64 one. The basic
    renderer [_format_basic] puts that line out for every chunk: its text is
    the wrapper around the blocks of the chunks, joined line by line, and
    the third line of each block is the chunk's rating. *)
Theorem star_rating (lib : PyLib) :
  (forall r : float,
      in_unit_interval r ->
      exists filled : Z,
        Py.floor_of_float (r * 5) = Some filled
        /\ 0 <= filled <= 5
        /\ FormatAgent.stars lib (VFloat r)
           = Ok (Py.repeat "★" filled +:+ Py.repeat "☆" (5 - filled))
        /\ Py.len (Py.repeat "★" filled +:+ Py.repeat "☆" (5 - filled)) = 5
        /\ forall (include_context : bool) (chunk md : dict),
             chunk !! "relevance_score" = Some (VFloat r) ->
             Py.get chunk "metadata" (VDict ∅) = VDict md ->
             exists lines,
               FormatAgent.basic_block lib include_context chunk = Ok lines
               /\ lines !! 2%nat
                  = Some ("Relevance: "
                          +:+ (Py.repeat "★" filled +:+ Py.repeat "☆" (5 - filled))
                          +:+ " (" +:+ fmt_f lib 2 r +:+ ")"))
  /\ FormatAgent.stars lib (VFloat 0.8) = Ok "★★★★☆"
  /\ FormatAgent.stars lib (VFloat 1) = Ok "★★★★★"
  /\ FormatAgent.stars lib (VFloat 0) = Ok "☆☆☆☆☆"
  /\ (forall (include_context : bool) (style : string) (chunks : list dict),
        Forall (fun chunk =>
                  exists (r : float) (md : dict),
                    chunk !! "relevance_score" = Some (VFloat r)
                    /\ in_unit_interval r
                    /\ Py.get chunk "metadata" (VDict ∅) = VDict md)
               chunks ->
        exists blocks : list (list string),
          Forall2 (fun chunk block =>
                     FormatAgent.basic_block lib include_context chunk
                     = Ok block
                     /\ exists (r : float) (filled : Z),
                          chunk !! "relevance_score" = Some (VFloat r)
                          /\ Py.floor_of_float (r * 5) = Some filled
                          /\ block !! 2%nat
                             = Some ("Relevance: "
                                     +:+ (Py.repeat "★" filled
                                          +:+ Py.repeat "☆" (5 - filled))
                                     +:+ " (" +:+ fmt_f lib 2 r +:+ ")"))
                  chunks blocks
          /\ FormatAgent._format_basic lib chunks style include_context
             = Ok (FormatAgent._add_wrapper lib
                     (String.concat Py.nl (List.concat blocks))
                     (Z.of_nat (length chunks)))
          /\ exists header footer : string,
               FormatAgent._format_basic lib chunks style include_context
               = Ok (header
                     +:+ str_strip lib
                           (String.concat Py.nl (List.concat blocks))
                     +:+ footer)).
Proof.
  assert (Hrating : forall r : float,
    in_unit_interval r ->
    exists filled : Z,
      Py.floor_of_float (r * 5) = Some filled
      /\ 0 <= filled <= 5
      /\ FormatAgent.stars lib (VFloat r)
         = Ok (Py.repeat "★" filled +:+ Py.repeat "☆" (5 - filled))
      /\ Py.len (Py.repeat "★" filled +:+ Py.repeat "☆" (5 - filled)) = 5
      /\ forall (include_context : bool) (chunk md : dict),
           chunk !! "relevance_score" = Some (VFloat r) ->
           Py.get chunk "metadata" (VDict ∅) = VDict md ->
           exists lines,
             FormatAgent.basic_block lib include_context chunk = Ok lines
             /\ lines !! 2%nat
                = Some ("Relevance: "
                        +:+ (Py.repeat "★" filled +:+ Py.repeat "☆" (5 - filled))
                        +:+ " (" +:+ fmt_f lib 2 r +:+ ")")).
  { intros r Hr.
    destruct (int_of_product_by_5 r Hr) as (k & Hint & Hfloor & Hk).
    exists k. split; [assumption|]. split; [assumption|].
    assert (Hstars : FormatAgent.stars lib (VFloat r)
                     = Ok (Py.repeat "★" k +:+ Py.repeat "☆" (5 - k))).
    { rewrite stars_of_float, Hint. reflexivity. }
    split; [exact Hstars|]. split; [apply stars_len; assumption|].
    intros include_context chunk md Hscore Hmd.
    assert (Hget : Py.get chunk "relevance_score" (VFloat 0) = VFloat r)
      by (unfold Py.get; rewrite Hscore; reflexivity).
    unfold FormatAgent.basic_block. rewrite Hmd, Hget.
    cbn [Py.attr_get mbind result_bind].
    rewrite Hstars. cbn [mbind result_bind Py.format_f].
    eexists. split; [reflexivity|]. reflexivity. }
  split; [exact Hrating|].
  split; [rewrite stars_of_float; reflexivity|].
  split; [rewrite stars_of_float; reflexivity|].
  split; [rewrite stars_of_float; reflexivity|].
  intros include_context style chunks Hall.
  assert (Hblocks : exists blocks : list (list string),
    Forall2 (fun chunk block =>
               FormatAgent.basic_block lib include_context chunk = Ok block
               /\ exists (r : float) (filled : Z),
                    chunk !! "relevance_score" = Some (VFloat r)
                    /\ Py.floor_of_float (r * 5) = Some filled
                    /\ block !! 2%nat
                       = Some ("Relevance: "
                               +:+ (Py.repeat "★" filled
                                    +:+ Py.repeat "☆" (5 - filled))
                               +:+ " (" +:+ fmt_f lib 2 r +:+ ")"))
            chunks blocks).
  { induction Hall as [|chunk chunks (r & md & Hscore & Hr & Hmd) _ [blocks IH]].
    - exists []. constructor.
    - destruct (Hrating r Hr) as (filled & Hfloor & _ & _ & _ & Hblock).
      destruct (Hblock include_context chunk md Hscore Hmd)
        as (lines & Hlines & Hthird).
      exists (lines :: blocks). constructor; [|exact IH].
      split; [exact Hlines|]. exists r, filled. auto. }
  destruct Hblocks as [blocks Hblocks]. exists blocks.
  split; [exact Hblocks|].
  assert (Hlines : FormatAgent.basic_lines lib include_context chunks
                   = Ok (List.concat blocks)).
  { apply basic_lines_concat. eapply Forall2_impl; [exact Hblocks|].
    cbn. intros chunk block [H _]. exact H. }
  unfold FormatAgent._format_basic. rewrite Hlines.
  cbn [mbind result_bind]. split; [reflexivity|].
  unfold FormatAgent._add_wrapper.
  match goal with
  | |- context [Ok (?a +:+ ?b +:+ ?c +:+ ?d +:+ ?e)] =>
      exists (a +:+ b +:+ c), e
  end.
  rewrite !string_app_assoc. reflexivity.
Qed.

(** A witness of [star_rating], at the relevance score 0.8, and the basic
    rendering of one chunk of that score. *)
Lemma star_rating_witness :
  (exists filled : Z,
      Py.floor_of_float (0.8 * 5) = Some filled
      /\ 0 <= filled <= 5
      /\ FormatAgent.stars (Script.lib Script.no_json) (VFloat 0.8)
         = Ok (Py.repeat "★" filled +:+ Py.repeat "☆" (5 - filled))
      /\ Py.len (Py.repeat "★" filled +:+ Py.repeat "☆" (5 - filled)) = 5)
  /\ exists blocks : list (list string),
       FormatAgent._format_basic (Script.lib Script.no_json)
         [ {[ "relevance_score" := VFloat 0.8 ]} ] "APA" true
       = Ok (FormatAgent._add_wrapper (Script.lib Script.no_json)
               (String.concat Py.nl (List.concat blocks)) 1)
       /\ List.map (fun block => block !! 2%nat) blocks
          = [Some "Relevance: ★★★★☆ ()"].
Proof.
  destruct (star_rating (Script.lib Script.no_json))
    as (Hrating & _ & _ & _ & Hrender).
  split.
  - destruct (Hrating 0.8%float) as (filled & H1 & H2 & H3 & H4 & _).
    + split; reflexivity.
    + exists filled. auto.
  - destruct (Hrender true "APA" [ {[ "relevance_score" := VFloat 0.8 ]} ])
      as (blocks & Hblocks & Hout & _).
    + constructor; [|constructor]. exists 0.8%float, ∅.
      split; [reflexivity|]. split; [split; reflexivity|reflexivity].
    + exists blocks. split; [exact Hout|].
      apply Forall2_cons_inv_l in Hblocks
        as (block & rest & [Hblock _] & Hrest & ->).
      apply Forall2_nil_inv_l in Hrest. subst rest.
      vm_compute in Hblock. injection Hblock as <-. reflexivity.
Defined.

(** *** Rank stage, what happens to the caller's dicts *)

Lemma heap_frame_refl h : heap_frame h h.
Proof. intros l _. reflexivity. Qed.

Lemma heap_frame_dom h1 h2 l : heap_frame h1 h2 -> l ∈ dom h1 -> l ∈ dom h2.
Proof.
  intros Hf Hl. apply elem_of_dom. rewrite (Hf l Hl). apply elem_of_dom. exact Hl.
Qed.

Lemma heap_frame_total h1 h2 l :
  heap_frame h1 h2 -> l ∈ dom h1 -> h2 !!! l = h1 !!! l.
Proof. intros Hf Hl. rewrite !lookup_total_alt, (Hf l Hl). reflexivity. Qed.

Lemma heap_frame_alloc h1 h2 (d : dict) :
  heap_frame h1 h2 -> heap_frame h1 (<[fresh (dom h2) := d]> h2).
Proof.
  intros Hf l Hl. rewrite lookup_insert_ne; [apply Hf; exact Hl|].
  intros <-. apply (is_fresh (dom h2)). eapply heap_frame_dom; eassumption.
Qed.

Section RankProperties.
Context {W : Type} (lib : PyLib) (ext : External W).

Lemma run_copy (l : loc) (s : state W) :
  copy l s =
  (Ok (fresh (dom (heap s))),
   State (<[fresh (dom (heap s)) := heap s !!! l]> (heap s)) (world s) (calls s)).
Proof. reflexivity. Qed.

(** The in-place fallback. *)
Lemma for_enumerate_ranks (chunks : list loc) : forall (k : Z) (s : state W),
  exists s',
    for_enumerate (fun i chunk => setitem chunk "agent_rank" (VInt (i + 1)))
                  k chunks s = (Ok tt, s')
    /\ world s' = world s /\ calls s' = calls s
    /\ (forall l, l ∉ chunks -> heap s' !! l = heap s !! l)
    /\ (NoDup chunks ->
        forall (i : nat) (l : loc),
          chunks !! i = Some l ->
          heap s' !!! l
          = <["agent_rank" := VInt (k + Z.of_nat i + 1)]> (heap s !!! l)).
Proof.
  induction chunks as [|x xs IH]; intros k s.
  - exists s. cbn. repeat split; auto. intros _ i l Hi. discriminate.
  - cbn [for_enumerate]. rewrite run_bind, run_setitem.
    destruct (IH (k + 1) (State (<[x := <["agent_rank" := VInt (k + 1)]> (heap s !!! x)]> (heap s)) (world s) (calls s)))
      as (s' & Hrun & Hw & Hc & Hout & Hin).
    exists s'. split; [exact Hrun|]. cbn [world calls heap] in *.
    split; [exact Hw|]. split; [exact Hc|]. split.
    + intros l Hl. rewrite Hout by (intros ?; apply Hl; right; assumption).
      apply lookup_insert_ne. intros ->. apply Hl. left.
    + intros Hnd i l Hi. apply NoDup_cons in Hnd as [Hx Hnd].
      destruct i as [|i]; cbn in Hi.
      * injection Hi as ->. rewrite lookup_total_alt, (Hout l Hx).
        rewrite lookup_insert_eq. cbn. f_equal. f_equal. lia.
      * rewrite (Hin Hnd i l Hi).
        assert (x <> l) by (intros ->; apply Hx; eapply list_elem_of_lookup_2; eassumption).
        rewrite lookup_total_insert_ne by assumption.
        f_equal. f_equal. lia.
Qed.

Lemma assign_sequential_ranks_in_place (chunks : list loc) (s : state W) :
  exists s',
    RankAgent.assign_sequential_ranks chunks s = (Ok tt, s')
    /\ world s' = world s /\ calls s' = calls s
    /\ (forall l, l ∉ chunks -> heap s' !! l = heap s !! l)
    /\ (NoDup chunks -> ranked_in_place s s' chunks).
Proof.
  destruct (for_enumerate_ranks chunks 0 s) as (s' & Hrun & Hw & Hc & Hout & Hin).
  exists s'. repeat split; auto.
Qed.

Lemma list_getitem_elem_of {A} (l : list A) (v : value) (x : A) :
  Py.list_getitem l v = Ok x -> x ∈ l.
Proof.
  unfold Py.list_getitem. destruct (Py.as_index v) as [i|]; [|discriminate].
  destruct (_ && _); [|discriminate].
  destruct (l !! _) as [y|] eqn:Hy; [|discriminate].
  intros [= <-]. eapply list_elem_of_lookup_2; eassumption.
Qed.

(** One chunk copied, marked and appended. *)
Lemma copies_of_snoc (s0 s : state W) (chunks out : list loc) (original : loc)
    (r : Z) (why : value) :
  Forall (fun l => l ∈ dom (heap s0)) chunks ->
  heap_frame (heap s0) (heap s) ->
  copies_of s0 s chunks out ->
  original ∈ chunks ->
  let o := fresh (dom (heap s)) in
  let h' := <[o := <["rank_reasoning" := why]>
                      (<["agent_rank" := VInt r]> (heap s !!! original))]>
              (heap s) in
  heap_frame (heap s0) h'
  /\ copies_of s0 (State h' (world s) (calls s)) chunks (out ++ [o]).
Proof.
  intros Hdom Hframe Hout Horig o h'.
  assert (Hfresh : o ∉ dom (heap s)) by apply is_fresh.
  split.
  - apply heap_frame_alloc. exact Hframe.
  - apply Forall_app. split.
    + eapply Forall_impl; [exact Hout|]. cbn.
      intros o' (Hnew & l & r' & why' & Hl & Ho'). split; [exact Hnew|].
      exists l, r', why'. split; [exact Hl|].
      unfold h'. rewrite lookup_insert_ne; [exact Ho'|].
      intros <-. apply Hfresh. apply elem_of_dom. rewrite Ho'. eauto.
    + constructor; [|constructor]. split.
      * intros Hin. apply Hfresh. eapply heap_frame_dom; eassumption.
      * exists original, r, why. split; [exact Horig|]. cbn [heap].
        unfold h'. rewrite lookup_insert_eq.
        rewrite (heap_frame_total (heap s0) (heap s) original Hframe); [reflexivity|].
        rewrite Forall_forall in Hdom. apply Hdom. exact Horig.
Qed.

Lemma run_copy_mark {A} (original : loc) (r : Z) (why : value)
    (k : loc -> M W A) (s : state W) :
  (chunk ← copy original;
   setitem chunk "agent_rank" (VInt r) ;;
   setitem chunk "rank_reasoning" why ;;
   k chunk) s
  = k (fresh (dom (heap s)))
      (State (<[fresh (dom (heap s)) :=
                  <["rank_reasoning" := why]>
                    (<["agent_rank" := VInt r]> (heap s !!! original))]>
                (heap s))
             (world s) (calls s)).
Proof.
  rewrite run_bind, run_copy. rewrite run_bind, run_setitem.
  rewrite run_bind, run_setitem. cbn [heap world calls].
  rewrite !lookup_total_insert_eq, !insert_insert_eq. reflexivity.
Qed.

Lemma place_ranked_effect (reasoning : value) (chunks : list loc)
    (s0 : state W) (ids : list value) :
  Forall (fun l => l ∈ dom (heap s0)) chunks ->
  forall (rank : Z) (ranked : list loc) (used : gset Z) (s s' : state W) res,
    heap_frame (heap s0) (heap s) ->
    copies_of s0 s chunks ranked ->
    RankAgent.place_ranked reasoning chunks ids rank (ranked, used) s = (res, s') ->
    world s' = world s /\ calls s' = calls s
    /\ heap_frame (heap s0) (heap s')
    /\ forall ranked' used', res = Ok (ranked', used') ->
                             copies_of s0 s' chunks ranked'.
Proof.
  intros Hdom. induction ids as [|chunk_id ids IH];
    intros rank ranked used s s' res Hframe Hcopies Hrun.
  - cbn in Hrun. injection Hrun as <- <-. repeat split; auto.
    intros ranked' used' [= <- <-]. exact Hcopies.
  - cbn [RankAgent.place_ranked] in Hrun.
    rewrite run_bind, run_lift in Hrun.
    destruct (Py.lt_int chunk_id _) as [in_range|e].
    2: { injection Hrun as <- <-. repeat split; auto. discriminate. }
    rewrite run_bind in Hrun.
    assert (Hskip :
      RankAgent.place_ranked reasoning chunks ids (rank + 1) (ranked, used) s
        = (res, s') ->
      world s' = world s /\ calls s' = calls s
      /\ heap_frame (heap s0) (heap s')
      /\ forall ranked' used', res = Ok (ranked', used') ->
                               copies_of s0 s' chunks ranked').
    { intros H. eapply IH; eassumption. }
    destruct in_range.
    + rewrite run_bind, run_lift in Hrun.
      destruct (Py.in_set chunk_id used) as [is_used|e].
      2: { injection Hrun as <- <-. repeat split; auto. discriminate. }
      rewrite run_ret in Hrun. destruct is_used; cbn [negb] in Hrun.
      * apply Hskip. exact Hrun.
      * rewrite run_bind, run_lift in Hrun.
        destruct (Py.list_getitem chunks chunk_id) as [original|e] eqn:Hget.
        2: { injection Hrun as <- <-. repeat split; auto. discriminate. }
        apply list_getitem_elem_of in Hget.
        rewrite run_copy_mark in Hrun.
        destruct (copies_of_snoc s0 s chunks ranked original (rank + 1)
                    reasoning Hdom Hframe Hcopies Hget) as [Hframe' Hcopies'].
        eapply IH in Hrun; [|exact Hframe'|exact Hcopies'].
        exact Hrun.
    + rewrite run_ret in Hrun. apply Hskip. exact Hrun.
Qed.

Lemma place_unranked_effect (used : gset Z) (s0 : state W) (all rest : list loc) :
  Forall (fun l => l ∈ dom (heap s0)) all ->
  rest ⊆ all ->
  forall (i : Z) (ranked : list loc) (s : state W),
    heap_frame (heap s0) (heap s) ->
    copies_of s0 s all ranked ->
    exists out s',
      RankAgent.place_unranked used i rest ranked s = (Ok out, s')
      /\ world s' = world s /\ calls s' = calls s
      /\ heap_frame (heap s0) (heap s')
      /\ copies_of s0 s' all out.
Proof.
  intros Hdom. induction rest as [|original rest IH];
    intros Hsub i ranked s Hframe Hcopies.
  - exists ranked, s. cbn. repeat split; auto.
  - cbn [RankAgent.place_unranked].
    assert (Hrest : rest ⊆ all) by (intros x Hx; apply Hsub; right; exact Hx).
    destruct (bool_decide (i ∈ used)).
    + apply IH; assumption.
    + rewrite run_copy_mark.
      assert (Horig : original ∈ all) by (apply Hsub; left).
      destruct (copies_of_snoc s0 s all ranked original
                  (Z.of_nat (length ranked) + 1)
                  (VStr "Not included in agent ranking")
                  Hdom Hframe Hcopies Horig) as [Hframe' Hcopies'].
      destruct (IH Hrest (i + 1) _ (State _ (world s) (calls s))
                  Hframe' Hcopies')
        as (out & s' & Hrun & Hw & Hc & Hf & Hcp).
      exists out, s'. repeat split; auto.
Qed.

Lemma apply_verdict_effect (chunks : list loc) (text : string)
    (s s' : state W) res :
  Forall (fun l => l ∈ dom (heap s)) chunks ->
  RankAgent.apply_verdict lib chunks text s = (res, s') ->
  heap_frame (heap s) (heap s')
  /\ forall out, res = Ok out -> copies_of s s' chunks out.
Proof.
  intros Hdom Hrun. unfold RankAgent.apply_verdict in Hrun.
  assert (Hstop : forall e, (Raise e, s) = (res, s') ->
            heap_frame (heap s) (heap s')
            /\ forall out, res = Ok out -> copies_of s s' chunks out).
  { intros e [= <- <-]. split; [apply heap_frame_refl|discriminate]. }
  rewrite run_bind, run_lift in Hrun.
  destruct (json_loads lib _) as [result|e]; [|eauto].
  rewrite run_bind, run_lift in Hrun.
  destruct (Py.attr_get result "ranked_ids" _) as [ranked_ids|e]; [|eauto].
  rewrite run_bind, run_lift in Hrun.
  destruct (Py.attr_get result "reasoning" _) as [reasoning|e]; [|eauto].
  rewrite run_bind, run_lift in Hrun.
  destruct (Py.iterate ranked_ids) as [ids|e]; [|eauto].
  rewrite run_bind in Hrun.
  destruct (RankAgent.place_ranked reasoning chunks ids 0 ([], ∅) s)
    as [[[ranked used]|e] s1] eqn:Hplace.
  - destruct (place_ranked_effect reasoning chunks s ids Hdom 0 [] ∅ s s1 _
                (heap_frame_refl _) (Forall_nil_2 _) Hplace)
      as (Hw & Hc & Hframe & Hcopies).
    specialize (Hcopies ranked used eq_refl).
    destruct (place_unranked_effect used s chunks chunks Hdom
                (reflexivity _) 0 ranked s1 Hframe Hcopies)
      as (out & s2 & Hrun2 & _ & _ & Hframe2 & Hcopies2).
    rewrite Hrun2 in Hrun. injection Hrun as <- <-.
    split; [exact Hframe2|]. intros out' [= <-]. exact Hcopies2.
  - destruct (place_ranked_effect reasoning chunks s ids Hdom 0 [] ∅ s s1 _
                (heap_frame_refl _) (Forall_nil_2 _) Hplace)
      as (_ & _ & Hframe & _).
    injection Hrun as <- <-. split; [exact Hframe|discriminate].
Qed.

Lemma summarize_state (chunks : list loc) : forall (i : Z) (s s' : state W) res,
  RankAgent.summarize lib i chunks s = (res, s') -> s' = s.
Proof.
  induction chunks as [|chunk chunks IH]; intros i s s' res Hrun.
  - injection Hrun as _ <-. reflexivity.
  - cbn [RankAgent.summarize] in Hrun. rewrite run_bind in Hrun.
    unfold RankAgent.summary_entry in Hrun at 1.
    rewrite run_bind, run_load, run_bind, run_lift in Hrun.
    destruct (Py.slice_to lib _ 200); [|injection Hrun as _ <-; reflexivity].
    rewrite run_bind, run_lift in Hrun.
    destruct (Py.attr_get _ "title" _); [|injection Hrun as _ <-; reflexivity].
    rewrite run_bind, run_lift in Hrun.
    destruct (Py.attr_get _ "year" _); [|injection Hrun as _ <-; reflexivity].
    rewrite run_ret, run_bind in Hrun.
    destruct (RankAgent.summarize lib (i + 1) chunks s) as [[entries|e] s1] eqn:Hrest.
    + apply IH in Hrest. subst s1. injection Hrun as _ <-. reflexivity.
    + apply IH in Hrest. subst s1. injection Hrun as _ <-. reflexivity.
Qed.

(** The fallback of [rank], from a state whose old dicts are untouched. *)
Lemma fallback_in_place (chunks : list loc) (s s1 : state W) :
  Forall (fun l => l ∈ dom (heap s)) chunks ->
  NoDup chunks ->
  heap_frame (heap s) (heap s1) ->
  exists s',
    (RankAgent.assign_sequential_ranks chunks ;; mret chunks) s1 = (Ok chunks, s')
    /\ ranked_in_place s s' chunks.
Proof.
  intros Hdom Hnd Hframe.
  destruct (assign_sequential_ranks_in_place chunks s1)
    as (s' & Hrun & _ & _ & _ & Hin).
  exists s'. split.
  - rewrite run_bind, Hrun. reflexivity.
  - intros i l Hi. rewrite (Hin Hnd i l Hi).
    rewrite (heap_frame_total _ _ l Hframe); [reflexivity|].
    rewrite Forall_forall in Hdom. apply Hdom.
    eapply list_elem_of_lookup_2; eassumption.
Qed.

Lemma copies_of_ranked_copies (s s' : state W) (chunks out : list loc) :
  heap_frame (heap s) (heap s') -> copies_of s s' chunks out ->
  ranked_copies s s' chunks out.
Proof. intros Hf Hc. split; assumption. Qed.

(** C10, as the code has it. Whatever the model answers, [rank] returns.
    When the [try] block runs to its end on a non-empty response (the
    verdict is parsed and the reordering raises nothing), the returned
    chunks are new dicts, copies of input dicts with [agent_rank] and
    [rank_reasoning] set, and the caller's dicts are as they were. On every
    other path (adapter disabled, one chunk, no chunk, empty response, and
    any exception of the [try] block: a parse failure, but also a parsed
    verdict whose ids cannot be used) the input list itself is returned and
    its dicts carry [agent_rank = position + 1], set in place. *)
Theorem rank_effects (self : BaseAgent.t) (query : string)
    (context : option string) (chunks : list loc) (s : state W) :
  Forall (fun l => l ∈ dom (heap s)) chunks ->
  NoDup chunks ->
  exists out s',
    RankAgent.rank lib ext self query context chunks s = (Ok out, s')
    /\ match path_of_rank lib ext self query context chunks s with
       | VerdictApplied => ranked_copies s s' chunks out
       | _ => out = chunks /\ ranked_in_place s s' chunks
       end.
Proof.
  intros Hdom Hnd. unfold RankAgent.rank, path_of_rank.
  destruct (BaseAgent.enabled self); cbn [negb].
  2: { destruct (fallback_in_place chunks s s Hdom Hnd (heap_frame_refl _))
         as (s' & Hrun & Hin). exists chunks, s'. auto. }
  destruct chunks as [|c1 [|c2 chunks]].
  - exists [], s. split; [reflexivity|]. split; [reflexivity|].
    intros i l Hi. discriminate.
  - rewrite bool_decide_false by discriminate.
    rewrite run_bind, run_setitem, run_ret. eexists _, _.
    split; [reflexivity|]. split; [reflexivity|].
    intros [|i] l Hi; [|discriminate]. injection Hi as <-.
    cbn [heap]. rewrite lookup_total_insert_eq. reflexivity.
  - rewrite bool_decide_false by discriminate.
    set (cs := c1 :: c2 :: chunks) in *.
    rewrite run_try_except.
    assert (Hhandler : forall e s1,
      heap_frame (heap s) (heap s1) ->
      exists out s',
        match e with
        | JSONDecodeError =>
            RankAgent.assign_sequential_ranks cs ;; mret cs
        | _ => RankAgent.assign_sequential_ranks cs ;; mret cs
        end s1 = (Ok out, s')
        /\ out = cs /\ ranked_in_place s s' cs).
    { intros e s1 Hframe.
      destruct (fallback_in_place cs s s1 Hdom Hnd Hframe) as (s' & Hrun & Hin).
      exists cs, s'. destruct e; auto. }
    unfold RankAgent.rank_with_model. rewrite run_bind.
    destruct (RankAgent.summarize lib 0 cs s) as [[chunks_summary|e] s0] eqn:Hsum.
    2: { apply summarize_state in Hsum. subst s0.
         destruct (Hhandler e s (heap_frame_refl _)) as (out & s' & H1 & H2).
         exists out, s'. split; assumption. }
    apply summarize_state in Hsum. subst s0. rewrite run_bind.
    pose proof (generate_content_heap ext self
                  (RankAgent.prompt lib query context (VList chunks_summary))
                  0.2%float 500 s) as Hheap.
    destruct (BaseAgent.generate_content ext self _ 0.2 500 s)
      as [[response_text|e] s1].
    2: { cbn [snd] in Hheap.
         destruct (Hhandler e s1) as (out & s' & H1 & H2).
         { rewrite Hheap. apply heap_frame_refl. }
         exists out, s'. split; assumption. }
    cbn [snd] in Hheap.
    assert (Hframe1 : heap_frame (heap s) (heap s1))
      by (rewrite Hheap; apply heap_frame_refl).
    destruct (negb (Py.truthy_text response_text)).
    + destruct (fallback_in_place cs s s1 Hdom Hnd Hframe1) as (s' & Hrun & Hin).
      exists cs, s'. rewrite Hrun. auto.
    + destruct (RankAgent.apply_verdict lib cs (default "" response_text) s1)
        as [[out|e] s2] eqn:Happly.
      * exists out, s2. split; [reflexivity|].
        assert (Hdom1 : Forall (fun l => l ∈ dom (heap s1)) cs)
          by (rewrite Hheap; exact Hdom).
        destruct (apply_verdict_effect cs _ s1 s2 _ Hdom1 Happly)
          as [Hframe2 Hcopies].
        specialize (Hcopies out eq_refl).
        unfold ranked_copies. rewrite <- Hheap. split; [exact Hframe2|].
        exact Hcopies.
      * assert (Hdom1 : Forall (fun l => l ∈ dom (heap s1)) cs)
          by (rewrite Hheap; exact Hdom).
        destruct (apply_verdict_effect cs _ s1 s2 _ Hdom1 Happly)
          as [Hframe2 _].
        destruct (Hhandler e s2) as (out & s' & H1 & H2).
        { rewrite <- Hheap. exact Hframe2. }
        exists out, s'. split; assumption.
Qed.

End RankProperties.

(** A witness of [rank_effects]: three chunks, and a model that ranks the
    third one first and the first one second. *)
Lemma rank_effects_witness :
  exists out s',
    RankAgent.rank (Script.lib (Script.ranking "[2, 0]" [2; 0])) Script.ext
      Script.agent_on "query" None [1; 2; 3]%positive
      (Script.start Script.three_chunks
         [Responded (Script.ranking_text "[2, 0]")] (Ok []))
    = (Ok out, s')
    /\ ranked_copies
         (Script.start Script.three_chunks
            [Responded (Script.ranking_text "[2, 0]")] (Ok []))
         s' [1; 2; 3]%positive out.
Proof.
  destruct (rank_effects (Script.lib (Script.ranking "[2, 0]" [2; 0])) Script.ext
              Script.agent_on "query" None [1; 2; 3]%positive
              (Script.start Script.three_chunks
                 [Responded (Script.ranking_text "[2, 0]")] (Ok [])))
    as (out & s' & Hrun & Hpath).
  - repeat constructor; apply elem_of_dom; vm_compute; eauto.
  - repeat (apply NoDup_cons; split;
            [rewrite ?elem_of_cons, elem_of_nil; intuition discriminate|]).
    apply NoDup_nil_2.
  - exists out, s'. split; [exact Hrun|].
    assert (Hp : path_of_rank (Script.lib (Script.ranking "[2, 0]" [2; 0])) Script.ext
                   Script.agent_on "query" None [1; 2; 3]%positive
                   (Script.start Script.three_chunks [Responded (Script.ranking_text "[2, 0]")]
                      (Ok []))
                 = VerdictApplied) by (vm_compute; reflexivity).
    rewrite Hp in Hpath. exact Hpath.
Defined.

(** C10, as stated, fails: a verdict can be parsed and leave the chunks to
    the in-place fallback. The model answers [ranked_ids = [-5]] for three
    chunks: [json.loads] succeeds, [chunks[-5]] raises [IndexError], and
    [rank] returns the caller's own dicts with [agent_rank] set on them. *)
Lemma parsed_verdict_ranked_in_place :
  json_loads (Script.lib (Script.ranking "[-5]" [-5]))
    (Py.strip_code_fence (Script.lib (Script.ranking "[-5]" [-5])) (Script.ranking_text "[-5]"))
  = Ok (VDict (<["ranked_ids" := VList [VInt (-5)]]>
              (<["reasoning" := VStr "by relevance"]> ∅)))
  /\ path_of_rank (Script.lib (Script.ranking "[-5]" [-5])) Script.ext
       Script.agent_on "query" None [1; 2; 3]%positive
       (Script.start Script.three_chunks
          [Responded (Script.ranking_text "[-5]")] (Ok []))
     = Raised IndexError
  /\ fst (RankAgent.rank (Script.lib (Script.ranking "[-5]" [-5])) Script.ext
            Script.agent_on "query" None [1; 2; 3]%positive
            (Script.start Script.three_chunks
               [Responded (Script.ranking_text "[-5]")] (Ok [])))
     = Ok [1; 2; 3]%positive
  /\ Script.returned_ranks
       (RankAgent.rank (Script.lib (Script.ranking "[-5]" [-5]))
          Script.ext
          Script.agent_on "query" None [1; 2; 3]%positive
          (Script.start Script.three_chunks
             [Responded (Script.ranking_text "[-5]")] (Ok [])))
     = Some [Some (VInt 1); Some (VInt 2); Some (VInt 3)].
Proof. repeat split; vm_compute; reflexivity. Qed.

(* ===================================================================== *)
(** ** Further properties of the stages                                   *)
(* ===================================================================== *)

(** *** Relations every step of a computation respects *)

#[global] Instance same_heap_preorder {W} : PreOrder (@same_heap W).
Proof.
  split.
  - intros s. reflexivity.
  - intros s1 s2 s3 H12 H23. unfold same_heap in *. congruence.
Qed.

#[global] Instance only_keys_preorder {W} (ks : list string) :
  PreOrder (@only_keys W ks).
Proof.
  split.
  - intros s l k _. reflexivity.
  - intros s1 s2 s3 H12 H23 l k Hk. rewrite (H23 l k Hk). apply H12, Hk.
Qed.

#[global] Instance calls_within_0_preorder {W} : PreOrder (@calls_within W 0).
Proof.
  split.
  - intros s. exists []. rewrite app_nil_r. split; [reflexivity|cbn; lia].
  - intros s1 s2 s3 (m1 & H1 & L1) (m2 & H2 & L2).
    exists []. destruct m1; [|cbn in L1; lia]. destruct m2; [|cbn in L2; lia].
    rewrite H2, H1, !app_nil_r. split; [reflexivity|cbn; lia].
Qed.

Lemma calls_within_trans {W} (n k : nat) (s1 s2 s3 : state W) :
  calls_within n s1 s2 -> calls_within k s2 s3 -> calls_within (n + k) s1 s3.
Proof.
  intros (m1 & H1 & L1) (m2 & H2 & L2). exists (m1 ++ m2)%list.
  rewrite H2, H1, <- app_assoc. split; [reflexivity|].
  rewrite length_app. lia.
Qed.

Lemma calls_within_mono {W} (n k : nat) (s1 s2 : state W) :
  (n <= k)%nat -> calls_within n s1 s2 -> calls_within k s1 s2.
Proof. intros Hnk (m & H & L). exists m. split; [exact H|lia]. Qed.

Section Preserves.
Context {W : Type} (R : relation (state W)) `{!PreOrder R}.

Lemma preserves_ret {A} (a : A) : preserves R (mret a : M W A).
Proof. intros s. reflexivity. Qed.

Lemma preserves_lift {A} (r : result A) : preserves R (lift r : M W A).
Proof. intros s. reflexivity. Qed.

Lemma preserves_raise {A} (e : exn) : preserves R (raise e : M W A).
Proof. intros s. reflexivity. Qed.

Lemma preserves_load (l : loc) : preserves R (load l : M W dict).
Proof. intros s. reflexivity. Qed.

Lemma preserves_bind {A B} (m : M W A) (f : A -> M W B) :
  preserves R m -> (forall a, preserves R (f a)) -> preserves R (m ≫= f).
Proof.
  intros Hm Hf s. rewrite run_bind. specialize (Hm s).
  destruct (m s) as [[a|e] s1]; cbn [snd] in *.
  - transitivity s1; [exact Hm|apply Hf].
  - exact Hm.
Qed.

Lemma preserves_try_except {A} (m : M W A) (h : exn -> M W A) :
  preserves R m -> (forall e, preserves R (h e)) -> preserves R (try_except m h).
Proof.
  intros Hm Hh s. rewrite run_try_except. specialize (Hm s).
  destruct (m s) as [[a|e] s1]; cbn [snd] in *.
  - exact Hm.
  - transitivity s1; [exact Hm|apply Hh].
Qed.

Lemma preserves_for_enumerate {A} (body : Z -> A -> M W unit) (xs : list A) :
  (forall i x, preserves R (body i x)) ->
  forall i, preserves R (for_enumerate body i xs).
Proof.
  intros Hbody. induction xs as [|x xs IH]; intros i; cbn [for_enumerate].
  - apply preserves_ret.
  - apply preserves_bind; [apply Hbody|]. intros _. apply IH.
Qed.

Lemma preserves_gather {A} (tasks : list (M W A)) :
  Forall (preserves R) tasks -> preserves R (FilterAgent.gather tasks).
Proof.
  induction 1 as [|task tasks Htask _ IH]; cbn [FilterAgent.gather].
  - apply preserves_ret.
  - apply preserves_bind.
    + apply preserves_try_except.
      * apply preserves_bind; [exact Htask|]. intros a. apply preserves_ret.
      * intros e. apply preserves_ret.
    + intros r. apply preserves_bind; [exact IH|]. intros rs. apply preserves_ret.
Qed.

End Preserves.

Create HintDb preserves.

Ltac preserving :=
  repeat first
    [ match goal with |- PreOrder _ => apply _ end
    | solve [auto with preserves]
    | apply preserves_ret | apply preserves_lift | apply preserves_raise
    | apply preserves_load
    | apply preserves_bind; [| |intros ?]
    | apply preserves_try_except; [| |intros ?]
    | match goal with
      | |- preserves _ (if ?b then _ else _) => destruct b
      | |- preserves _ (match ?x with _ => _ end) => destruct x
      end ].

Lemma same_heap_only_keys {W A} (ks : list string) (m : M W A) :
  preserves same_heap m -> preserves (only_keys ks) m.
Proof. intros H s l k _. rewrite (H s). reflexivity. Qed.

Lemma preserves_setitem_only_keys {W} (ks : list string) (l : loc)
    (k : string) (v : value) :
  k ∈ ks -> preserves (only_keys ks) (setitem l k v : M W unit).
Proof.
  intros Hk s l' k' Hk'. rewrite run_setitem. cbn [snd heap].
  destruct (decide (l = l')) as [<-|Hne].
  - rewrite lookup_total_insert_eq. apply lookup_insert_ne. congruence.
  - rewrite lookup_total_insert_ne by exact Hne. reflexivity.
Qed.

Lemma preserves_setitem_calls {W} (l : loc) (k : string) (v : value) :
  preserves (calls_within 0) (setitem l k v : M W unit).
Proof. intros s. rewrite run_setitem. exists []. cbn. rewrite app_nil_r. auto. Qed.

Section Adapter.
Context {W : Type} (ext : External W).

Lemma generate_content_same_heap (self : BaseAgent.t) prompt temperature n :
  preserves same_heap
    (BaseAgent.generate_content ext self prompt temperature n : M W _).
Proof. intros s. apply generate_content_heap. Qed.

Lemma generate_content_calls (self : BaseAgent.t) prompt temperature n
    (s : state W) :
  calls_within 1 s (snd (BaseAgent.generate_content ext self prompt temperature n s)).
Proof.
  destruct (BaseAgent.enabled self) eqn:E.
  - rewrite generate_content_enabled by assumption. exists [prompt]. cbn. auto.
  - rewrite generate_content_disabled by assumption. exists []. cbn.
    rewrite app_nil_r. auto.
Qed.
End Adapter.

#[export] Hint Resolve generate_content_same_heap : preserves.

Section FilterExtra.
Context {W : Type} (lib : PyLib) (ext : External W).

Lemma evaluate_chunk_same_heap self query context chunk :
  preserves same_heap
    (FilterAgent._evaluate_chunk lib ext self query context chunk : M W dict).
Proof.
  unfold FilterAgent._evaluate_chunk, FilterAgent.evaluate_response.
  preserving.
Qed.

Lemma keep_verdict_checked (r : string) :
  checked_verdict (FilterAgent.keep_verdict r).
Proof.
  split.
  - rewrite keep_verdict_relevant. eauto.
  - exists 0.5%float. split; [apply keep_verdict_confidence|].
    split; reflexivity.
Qed.

(** Every verdict of [_evaluate_chunk] has the two fields the loop of
    [filter] reads first. *)
Lemma evaluate_chunk_checked (self : BaseAgent.t) (query : string)
    (context : option string) (chunk : loc) (s s' : state W) (d : dict) :
  FilterAgent._evaluate_chunk lib ext self query context chunk s = (Ok d, s') ->
  checked_verdict d.
Proof.
  unfold FilterAgent._evaluate_chunk. intros H.
  inv_bind H as c s1 Hload. inv_bind H as title s2 Htitle.
  inv_bind H as year s3 Hyear.
  rewrite run_try_except in H.
  destruct (FilterAgent.evaluate_response lib ext self _ s3) as [[v|e] s4] eqn:Hev.
  - injection H as <- <-. clear - Hev.
    unfold FilterAgent.evaluate_response in Hev.
    inv_bind Hev as response_text s5 Hgen.
    destruct (negb (Py.truthy_text response_text)).
    + injection Hev as <- <-. apply keep_verdict_checked.
    + inv_bind Hev as parsed s6 Hparse.
      destruct parsed as [| | | | | |result]; try discriminate.
      destruct (result !! "relevant") as [r|] eqn:Hr; [|discriminate].
      destruct (result !! "confidence"); [|discriminate].
      inv_bind Hev as x s7 Hfloat. injection Hev as <- <-. split.
      * rewrite lookup_insert_ne by discriminate. rewrite Hr. eauto.
      * exists (FilterAgent.clamp x). split; [apply lookup_insert_eq|].
        apply clamp_in_unit_interval.
  - destruct e; injection H as <- <-; apply keep_verdict_checked.
Qed.

(** [gather] returns, with one result per task. *)
Lemma gather_results {A} (Q : A -> Prop) (tasks : list (M W A)) :
  Forall (fun task => forall s a s', task s = (Ok a, s') -> Q a) tasks ->
  forall s, exists rs s',
    FilterAgent.gather tasks s = (Ok rs, s')
    /\ length rs = length tasks
    /\ Forall (fun r => forall a, r = Ok a -> Q a) rs.
Proof.
  induction 1 as [|task tasks Htask _ IH]; intros s; cbn [FilterAgent.gather].
  - exists [], s. repeat split. constructor.
  - rewrite run_bind, run_try_except, run_bind.
    destruct (task s) as [[a|e] s1] eqn:Ht.
    + rewrite run_ret. destruct (IH s1) as (rs & s2 & Hrun & Hlen & Hq).
      rewrite run_bind, Hrun, run_ret. exists (Ok a :: rs), s2.
      split; [reflexivity|]. split; [cbn; congruence|].
      constructor; [|exact Hq]. intros a' [= <-]. eapply Htask, Ht.
    + rewrite run_ret. destruct (IH s1) as (rs & s2 & Hrun & Hlen & Hq).
      rewrite run_bind, Hrun, run_ret. exists (Raise e :: rs), s2.
      split; [reflexivity|]. split; [cbn; congruence|].
      constructor; [|exact Hq]. discriminate.
Qed.

Lemma filter_step_only_keys threshold chunk ev :
  preserves (only_keys filter_keys)
    (FilterAgent.filter_step lib threshold chunk ev : M W bool).
Proof.
  assert (H1 : "agent_filtered" ∈ filter_keys) by (unfold filter_keys; rewrite !elem_of_cons; auto).
  assert (H2 : "relevance_score" ∈ filter_keys) by (unfold filter_keys; rewrite !elem_of_cons; auto).
  assert (H3 : "filter_reasoning" ∈ filter_keys) by (unfold filter_keys; rewrite !elem_of_cons; auto).
  unfold FilterAgent.filter_step.
  preserving; apply preserves_setitem_only_keys; assumption.
Qed.

(** One turn of the loop of [filter], on a verdict of [_evaluate_chunk] or
    on an exception. *)
Lemma filter_step_spec (threshold : float) (chunk : loc)
    (ev : result dict) (s : state W) :
  (forall d, ev = Ok d -> checked_verdict d) ->
  match FilterAgent.filter_step lib threshold chunk ev s with
  | (Ok true, s') =>
      (forall l, l <> chunk -> heap s' !! l = heap s !! l)
      /\ verified_score threshold s' chunk
  | (Ok false, s') => s' = s
  | (Raise e, s') =>
      e = KeyError "reasoning"
      \/ Py.slice_to lib (Py.get (heap s !!! chunk) "text" (VStr "")) 50
         = Raise e
  end.
Proof.
  intros Hev. destruct ev as [d|e].
  - destruct (Hev d eq_refl) as ([r Hr] & c & Hc & Hunit).
    unfold FilterAgent.filter_step, Py.getitem. rewrite Hr, Hc. run.
    assert (Hdrop :
      match
        (_ ← lift (Py.format_f lib 2 (VFloat c));
         c0 ← load chunk;
         _ ← lift (Py.slice_to lib (Py.get c0 "text" (VStr "")) 50);
         (mret false : M W bool)) s
      with
      | (Ok true, s') =>
          (forall l, l <> chunk -> heap s' !! l = heap s !! l)
          /\ verified_score threshold s' chunk
      | (Ok false, s') => s' = s
      | (Raise e, s') =>
          e = KeyError "reasoning"
          \/ Py.slice_to lib (Py.get (heap s !!! chunk) "text" (VStr "")) 50
             = Raise e
      end).
    { cbn [Py.format_f]. run.
      destruct (Py.slice_to lib (Py.get (heap s !!! chunk) "text" (VStr "")) 50);
        run; auto. }
    destruct (Py.truthy r); run; [|exact Hdrop].
    cbn [Py.ge_float]. run.
    destruct (threshold <=? c)%float eqn:Hthr; [|exact Hdrop].
    run. destruct (d !! "reasoning") as [why|]; run; [|left; reflexivity].
    rewrite !lookup_total_insert_eq, !insert_insert_eq. split.
    + intros l Hl. apply lookup_insert_ne. congruence.
    + intros _. cbn [heap]. rewrite lookup_total_insert_eq. exists c.
      rewrite lookup_insert_ne by discriminate. rewrite lookup_insert_eq.
      auto.
  - cbn [FilterAgent.filter_step]. run.
    rewrite !lookup_total_insert_eq, !insert_insert_eq. split.
    + intros l Hl. apply lookup_insert_ne. congruence.
    + intros Hmark. cbn [heap] in Hmark. rewrite lookup_total_insert_eq in Hmark.
      rewrite lookup_insert_ne in Hmark by discriminate.
      rewrite lookup_insert_eq in Hmark. discriminate.
Qed.

Lemma verified_score_frame threshold (s s' : state W) (l : loc) :
  heap s' !! l = heap s !! l ->
  verified_score threshold s l -> verified_score threshold s' l.
Proof.
  intros Heq H. unfold verified_score in *.
  rewrite !lookup_total_alt, Heq in *. rewrite <- !lookup_total_alt. exact H.
Qed.

Lemma filter_loop_spec (threshold : float) (s0 : state W) :
  forall (pairs : list (loc * result dict)) (filtered : list loc) (s : state W),
    Forall (fun p => forall d, p.2 = Ok d -> checked_verdict d) pairs ->
    only_keys filter_keys s0 s ->
    Forall (verified_score threshold s) filtered ->
    match FilterAgent.filter_loop lib threshold pairs filtered s with
    | (Ok out, s') =>
        exists kept,
          out = (filtered ++ kept)%list
          /\ sublist kept pairs.*1
          /\ (forall l, l ∉ kept -> heap s' !! l = heap s !! l)
          /\ Forall (verified_score threshold s') out
    | (Raise e, s') =>
        e = KeyError "reasoning"
        \/ (exists l, l ∈ pairs.*1
               /\ Py.slice_to lib (Py.get (heap s0 !!! l) "text" (VStr "")) 50
                  = Raise e)
    end.
Proof.
  induction pairs as [|[chunk ev] pairs IH]; intros filtered s Hevs Hkeys Hver.
  - cbn. exists []. rewrite app_nil_r. repeat split; auto.
  - cbn [FilterAgent.filter_loop]. rewrite run_bind.
    apply Forall_cons in Hevs as [Hev Hevs]. cbn [snd] in Hev.
    pose proof (filter_step_spec threshold chunk ev s Hev) as Hstep.
    pose proof (filter_step_only_keys threshold chunk ev s) as Hk.
    destruct (FilterAgent.filter_step lib threshold chunk ev s)
      as [[keep|e] s1]; cbn [snd] in Hk.
    + assert (Hkeys1 : only_keys filter_keys s0 s1)
        by (etransitivity; eassumption).
      destruct keep.
      * destruct Hstep as [Hother Hchunk].
        assert (Hver1 : Forall (verified_score threshold s1) (filtered ++ [chunk])).
        { apply Forall_app. split.
          - eapply Forall_impl; [exact Hver|]. cbn. intros l Hl.
            destruct (decide (l = chunk)) as [->|Hne]; [exact Hchunk|].
            eapply verified_score_frame; [apply Hother; exact Hne|exact Hl].
          - constructor; [exact Hchunk|constructor]. }
        specialize (IH (filtered ++ [chunk])%list s1 Hevs Hkeys1 Hver1).
        destruct (FilterAgent.filter_loop lib threshold pairs _ s1)
          as [[out|e] s2].
        -- destruct IH as (kept & -> & Hsub & Hun & Hv).
           exists (chunk :: kept). rewrite <- app_assoc in Hv |- *.
           split; [reflexivity|].
           split; [cbn; apply sublist_skip; exact Hsub|]. split; [|exact Hv].
           intros l Hl. rewrite not_elem_of_cons in Hl. destruct Hl as [Hne Hl].
           rewrite (Hun l Hl). apply Hother. exact Hne.
        -- destruct IH as [IH | (l & Hl & Hsl)]; [left; exact IH|].
           right. exists l. split; [|exact Hsl].
           cbn. right. exact Hl.
      * subst s1. specialize (IH filtered s Hevs Hkeys Hver).
        destruct (FilterAgent.filter_loop lib threshold pairs _ s)
          as [[out|e] s2].
        -- destruct IH as (kept & -> & Hsub & Hun & Hv).
           exists kept. split; [reflexivity|].
           split; [cbn; apply sublist_cons; exact Hsub|]. auto.
        -- destruct IH as [IH | (l & Hl & Hsl)]; [left; exact IH|].
           right. exists l. split; [|exact Hsl].
           cbn. right. exact Hl.
    + destruct Hstep as [Hstep | Hsl]; [left; exact Hstep|].
      right. exists chunk. split; [cbn; left|].
      unfold Py.get in *. rewrite <- (Hkeys chunk "text"); [exact Hsl|].
      unfold filter_keys. rewrite !elem_of_cons, elem_of_nil.
      intuition discriminate.
Qed.

End FilterExtra.

Section FilterTheorems.
Context {W : Type} (lib : PyLib) (ext : External W).

Lemma filter_enabled_spec (self : BaseAgent.t) (query : string)
    (context : option string) (chunks : list loc) (threshold : float)
    (s : state W) :
  BaseAgent.enabled self = true ->
  match FilterAgent.filter lib ext self query context chunks threshold s with
  | (Ok out, s') =>
      sublist out chunks
      /\ (forall l, l ∉ out -> heap s' !! l = heap s !! l)
      /\ Forall (verified_score threshold s') out
  | (Raise e, s') =>
      e = KeyError "reasoning"
      \/ (exists l, l ∈ chunks
             /\ Py.slice_to lib (Py.get (heap s !!! l) "text" (VStr "")) 50
                = Raise e)
  end.
Proof.
  intros Hon. unfold FilterAgent.filter. rewrite Hon. cbn [negb].
  destruct (bool_decide (chunks = [])).
  { rewrite run_ret. split; [apply sublist_nil_l|]. split; [reflexivity|constructor]. }
  rewrite run_bind.
  set (tasks := List.map (FilterAgent._evaluate_chunk lib ext self query context)
                         chunks).
  assert (Htasks : Forall (fun task : M W dict =>
            forall s a s', task s = (Ok a, s') -> checked_verdict a) tasks).
  { apply Forall_forall. intros task Hin. apply list_elem_of_fmap in Hin.
    destruct Hin as (chunk & -> & _). intros s1 a s2 Hrun.
    eapply evaluate_chunk_checked. exact Hrun. }
  assert (Hheap : preserves same_heap (FilterAgent.gather tasks)).
  { apply preserves_gather; [apply _|]. apply Forall_forall. intros task Hin.
    apply list_elem_of_fmap in Hin. destruct Hin as (chunk & -> & _).
    apply evaluate_chunk_same_heap. }
  specialize (Hheap s).
  destruct (gather_results checked_verdict tasks Htasks s)
    as (rs & s1 & Hrun & Hlen & Hrs).
  rewrite Hrun in Hheap |- *. cbn [snd] in Hheap. unfold same_heap in Hheap.
  assert (Hlen' : length rs = length chunks)
    by (rewrite Hlen; unfold tasks; apply length_map).
  assert (Hpairs : Forall (fun p : loc * result dict =>
            forall d, p.2 = Ok d -> checked_verdict d) (zip chunks rs)).
  { apply Forall_forall. intros [l r] Hin. apply elem_of_zip_r in Hin.
    rewrite Forall_forall in Hrs. apply Hrs. exact Hin. }
  pose proof (filter_loop_spec lib threshold s1 (zip chunks rs) [] s1 Hpairs
                (reflexivity _) (Forall_nil_2 _)) as Hloop.
  rewrite fst_zip in Hloop by lia.
  destruct (FilterAgent.filter_loop lib threshold (zip chunks rs) [] s1)
    as [[out|e] s2].
  - destruct Hloop as (kept & -> & Hsub & Hun & Hv). cbn [app] in *.
    split; [exact Hsub|]. split; [|exact Hv].
    intros l Hl. rewrite (Hun l Hl), Hheap. reflexivity.
  - rewrite Hheap in Hloop. exact Hloop.
Qed.

End FilterTheorems.

(** *** Relevance scores, on every path that assigns one *)

Section ScorePaths.
Context {W : Type} (lib : PyLib) (ext : External W).

Lemma scored_frame (s s' : state W) (l : loc) :
  heap s' !! l = heap s !! l -> scored s l -> scored s' l.
Proof.
  intros Heq (c & Hc & Hunit). exists c. split; [|exact Hunit].
  rewrite lookup_total_alt, Heq, <- lookup_total_alt. exact Hc.
Qed.

(** A chunk the loop of [filter] keeps has its score from the verdict or,
    on the branch for a raised evaluation, from the search. *)
Lemma filter_step_scored (threshold : float) (chunk : loc)
    (ev : result dict) (s s' : state W) :
  (forall d, ev = Ok d -> checked_verdict d) ->
  score_in_unit (heap s !!! chunk) ->
  FilterAgent.filter_step lib threshold chunk ev s = (Ok true, s') ->
  scored s' chunk.
Proof.
  intros Hev Hscore Hrun.
  destruct (filter_step_stores lib threshold chunk s) as [Hkept Hraised].
  destruct ev as [d|e].
  - destruct (Hkept d s' Hrun) as [Hstored _].
    destruct (Hev d eq_refl) as (_ & c & Hc & Hunit).
    exists c. split; [rewrite Hstored; exact Hc|exact Hunit].
  - destruct (Hraised e) as (s1 & Hrun1 & Hstored & _).
    rewrite Hrun in Hrun1. injection Hrun1 as <-.
    unfold score_in_unit in Hscore. unfold Py.get in Hstored.
    destruct ((heap s !!! chunk) !! "score") as [v|].
    + destruct Hscore as (c & -> & Hunit). exists c. auto.
    + exists 0.5%float. split; [exact Hstored|]. split; reflexivity.
Qed.

Lemma filter_loop_scored (threshold : float) (s0 : state W) :
  forall (pairs : list (loc * result dict)) (filtered : list loc)
         (s s' : state W) (out : list loc),
    Forall (fun p => forall d, p.2 = Ok d -> checked_verdict d) pairs ->
    Forall (fun p => score_in_unit (heap s0 !!! p.1)) pairs ->
    only_keys filter_keys s0 s ->
    Forall (scored s) filtered ->
    FilterAgent.filter_loop lib threshold pairs filtered s = (Ok out, s') ->
    Forall (scored s') out.
Proof.
  induction pairs as [|[chunk ev] pairs IH];
    intros filtered s s' out Hevs Hscores Hkeys Hdone Hrun.
  - cbn in Hrun. injection Hrun as <- <-. exact Hdone.
  - cbn [FilterAgent.filter_loop] in Hrun. rewrite run_bind in Hrun.
    apply Forall_cons in Hevs as [Hev Hevs].
    apply Forall_cons in Hscores as [Hscore Hscores].
    cbn [fst snd] in Hev, Hscore.
    pose proof (filter_step_spec lib threshold chunk ev s Hev) as Hstep.
    pose proof (filter_step_only_keys lib threshold chunk ev s) as Hk.
    assert (Hscore' : score_in_unit (heap s !!! chunk)).
    { unfold score_in_unit in *. rewrite (Hkeys chunk "score"); [exact Hscore|].
      unfold filter_keys. rewrite !elem_of_cons, elem_of_nil.
      intuition discriminate. }
    destruct (FilterAgent.filter_step lib threshold chunk ev s)
      as [[keep|e] s1] eqn:Hrun1; [|discriminate].
    cbn [snd] in Hk.
    assert (Hkeys1 : only_keys filter_keys s0 s1)
      by (etransitivity; eassumption).
    destruct keep.
    + destruct Hstep as [Hother _].
      pose proof (filter_step_scored threshold chunk ev s s1 Hev Hscore' Hrun1)
        as Hchunk.
      eapply IH; [exact Hevs|exact Hscores|exact Hkeys1| |exact Hrun].
      apply Forall_app. split; [|constructor; [exact Hchunk|constructor]].
      eapply Forall_impl; [exact Hdone|]. cbn. intros l Hl.
      destruct (decide (l = chunk)) as [->|Hne]; [exact Hchunk|].
      eapply scored_frame; [apply Hother; exact Hne|exact Hl].
    + subst s1. eapply IH; eassumption.
Qed.

(** With search scores in [0, 1], every chunk [filter] returns carries a
    relevance score in [0, 1]. *)
Lemma filter_scored (self : BaseAgent.t) (query : string)
    (context : option string) (chunks : list loc) (threshold : float)
    (s s' : state W) (out : list loc) :
  BaseAgent.enabled self = true ->
  Forall (fun l => score_in_unit (heap s !!! l)) chunks ->
  FilterAgent.filter lib ext self query context chunks threshold s
    = (Ok out, s') ->
  Forall (scored s') out.
Proof.
  intros Hon Hscores Hrun. unfold FilterAgent.filter in Hrun.
  rewrite Hon in Hrun. cbn [negb] in Hrun.
  destruct (bool_decide (chunks = [])).
  { rewrite run_ret in Hrun. injection Hrun as <- <-. constructor. }
  rewrite run_bind in Hrun.
  set (tasks := List.map (FilterAgent._evaluate_chunk lib ext self query context)
                         chunks) in *.
  assert (Htasks : Forall (fun task : M W dict =>
            forall s a s', task s = (Ok a, s') -> checked_verdict a) tasks).
  { apply Forall_forall. intros task Hin. apply list_elem_of_fmap in Hin.
    destruct Hin as (chunk & -> & _). intros s1 a s2 Hrun1.
    eapply evaluate_chunk_checked. exact Hrun1. }
  assert (Hheap : preserves same_heap (FilterAgent.gather tasks)).
  { apply preserves_gather; [apply _|]. apply Forall_forall. intros task Hin.
    apply list_elem_of_fmap in Hin. destruct Hin as (chunk & -> & _).
    apply evaluate_chunk_same_heap. }
  specialize (Hheap s).
  destruct (gather_results checked_verdict tasks Htasks s)
    as (rs & s1 & Hgather & Hlen & Hrs).
  rewrite Hgather in Hheap, Hrun. cbn [snd] in Hheap. unfold same_heap in Hheap.
  eapply (filter_loop_scored threshold s1); [| |reflexivity| |exact Hrun].
  - apply Forall_forall. intros [l r] Hin. apply elem_of_zip_r in Hin.
    rewrite Forall_forall in Hrs. apply Hrs. exact Hin.
  - apply Forall_forall. intros [l r] Hin. apply elem_of_zip_l in Hin.
    cbn [fst]. rewrite Hheap. rewrite Forall_forall in Hscores.
    apply Hscores. exact Hin.
  - constructor.
Qed.

(** What response construction hands to the [Chunk] model. *)
Lemma handed_score_in_unit (chunk_data : dict) :
  relevance_in_unit chunk_data ->
  score_in_unit chunk_data ->
  exists c,
    Py.get chunk_data "relevance_score" (Py.get chunk_data "score" (VFloat 0))
    = VFloat c
    /\ in_unit_interval c.
Proof.
  unfold relevance_in_unit, score_in_unit, Py.get.
  intros Hrel Hscore.
  destruct (chunk_data !! "relevance_score") as [v|].
  - destruct Hrel as (c & -> & Hunit). eauto.
  - destruct (chunk_data !! "score") as [v|].
    + destruct Hscore as (c & -> & Hunit). eauto.
    + exists 0%float. split; [reflexivity|]. split; reflexivity.
Qed.

End ScorePaths.

(** C6. Every [Chunk] of a response has its [relevance_score] in [0, 1],
    and so has the value on every path that assigns one, the search
    collaborator giving scores in [0, 1]. (1) The Filter Stage clamps:
    [max(0.0, min(1.0, x))] lies in [0, 1] for every float. (2) Every verdict
    of [_evaluate_chunk] carries a confidence in [0, 1]. (3) The loop of
    [filter] stores that confidence on a chunk that passes the threshold, and
    on the branch for a raised evaluation the prior [score], 0.5 when the
    chunk has none. (4) So every chunk [filter] returns carries a relevance
    score in [0, 1]. (5) Response construction hands the relevance score,
    else the prior score, else 0.0, to the [Chunk] model: a value in [0, 1].
    (6) The [Chunk] model validates the value against [ge=0.0, le=1.0]:
    every chunk of a response that is returned has its [relevance_score] in
    [0, 1]. *)
Theorem relevance_score_in_unit_interval {W} (lib : PyLib) (pyd : Pydantic)
    (ext : External W) :
  (forall x, in_unit_interval (FilterAgent.clamp x))
  /\ (forall self query context chunk (s s' : state W) d,
        FilterAgent._evaluate_chunk lib ext self query context chunk s
          = (Ok d, s') ->
        exists c, d !! "confidence" = Some (VFloat c) /\ in_unit_interval c)
  /\ (forall threshold chunk (s : state W),
        (forall d s', FilterAgent.filter_step lib threshold chunk (Ok d) s
                      = (Ok true, s') ->
           (heap s' !!! chunk) !! "relevance_score" = d !! "confidence"
           /\ (heap s' !!! chunk) !! "agent_filtered" = Some (VBool true))
        /\ (forall e, exists s',
             FilterAgent.filter_step lib threshold chunk (Raise e) s
               = (Ok true, s')
             /\ (heap s' !!! chunk) !! "relevance_score"
                = Some (Py.get (heap s !!! chunk) "score" (VFloat 0.5))
             /\ (heap s' !!! chunk) !! "agent_filtered" = Some (VBool false)))
  /\ (forall self query context chunks threshold (s s' : state W) out,
        BaseAgent.enabled self = true ->
        Forall (fun l => score_in_unit (heap s !!! l)) chunks ->
        FilterAgent.filter lib ext self query context chunks threshold s
          = (Ok out, s') ->
        Forall (scored s') out)
  /\ (forall chunk_data,
        relevance_in_unit chunk_data ->
        score_in_unit chunk_data ->
        exists c,
          Py.get chunk_data "relevance_score"
            (Py.get chunk_data "score" (VFloat 0)) = VFloat c
          /\ in_unit_interval c)
  /\ (forall request filter_agent rank_agent format_agent (s s' : state W)
             response,
        Routes.search_citations lib pyd ext request filter_agent rank_agent
          format_agent s = (Ok response, s') ->
        Forall (fun c => in_unit_interval (Models.relevance_score c))
               (Models.chunks response)).
Proof.
  split; [|split; [|split; [|split; [|split]]]].
  - apply clamp_in_unit_interval.
  - intros. eapply evaluate_chunk_confidence; eassumption.
  - intros. apply filter_step_stores.
  - intros. eapply filter_scored; eassumption.
  - intros. apply handed_score_in_unit; assumption.
  - intros. eapply search_pipeline_scores; eassumption.
Qed.

(** A witness of [relevance_score_in_unit_interval]. Of two chunks the model
    judges the second relevant, with confidence 0.9: [filter] returns it with
    that relevance score. And a search that finds one chunk of score 0.8,
    with the agents disabled, answers with that chunk. *)
Lemma relevance_score_in_unit_interval_witness :
  (exists s',
      FilterAgent.filter
        (Script.lib (Script.relevance "true" "0.9" true (VFloat 0.9)))
        Script.ext Script.agent_on "query" None [1; 2]%positive 0.7
        (Script.start Scenario.two_chunks
           [Responded "no verdict";
            Responded (Script.relevance_text "true" "0.9")] (Ok []))
      = (Ok [2%positive], s')
      /\ (heap s' !!! 2%positive) !! "relevance_score" = Some (VFloat 0.9)
      /\ Forall (scored s') [2%positive])
  /\ exists response,
       fst (Routes.search_citations (Script.lib Script.no_json) Script.pyd
              Script.ext Script.request Script.agent_off Script.agent_off
              Script.agent_off
              (Script.start ∅ [] (Ok [Script.found "c1" "a chunk" 0.8])))
       = Ok response
       /\ List.map Models.relevance_score (Models.chunks response)
          = [0.8%float]
       /\ Forall (fun c => in_unit_interval (Models.relevance_score c))
                 (Models.chunks response).
Proof.
  split.
  - pose proof (relevance_score_in_unit_interval
                  (Script.lib (Script.relevance "true" "0.9" true (VFloat 0.9)))
                  Script.pyd Script.ext) as (_ & _ & _ & Hfilter & _ & _).
    eexists. split; [vm_compute; reflexivity|].
    split; [vm_compute; reflexivity|].
    eapply (Hfilter Script.agent_on "query" None [1; 2]%positive 0.7%float
              (Script.start Scenario.two_chunks
                 [Responded "no verdict";
                  Responded (Script.relevance_text "true" "0.9")] (Ok []))).
    + reflexivity.
    + repeat constructor.
    + vm_compute. reflexivity.
  - pose proof (relevance_score_in_unit_interval (Script.lib Script.no_json)
                  Script.pyd Script.ext) as (_ & _ & _ & _ & _ & Hresponse).
    eexists. split; [vm_compute; reflexivity|]. split; [reflexivity|].
    eapply (Hresponse Script.request Script.agent_off Script.agent_off
              Script.agent_off
              (Script.start ∅ [] (Ok [Script.found "c1" "a chunk" 0.8]))).
    vm_compute. reflexivity.
Defined.


(** X1. [filter] selects: the list it returns is a subsequence of the list it
    was given (the same references, in the same order, none repeated more
    often than given), and a dict that is not in the returned list is exactly
    as it was: a dropped chunk is not written to. *)
Theorem filter_returns_subsequence {W} (lib : PyLib) (ext : External W)
    (self : BaseAgent.t) (query : string) (context : option string)
    (chunks : list loc) (threshold : float) (s s' : state W)
    (out : list loc) :
  FilterAgent.filter lib ext self query context chunks threshold s
    = (Ok out, s') ->
  sublist out chunks
  /\ forall l, l ∉ out -> heap s' !! l = heap s !! l.
Proof.
  intros Hrun. destruct (BaseAgent.enabled self) eqn:Hon.
  - pose proof (filter_enabled_spec lib ext self query context chunks
                  threshold s Hon) as H.
    rewrite Hrun in H. destruct H as (Hsub & Hun & _). auto.
  - unfold FilterAgent.filter in Hrun. rewrite Hon in Hrun.
    injection Hrun as <- <-. auto.
Qed.

Lemma filter_returns_subsequence_witness :
  exists s',
    FilterAgent.filter
      (Script.lib (Script.relevance "true" "0.9" true (VFloat 0.9)))
      Script.ext Script.agent_on "query" None [1; 2]%positive 0.7
      (Script.start Scenario.two_chunks
         [Responded "no verdict";
          Responded (Script.relevance_text "true" "0.9")] (Ok []))
    = (Ok [2%positive], s')
    /\ sublist [2%positive] [1; 2]%positive
    /\ heap s' !! 1%positive = Some {[ "text" := VStr "first" ]}.
Proof.
  eexists. split; [vm_compute; reflexivity|].
  destruct (filter_returns_subsequence
              (Script.lib (Script.relevance "true" "0.9" true (VFloat 0.9)))
              Script.ext Script.agent_on "query" None [1; 2]%positive 0.7
              (Script.start Scenario.two_chunks
                 [Responded "no verdict";
                  Responded (Script.relevance_text "true" "0.9")] (Ok []))
              _ [2%positive] ltac:(vm_compute; reflexivity)) as [Hsub Hun].
  split; [exact Hsub|]. rewrite Hun; [reflexivity|].
  rewrite elem_of_cons, elem_of_nil. intuition discriminate.
Defined.

(** X2. A chunk that an enabled [filter] returns marked
    [agent_filtered = True] carries a [relevance_score] that is a float in
    [0, 1] at or above the threshold of the call. *)
Theorem filter_verified_scores {W} (lib : PyLib) (ext : External W)
    (self : BaseAgent.t) (query : string) (context : option string)
    (chunks : list loc) (threshold : float) (s s' : state W)
    (out : list loc) :
  BaseAgent.enabled self = true ->
  FilterAgent.filter lib ext self query context chunks threshold s
    = (Ok out, s') ->
  Forall (verified_score threshold s') out.
Proof.
  intros Hon Hrun.
  pose proof (filter_enabled_spec lib ext self query context chunks
                threshold s Hon) as H.
  rewrite Hrun in H. destruct H as (_ & _ & Hv). exact Hv.
Qed.

Lemma filter_verified_scores_witness :
  exists s',
    FilterAgent.filter
      (Script.lib (Script.relevance "true" "0.9" true (VFloat 0.9)))
      Script.ext Script.agent_on "query" None [1; 2]%positive 0.7
      (Script.start Scenario.two_chunks
         [Responded "no verdict";
          Responded (Script.relevance_text "true" "0.9")] (Ok []))
    = (Ok [2%positive], s')
    /\ (heap s' !!! 2%positive) !! "agent_filtered" = Some (VBool true)
    /\ Forall (verified_score 0.7 s') [2%positive].
Proof.
  eexists. split; [vm_compute; reflexivity|]. split; [vm_compute; reflexivity|].
  apply (filter_verified_scores
           (Script.lib (Script.relevance "true" "0.9" true (VFloat 0.9)))
           Script.ext Script.agent_on "query" None [1; 2]%positive 0.7
           (Script.start Scenario.two_chunks
              [Responded "no verdict";
               Responded (Script.relevance_text "true" "0.9")] (Ok []))).
  - reflexivity.
  - vm_compute. reflexivity.
Defined.

(** What slicing can raise. *)
Lemma slice_to_raises (lib : PyLib) (v : value) (n : nat) (e : exn) :
  Py.slice_to lib v n = Raise e ->
  e = TypeError
  \/ (e = KeyErrorSlice n /\ hashable_slices lib = true
      /\ exists d, v = VDict d).
Proof.
  destruct v; cbn [Py.slice_to]; try discriminate;
    try (intros [= <-]; left; reflexivity).
  destruct (hashable_slices lib); intros [= <-]; [right|left]; eauto.
Qed.

(** X3. [filter] raises in two places, and in no other. One is the lookup of
    [reasoning] in a verdict that passes the threshold and has no such field
    (the evaluation checks [relevant] and [confidence] only): [KeyError].
    The other is the slice [text[:50]] of a dropped chunk, taken for the log
    line, when the text is neither a [str] nor a list: [TypeError], or, for
    a text that is a dict on an interpreter whose slices are hashable,
    [KeyError] with the slice for its key. *)
Theorem filter_failure_modes {W} (lib : PyLib) (ext : External W)
    (self : BaseAgent.t) (query : string) (context : option string)
    (chunks : list loc) (threshold : float) (s : state W) (e : exn) :
  fst (FilterAgent.filter lib ext self query context chunks threshold s)
    = Raise e ->
  e = KeyError "reasoning"
  \/ (exists l,
        l ∈ chunks
        /\ Py.slice_to lib (Py.get (heap s !!! l) "text" (VStr "")) 50
           = Raise e
        /\ (e = TypeError
            \/ (e = KeyErrorSlice 50 /\ hashable_slices lib = true
                /\ exists d,
                     Py.get (heap s !!! l) "text" (VStr "") = VDict d))).
Proof.
  intros Hrun. destruct (BaseAgent.enabled self) eqn:Hon.
  - pose proof (filter_enabled_spec lib ext self query context chunks
                  threshold s Hon) as H.
    destruct (FilterAgent.filter lib ext self query context chunks threshold s)
      as [[out|e'] s']; cbn [fst] in Hrun; [discriminate|].
    injection Hrun as ->. destruct H as [H | (l & Hl & Hslice)];
      [left; exact H|].
    right. exists l. split; [exact Hl|]. split; [exact Hslice|].
    apply slice_to_raises in Hslice. exact Hslice.
  - unfold FilterAgent.filter in Hrun. rewrite Hon in Hrun. discriminate.
Qed.

Lemma filter_failure_modes_witness :
  fst (FilterAgent.filter (Script.lib Scenario.bare_verdict) Script.ext
         Script.agent_on "query" None [1; 2]%positive 0.7
         (Script.start Scenario.two_chunks
            [Responded Scenario.bare_verdict_text] (Ok [])))
  = Raise (KeyError "reasoning")
  /\ fst (FilterAgent.filter (Script.lib Script.no_json) Script.ext
            Script.agent_on "query" None [1%positive] 0.7
            (Script.start {[ 1%positive := {[ "text" := VDict ∅ ]} ]}
               [Responded "no verdict"] (Ok [])))
     = Raise (KeyErrorSlice 50)
  /\ (KeyErrorSlice 50 = KeyError "reasoning"
      \/ (exists l,
            l ∈ [1%positive]
            /\ Py.slice_to (Script.lib Script.no_json)
                 (Py.get
                    (heap (Script.start
                             {[ 1%positive := {[ "text" := VDict ∅ ]} ]}
                             [Responded "no verdict"] (Ok [])) !!! l)
                    "text" (VStr "")) 50
               = Raise (KeyErrorSlice 50)
            /\ (KeyErrorSlice 50 = TypeError
                \/ (KeyErrorSlice 50 = KeyErrorSlice 50
                    /\ hashable_slices (Script.lib Script.no_json) = true
                    /\ exists d,
                         Py.get
                           (heap (Script.start
                                    {[ 1%positive := {[ "text" := VDict ∅ ]} ]}
                                    [Responded "no verdict"] (Ok [])) !!! l)
                           "text" (VStr "") = VDict d)))).
Proof.
  split; [vm_compute; reflexivity|]. split; [vm_compute; reflexivity|].
  apply (filter_failure_modes (Script.lib Script.no_json) Script.ext
           Script.agent_on "query" None [1%positive] 0.7
           (Script.start {[ 1%positive := {[ "text" := VDict ∅ ]} ]}
              [Responded "no verdict"] (Ok []))
           (KeyErrorSlice 50)).
  vm_compute. reflexivity.
Defined.

(** X4. Whatever its outcome, [filter] writes no key of a dict but
    [agent_filtered], [relevance_score] and [filter_reasoning]: the text, the
    metadata and the search score of every chunk are as they were. *)
Theorem filter_writes_only_its_keys {W} (lib : PyLib) (ext : External W)
    (self : BaseAgent.t) (query : string) (context : option string)
    (chunks : list loc) (threshold : float) (s : state W) :
  only_keys filter_keys s
    (snd (FilterAgent.filter lib ext self query context chunks threshold s)).
Proof.
  revert s. change (preserves (only_keys filter_keys)
    (FilterAgent.filter lib ext self query context chunks threshold : M W _)).
  unfold FilterAgent.filter.
  assert (Hloop : forall pairs filtered,
    preserves (only_keys filter_keys)
      (FilterAgent.filter_loop lib threshold pairs filtered : M W _)).
  { induction pairs as [|[chunk ev] pairs IH]; intros filtered;
      cbn [FilterAgent.filter_loop].
    - apply preserves_ret. apply _.
    - apply preserves_bind; [apply _|apply filter_step_only_keys|].
      intros keep. apply IH. }
  preserving.
  apply same_heap_only_keys. apply preserves_gather; [apply _|].
  apply Forall_forall. intros task Hin.
  apply list_elem_of_fmap in Hin. destruct Hin as (chunk & -> & _).
  apply evaluate_chunk_same_heap.
Qed.

(** *** The number of prompts a stage sends *)

Section Budget.
Context {W : Type}.

Lemma within_bind {A B} (n k : nat) (m : M W A) (f : A -> M W B) :
  preserves (calls_within n) m ->
  (forall a, preserves (calls_within k) (f a)) ->
  preserves (calls_within (n + k)) (m ≫= f).
Proof.
  intros Hm Hf s. rewrite run_bind. specialize (Hm s).
  destruct (m s) as [[a|e] s1]; cbn [snd] in *.
  - eapply calls_within_trans; [exact Hm|apply Hf].
  - eapply calls_within_mono; [|exact Hm]. lia.
Qed.

Lemma within_try_except {A} (n k : nat) (m : M W A) (h : exn -> M W A) :
  preserves (calls_within n) m ->
  (forall e, preserves (calls_within k) (h e)) ->
  preserves (calls_within (n + k)) (try_except m h).
Proof.
  intros Hm Hh s. rewrite run_try_except. specialize (Hm s).
  destruct (m s) as [[a|e] s1]; cbn [snd] in *.
  - eapply calls_within_mono; [|exact Hm]. lia.
  - eapply calls_within_trans; [exact Hm|apply Hh].
Qed.

Lemma within_mono {A} (n k : nat) (m : M W A) :
  (n <= k)%nat -> preserves (calls_within n) m -> preserves (calls_within k) m.
Proof. intros Hnk Hm s. eapply calls_within_mono; [exact Hnk|apply Hm]. Qed.

Lemma preserves_alloc_calls (d : dict) :
  preserves (calls_within 0) (alloc d : M W loc).
Proof. intros s. exists []. cbn. rewrite app_nil_r. auto. Qed.

Lemma preserves_copy_calls (l : loc) :
  preserves (calls_within 0) (copy l : M W loc).
Proof.
  unfold copy. apply preserves_bind; [apply _|apply preserves_load; apply _|].
  intros d. apply preserves_alloc_calls.
Qed.

Lemma within_gather {A} (tasks : list (M W A)) :
  Forall (preserves (calls_within 1)) tasks ->
  preserves (calls_within (length tasks)) (FilterAgent.gather tasks).
Proof.
  induction 1 as [|task tasks Htask _ IH]; cbn [FilterAgent.gather length].
  - apply preserves_ret. apply _.
  - change (S (length tasks)) with (1 + length tasks)%nat.
    apply within_bind.
    + change 1%nat with (1 + 0)%nat. apply within_try_except.
      * change 1%nat with (1 + 0)%nat. apply within_bind; [exact Htask|].
        intros a. apply preserves_ret. apply _.
      * intros e. apply preserves_ret. apply _.
    + intros r. rewrite <- (Nat.add_0_r (length tasks)).
      apply within_bind; [exact IH|]. intros rs. apply preserves_ret. apply _.
Qed.

End Budget.

#[export] Hint Resolve preserves_setitem_calls preserves_alloc_calls
  preserves_copy_calls : preserves.

Section StageBudgets.
Context {W : Type} (lib : PyLib) (ext : External W).

Lemma generate_content_within (self : BaseAgent.t) prompt temperature n :
  preserves (calls_within 1)
    (BaseAgent.generate_content ext self prompt temperature n : M W _).
Proof. intros s. apply generate_content_calls. Qed.

Lemma evaluate_chunk_within self query context chunk :
  preserves (calls_within 1)
    (FilterAgent._evaluate_chunk lib ext self query context chunk : M W dict).
Proof.
  unfold FilterAgent._evaluate_chunk.
  apply (within_bind 0 1); [apply preserves_load; apply _|]. intros c.
  apply (within_bind 0 1); [apply preserves_lift; apply _|]. intros title.
  apply (within_bind 0 1); [apply preserves_lift; apply _|]. intros year.
  apply (within_try_except 1 0).
  - unfold FilterAgent.evaluate_response.
    apply (within_bind 1 0); [apply generate_content_within|].
    intros response_text. preserving.
  - intros e. preserving.
Qed.

Lemma filter_loop_within threshold :
  forall pairs filtered,
    preserves (calls_within 0)
      (FilterAgent.filter_loop lib threshold pairs filtered : M W _).
Proof.
  induction pairs as [|[chunk ev] pairs IH]; intros filtered;
    cbn [FilterAgent.filter_loop].
  - preserving.
  - apply preserves_bind; [apply _| |intros keep; apply IH].
    unfold FilterAgent.filter_step. preserving.
Qed.

Lemma filter_within self query context chunks threshold :
  preserves (calls_within (length chunks))
    (FilterAgent.filter lib ext self query context chunks threshold : M W _).
Proof.
  unfold FilterAgent.filter.
  destruct (negb (BaseAgent.enabled self)).
  { apply (within_mono 0); [lia|]. preserving. }
  destruct (bool_decide (chunks = [])).
  { apply (within_mono 0); [lia|]. preserving. }
  rewrite <- (Nat.add_0_r (length chunks)). apply within_bind.
  - rewrite <- (length_map (FilterAgent._evaluate_chunk lib ext self query context)
                           chunks).
    apply within_gather. apply Forall_forall. intros task Hin.
    apply list_elem_of_fmap in Hin. destruct Hin as (chunk & -> & _).
    apply evaluate_chunk_within.
  - intros evaluations. apply filter_loop_within.
Qed.

Lemma assign_sequential_ranks_within chunks :
  preserves (calls_within 0)
    (RankAgent.assign_sequential_ranks chunks : M W unit).
Proof.
  unfold RankAgent.assign_sequential_ranks.
  apply preserves_for_enumerate; [apply _|]. intros i x. preserving.
Qed.

Lemma summarize_within chunks : forall i,
  preserves (calls_within 0) (RankAgent.summarize lib i chunks : M W _).
Proof.
  induction chunks as [|chunk chunks IH]; intros i; cbn [RankAgent.summarize].
  - preserving.
  - unfold RankAgent.summary_entry. preserving.
Qed.

Lemma place_ranked_within reasoning chunks ids : forall rank acc,
  preserves (calls_within 0)
    (RankAgent.place_ranked reasoning chunks ids rank acc : M W _).
Proof.
  induction ids as [|chunk_id ids IH]; intros rank [ranked used];
    cbn [RankAgent.place_ranked].
  - preserving.
  - preserving.
Qed.

Lemma place_unranked_within used chunks : forall i ranked,
  preserves (calls_within 0)
    (RankAgent.place_unranked used i chunks ranked : M W _).
Proof.
  induction chunks as [|original chunks IH]; intros i ranked;
    cbn [RankAgent.place_unranked].
  - preserving.
  - preserving.
Qed.

Lemma apply_verdict_within chunks text :
  preserves (calls_within 0) (RankAgent.apply_verdict lib chunks text : M W _).
Proof.
  unfold RankAgent.apply_verdict.
  pose proof place_ranked_within. pose proof place_unranked_within.
  preserving.
Qed.

Lemma rank_within self query context chunks :
  preserves (calls_within 1)
    (RankAgent.rank lib ext self query context chunks : M W _).
Proof.
  pose proof assign_sequential_ranks_within as Hseq.
  unfold RankAgent.rank.
  destruct (negb (BaseAgent.enabled self)).
  { apply (within_mono 0); [lia|]. preserving. }
  destruct (bool_decide (chunks = [])).
  { apply (within_mono 0); [lia|]. preserving. }
  destruct chunks as [|c1 [|c2 chunks]].
  - apply (within_try_except 1 0); [|intros e; preserving].
    unfold RankAgent.rank_with_model.
    apply (within_bind 0 1); [apply summarize_within|]. intros summary.
    apply (within_bind 1 0); [apply generate_content_within|].
    intros response_text. pose proof apply_verdict_within. preserving.
  - apply (within_mono 0); [lia|]. preserving.
  - apply (within_try_except 1 0); [|intros e; preserving].
    unfold RankAgent.rank_with_model.
    apply (within_bind 0 1); [apply summarize_within|]. intros summary.
    apply (within_bind 1 0); [apply generate_content_within|].
    intros response_text. pose proof apply_verdict_within. preserving.
Qed.

Lemma format_within self chunks style include_context :
  preserves (calls_within 1)
    (FormatAgent.format lib ext self chunks style include_context : M W _).
Proof.
  unfold FormatAgent.format.
  destruct (bool_decide (chunks = [])).
  { apply (within_mono 0); [lia|]. preserving. }
  destruct (negb (BaseAgent.enabled self)).
  { apply (within_mono 0); [lia|]. preserving. }
  apply (within_try_except 1 0); [|intros e; preserving].
  unfold FormatAgent.format_with_model.
  apply (within_bind 0 1); [preserving|]. intros data.
  apply (within_bind 1 0); [apply generate_content_within|].
  intros response_text. preserving.
Qed.

End StageBudgets.

(** X5. The prompts a stage sends to the generative model, whatever its
    outcome: [filter] at most one per chunk, [rank] at most one, [format] at
    most one; the prompts sent before are still in the log, in their order. *)
Theorem stage_call_budgets {W} (lib : PyLib) (ext : External W)
    (self : BaseAgent.t) (query : string) (context : option string)
    (s : state W) :
  (forall chunks threshold,
      calls_within (length chunks) s
        (snd (FilterAgent.filter lib ext self query context chunks threshold s)))
  /\ (forall chunks,
      calls_within 1 s
        (snd (RankAgent.rank lib ext self query context chunks s)))
  /\ (forall chunks style include_context,
      calls_within 1 s
        (snd (FormatAgent.format lib ext self chunks style include_context s))).
Proof.
  split; [|split].
  - intros chunks threshold. apply filter_within.
  - intros chunks. apply rank_within.
  - intros chunks style include_context. apply format_within.
Qed.

Section PipelineBudget.
Context {W : Type} (lib : PyLib) (pyd : Pydantic) (ext : External W).

Lemma within_bind_post {A B} (Q : A -> Prop) (n k : nat) (m : M W A)
    (f : A -> M W B) :
  (forall s a s', m s = (Ok a, s') -> Q a) ->
  preserves (calls_within n) m ->
  (forall a, Q a -> preserves (calls_within k) (f a)) ->
  preserves (calls_within (n + k)) (m ≫= f).
Proof.
  intros Hq Hm Hf s. rewrite run_bind. specialize (Hm s). specialize (Hq s).
  destruct (m s) as [[a|e] s1]; cbn [snd] in *.
  - eapply calls_within_trans; [exact Hm|]. apply Hf. eapply Hq. reflexivity.
  - eapply calls_within_mono; [|exact Hm]. lia.
Qed.

Lemma build_chunks_data_length (raw_results : list value) :
  forall (s s' : state W) chunks_data,
    Routes.build_chunks_data raw_results s = (Ok chunks_data, s') ->
    length chunks_data = length raw_results.
Proof.
  induction raw_results as [|raw raws IH]; intros s s' chunks_data H;
    cbn [Routes.build_chunks_data] in H.
  - injection H as <- _. reflexivity.
  - inv_bind H as d s1 Hd. inv_bind H as l s2 Hl. inv_bind H as ls s3 Hls.
    injection H as <- _. cbn. f_equal. eapply IH. exact Hls.
Qed.

Lemma build_chunks_data_within (raw_results : list value) :
  preserves (calls_within 0) (Routes.build_chunks_data raw_results : M W _).
Proof.
  induction raw_results as [|raw raws IH]; cbn [Routes.build_chunks_data];
    preserving.
Qed.

Lemma to_chunks_within (ranked_data : list loc) :
  preserves (calls_within 0) (Routes.to_chunks pyd ranked_data : M W _).
Proof.
  induction ranked_data as [|l ls IH]; cbn [Routes.to_chunks]; preserving.
Qed.

Lemma processing_time_within :
  preserves (calls_within 0) (Routes.processing_time ext : M W Z).
Proof. intros s. exists []. cbn. rewrite app_nil_r. auto. Qed.

End PipelineBudget.

(** X6. One request sends at most [n + 2] prompts to the generative model,
    [n] being the number of results the search returned: one per result for
    the filter, one for the ranking, one for the formatting. A request whose
    search raises sends none. *)
Theorem request_call_budget {W} (lib : PyLib) (pyd : Pydantic)
    (ext : External W) (request : Models.SearchRequest)
    (filter_agent rank_agent format_agent : BaseAgent.t) (s : state W) :
  let search_limit :=
    if Models.filter request then Models.max_results request * 2
    else Models.max_results request in
  calls_within
    match fst (Routes.search ext (Models.query request) search_limit s) with
    | Ok raw_results => length raw_results + 2
    | Raise _ => 0
    end
    s
    (snd (Routes.search_citations lib pyd ext request filter_agent rank_agent
            format_agent s)).
Proof.
  intros search_limit.
  pose proof (search_keeps_calls ext (Models.query request) search_limit s)
    as [Hcalls _].
  unfold Routes.search_citations, Routes.search_pipeline.
  rewrite run_try_except, run_bind. fold search_limit.
  destruct (Routes.search ext (Models.query request) search_limit s)
    as [[raw|e] s1]; cbn [fst snd] in *.
  2: { rewrite run_raise. exists []. cbn. rewrite app_nil_r. auto. }
  match goal with
  | |- calls_within _ _ (snd (match ?m s1 with _ => _ end)) =>
      assert (Hm : preserves (calls_within (length raw + 2)) m);
      [|specialize (Hm s1); destruct (m s1) as [[a|e] s2]; cbn [snd] in *;
        rewrite ?run_raise; cbn [snd];
        destruct Hm as (more & Hmore & Hlen); exists more;
        rewrite <- Hcalls; auto]
  end.
  pose proof (processing_time_within ext) as Htime.
  destruct (bool_decide (length raw = 0%nat)).
  { apply (within_mono 0); [lia|]. preserving. }
  apply (within_mono (0 + (length raw + (1 + (0 + (1 + 0)))))); [lia|].
  apply (within_bind_post (fun cd => length cd = length raw)).
  { intros s2 cd s3 H. eapply build_chunks_data_length. exact H. }
  { apply build_chunks_data_within. }
  intros chunks_data Hlen. apply within_bind.
  { rewrite <- Hlen. destruct (_ && _).
    - apply filter_within.
    - apply (within_mono 0); [lia|]. preserving. }
  intros filtered.
  destruct (bool_decide (length (Py.list_slice_to filtered _) = 0%nat)).
  { apply (within_mono 0); [lia|]. preserving. }
  apply within_bind.
  { destruct (BaseAgent.enabled rank_agent).
    - apply rank_within.
    - apply (within_mono 0); [lia|].
      pose proof (@assign_sequential_ranks_within W). preserving. }
  intros ranked. apply within_bind; [apply to_chunks_within|].
  intros chunks. apply within_bind.
  { destruct (BaseAgent.enabled format_agent).
    - apply format_within.
    - apply (within_mono 0); [lia|]. preserving. }
  intros output. preserving.
Qed.


(** *** Rank stage, a well-formed verdict *)

Section RankVerdict.
Context {W : Type} (lib : PyLib) (ext : External W).

(** One more chunk copied, marked and appended. *)
Lemma ranked_as_snoc (s0 s : state W) (chunks : list loc)
    (plan : list (Z * value)) (ranked : list loc) (j : Z) (l : loc)
    (why : value) :
  Forall (fun l => l ∈ dom (heap s0)) chunks ->
  heap_frame (heap s0) (heap s) ->
  ranked_as s0 s chunks plan ranked ->
  NoDup ranked ->
  chunks !! Z.to_nat j = Some l ->
  let o := fresh (dom (heap s)) in
  let s1 :=
    State (<[o := <["rank_reasoning" := why]>
                     (<["agent_rank" := VInt (Z.of_nat (length ranked) + 1)]>
                        (heap s !!! l))]> (heap s))
          (world s) (calls s) in
  heap_frame (heap s0) (heap s1)
  /\ ranked_as s0 s1 chunks (plan ++ [(j, why)]) (ranked ++ [o])
  /\ NoDup (ranked ++ [o]).
Proof.
  intros Hdom Hframe [Hlen Hranked] Hnd Hl o s1.
  assert (Hfresh : o ∉ dom (heap s)) by apply is_fresh.
  assert (Hold : forall (i : nat) o', ranked !! i = Some o' -> o' ∈ dom (heap s)).
  { intros i o' Ho'. destruct (lookup_lt_is_Some_2 plan i) as [[j' why'] Hp].
    - rewrite <- Hlen. eapply lookup_lt_Some. exact Ho'.
    - destruct (Hranked i j' why' o' Hp Ho') as (_ & l' & _ & Hh).
      apply elem_of_dom. rewrite Hh. eauto. }
  split; [|split].
  - apply heap_frame_alloc. exact Hframe.
  - split; [rewrite !length_app, Hlen; reflexivity|].
    intros i j' why' o' Hp Ho'.
    destruct (decide (i < length plan)%nat) as [Hi|Hi].
    + rewrite lookup_app_l in Hp by exact Hi.
      rewrite lookup_app_l in Ho' by (rewrite Hlen; exact Hi).
      destruct (Hranked i j' why' o' Hp Ho') as (Hnew & l' & Hl' & Hh).
      split; [exact Hnew|]. exists l'. split; [exact Hl'|].
      unfold s1. cbn [heap]. rewrite lookup_insert_ne; [exact Hh|].
      intros <-. apply Hfresh. eapply Hold. exact Ho'.
    + rewrite lookup_app_r in Hp by lia.
      rewrite lookup_app_r in Ho' by lia. rewrite Hlen in Ho'.
      destruct (i - length plan)%nat eqn:Hd; [|destruct n; discriminate].
      injection Hp as <- <-. injection Ho' as <-.
      assert (i = length ranked) as -> by lia.
      split.
      * intros Hin. apply Hfresh. eapply heap_frame_dom; eassumption.
      * exists l. split; [exact Hl|]. unfold s1. cbn [heap].
        rewrite lookup_insert_eq.
        rewrite (heap_frame_total (heap s0) (heap s) l Hframe); [reflexivity|].
        rewrite Forall_forall in Hdom. apply Hdom.
        eapply list_elem_of_lookup_2. exact Hl.
  - apply NoDup_app. split; [exact Hnd|]. split; [|apply NoDup_singleton].
    intros o' Hin Ho. apply list_elem_of_singleton in Ho. subst o'.
    apply list_elem_of_lookup_1 in Hin. destruct Hin as [i Hi].
    apply Hfresh. eapply Hold. exact Hi.
Qed.

(** The first loop of [rank], on ids that are positions of the list, each
    named once. *)
Lemma place_ranked_wellformed (reasoning : value) (chunks : list loc)
    (s0 : state W) :
  Forall (fun l => l ∈ dom (heap s0)) chunks ->
  forall (ids : list Z) (plan : list (Z * value)) (ranked : list loc)
         (used : gset Z) (s : state W),
    Forall (fun j => 0 <= j < Z.of_nat (length chunks)) ids ->
    NoDup ids ->
    (forall j, j ∈ ids -> j ∉ used) ->
    heap_frame (heap s0) (heap s) ->
    ranked_as s0 s chunks plan ranked ->
    NoDup ranked ->
    exists ranked' used' s',
      RankAgent.place_ranked reasoning chunks (List.map VInt ids)
        (Z.of_nat (length ranked)) (ranked, used) s
      = (Ok (ranked', used'), s')
      /\ (forall j, j ∈ used' <-> j ∈ ids \/ j ∈ used)
      /\ world s' = world s /\ calls s' = calls s
      /\ heap_frame (heap s0) (heap s')
      /\ ranked_as s0 s' chunks
           (plan ++ List.map (fun j => (j, reasoning)) ids) ranked'
      /\ NoDup ranked'.
Proof.
  intros Hdom. induction ids as [|j ids IH];
    intros plan ranked used s Hrange Hnd Hunused Hframe Hranked Hndr.
  - exists ranked, used, s. cbn. rewrite app_nil_r.
    split; [reflexivity|]. split.
    { intros j. rewrite elem_of_nil. tauto. }
    auto 10.
  - apply Forall_cons in Hrange as [Hj Hrange].
    apply NoDup_cons in Hnd as [Hjids Hnd].
    cbn [List.map RankAgent.place_ranked]. run. cbn [Py.lt_int]. run.
    replace (j <? Z.of_nat (length chunks)) with true
      by (symmetry; apply Z.ltb_lt; lia).
    run. cbn [Py.in_set]. run.
    rewrite bool_decide_false by (apply Hunused; left).
    cbn [negb]. run.
    destruct (lookup_lt_is_Some_2 chunks (Z.to_nat j)) as [l Hl]; [lia|].
    assert (Hget : Py.list_getitem chunks (VInt j) = Ok l).
    { unfold Py.list_getitem. cbn [Py.as_index].
      replace (j <? 0) with false by (symmetry; apply Z.ltb_ge; lia).
      replace (0 <=? j) with true by (symmetry; apply Z.leb_le; lia).
      replace (j <? Z.of_nat (length chunks)) with true
        by (symmetry; apply Z.ltb_lt; lia).
      cbn [andb]. rewrite Hl. reflexivity. }
    rewrite Hget. rewrite run_copy_mark. cbn [Py.as_index].
    destruct (ranked_as_snoc s0 s chunks plan ranked j l reasoning
                Hdom Hframe Hranked Hndr Hl) as (Hframe1 & Hranked1 & Hndr1).
    assert (Hunused1 : forall j', j' ∈ ids -> j' ∉ ({[ j ]} ∪ used : gset Z)).
    { intros j' Hj' Hin. apply elem_of_union in Hin. destruct Hin as [Hin|Hin].
      - apply elem_of_singleton in Hin. subst j'. contradiction.
      - apply (Hunused j'); [right; exact Hj'|exact Hin]. }
    destruct (IH (plan ++ [(j, reasoning)])%list _ ({[ j ]} ∪ used) _
                 Hrange Hnd Hunused1 Hframe1 Hranked1 Hndr1)
      as (ranked' & used' & s' & Hrun & Hused & Hw & Hc & Hf & Hr & Hn).
    exists ranked', used', s'.
    rewrite length_app in Hrun. cbn [length] in Hrun.
    replace (Z.of_nat (length ranked + 1))
      with (Z.of_nat (length ranked) + 1) in Hrun by lia.
    split; [exact Hrun|]. split.
    { intros j'. rewrite Hused, elem_of_union, elem_of_singleton, elem_of_cons.
      tauto. }
    split; [exact Hw|]. split; [exact Hc|]. split; [exact Hf|].
    split; [|exact Hn]. cbn [List.map].
    rewrite <- app_assoc in Hr. exact Hr.
Qed.

(** The second loop of [rank]. *)
Lemma place_unranked_wellformed (used : gset Z) (chunks : list loc)
    (s0 : state W) :
  Forall (fun l => l ∈ dom (heap s0)) chunks ->
  forall (rest pre : list loc) (plan : list (Z * value)) (ranked : list loc)
         (s : state W),
    chunks = (pre ++ rest)%list ->
    heap_frame (heap s0) (heap s) ->
    ranked_as s0 s chunks plan ranked ->
    NoDup ranked ->
    exists out s',
      RankAgent.place_unranked used (Z.of_nat (length pre)) rest ranked s
      = (Ok out, s')
      /\ world s' = world s /\ calls s' = calls s
      /\ heap_frame (heap s0) (heap s')
      /\ ranked_as s0 s' chunks
           (plan ++ List.map (fun j => (j, unranked_reason))
                      (filter (fun j => j ∉ used)
                         (seqZ (Z.of_nat (length pre))
                               (Z.of_nat (length rest)))))
           out
      /\ NoDup out.
Proof.
  intros Hdom. induction rest as [|original rest IH];
    intros pre plan ranked s Hchunks Hframe Hranked Hndr.
  - exists ranked, s. cbn. rewrite app_nil_r.
    split; [reflexivity|]. auto 10.
  - cbn [RankAgent.place_unranked].
    assert (Hchunks' : chunks = ((pre ++ [original]) ++ rest)%list)
      by (rewrite <- app_assoc; exact Hchunks).
    assert (Hnext : Z.of_nat (length pre) + 1
                    = Z.of_nat (length (pre ++ [original])))
      by (rewrite length_app; cbn; lia).
    rewrite seqZ_cons by (cbn [length]; lia).
    replace (Z.pred (Z.of_nat (length (original :: rest))))
      with (Z.of_nat (length rest)) by (cbn [length]; lia).
    replace (Z.succ (Z.of_nat (length pre)))
      with (Z.of_nat (length (pre ++ [original]))) by lia.
    rewrite filter_cons.
    destruct (decide (Z.of_nat (length pre) ∉ used)) as [Hfree|Hused].
    + rewrite bool_decide_false by exact Hfree.
      rewrite run_copy_mark.
      assert (Hl : chunks !! Z.to_nat (Z.of_nat (length pre)) = Some original).
      { rewrite Nat2Z.id, Hchunks. apply list_lookup_middle. reflexivity. }
      destruct (ranked_as_snoc s0 s chunks plan ranked (Z.of_nat (length pre))
                  original unranked_reason Hdom Hframe Hranked Hndr Hl)
        as (Hframe1 & Hranked1 & Hndr1).
      rewrite Hnext.
      match type of Hframe1 with
      | heap_frame _ (heap ?s1) =>
          destruct (IH (pre ++ [original])%list _ _ s1 Hchunks' Hframe1
                       Hranked1 Hndr1)
            as (out & s' & Hrun & Hw & Hc & Hf & Hr & Hn)
      end.
      exists out, s'. split; [exact Hrun|]. split; [exact Hw|].
      split; [exact Hc|]. split; [exact Hf|]. split; [|exact Hn].
      cbn [List.map]. rewrite <- app_assoc in Hr. exact Hr.
    + rewrite bool_decide_true by (destruct (decide (Z.of_nat (length pre) ∈ used)); tauto).
      rewrite Hnext.
      destruct (IH (pre ++ [original])%list plan ranked s Hchunks' Hframe
                   Hranked Hndr)
        as (out & s' & Hrun & Hw & Hc & Hf & Hr & Hn).
      exists out, s'. auto 10.
Qed.

(** The plan of a well-formed verdict names every position once. *)
Lemma rank_plan_permutation (reasoning : value) (n : nat) (ids : list Z) :
  NoDup ids ->
  Forall (fun j => 0 <= j < Z.of_nat n) ids ->
  (rank_plan reasoning n ids).*1 ≡ₚ seqZ 0 (Z.of_nat n).
Proof.
  intros Hnd Hrange. unfold rank_plan.
  rewrite fmap_app, <- !list_fmap_compose.
  assert (Hid : forall (why : value) (l : list Z),
            (fst ∘ (fun j : Z => (j, why))) <$> l = l).
  { intros why l. induction l as [|x l IHl]; cbn; [reflexivity|].
    f_equal. exact IHl. }
  rewrite !Hid.
  apply NoDup_Permutation.
  - apply NoDup_app. split; [exact Hnd|]. split.
    + intros j Hj Hin. apply list_elem_of_filter in Hin. tauto.
    + apply NoDup_filter, NoDup_seqZ.
  - apply NoDup_seqZ.
  - intros j. rewrite elem_of_app, list_elem_of_filter, elem_of_seqZ. split.
    + intros [Hj|[_ Hj]]; [|exact Hj].
      rewrite Forall_forall in Hrange. specialize (Hrange j Hj). lia.
    + intros Hj. destruct (decide (j ∈ ids)); [left; assumption|right; auto].
Qed.

End RankVerdict.

(** X7. A ranking verdict that names positions of the list, each at most
    once, is followed: [rank] returns one new dict per input chunk, the
    chunks the verdict names first, in its order and with its reasoning, then
    the chunks it left out, in their order; the chunk at position [i] of the
    result has [agent_rank = i + 1] (no gap, no repeat), every input chunk is
    copied exactly once, and the caller's dicts are as they were. *)
Theorem rank_follows_verdict {W} (lib : PyLib) (ext : External W)
    (self : BaseAgent.t) (query : string) (context : option string)
    (chunks : list loc) (s : state W) (summary : list value) (text : string)
    (verdict : dict) (ids : list Z) :
  BaseAgent.enabled self = true ->
  (2 <= length chunks)%nat ->
  Forall (fun l => l ∈ dom (heap s)) chunks ->
  fst (RankAgent.summarize lib 0 chunks s) = Ok summary ->
  sdk_outcome ext self (RankAgent.prompt lib query context (VList summary))
    0.2 500 s = Responded text ->
  text <> "" ->
  json_loads lib (Py.strip_code_fence lib text) = Ok (VDict verdict) ->
  Py.get verdict "ranked_ids" (VList []) = VList (List.map VInt ids) ->
  NoDup ids ->
  Forall (fun j => 0 <= j < Z.of_nat (length chunks)) ids ->
  exists out s',
    RankAgent.rank lib ext self query context chunks s = (Ok out, s')
    /\ ranked_as s s' chunks
         (rank_plan (Py.get verdict "reasoning" (VStr "")) (length chunks) ids)
         out
    /\ (rank_plan (Py.get verdict "reasoning" (VStr "")) (length chunks) ids).*1
       ≡ₚ seqZ 0 (Z.of_nat (length chunks))
    /\ length out = length chunks
    /\ NoDup out
    /\ heap_frame (heap s) (heap s').
Proof.
  intros Hon Hlen Hdom Hsummary Hsdk Htext Hjson Hids Hnd Hrange.
  pose proof (rank_plan_permutation (Py.get verdict "reasoning" (VStr ""))
                (length chunks) ids Hnd Hrange) as Hperm.
  unfold RankAgent.rank. rewrite Hon. cbn [negb].
  destruct chunks as [|c1 [|c2 chunks]]; [cbn in Hlen; lia..|].
  set (cs := c1 :: c2 :: chunks) in *.
  rewrite bool_decide_false by discriminate.
  rewrite run_try_except. unfold RankAgent.rank_with_model. rewrite run_bind.
  destruct (RankAgent.summarize lib 0 cs s) as [r s0] eqn:Hsum.
  pose proof (summarize_state lib cs 0 s s0 r Hsum) as ->.
  cbn [fst] in Hsummary. subst r.
  rewrite run_bind, generate_content_enabled by exact Hon. rewrite Hsdk.
  assert (Htruthy : Py.truthy_text (Some text) = true).
  { cbn. apply negb_true_iff, String.eqb_neq. exact Htext. }
  rewrite Htruthy. cbn [negb default from_option id].
  set (s1 := State (heap s) _ _).
  unfold RankAgent.apply_verdict. rewrite run_bind, run_lift, Hjson.
  cbn [Py.attr_get]. rewrite run_bind, run_lift, Hids.
  rewrite run_bind, run_lift. cbn [Py.iterate]. rewrite run_bind, run_lift.
  rewrite run_bind.
  set (reasoning := Py.get verdict "reasoning" (VStr "")) in *.
  assert (Hempty : ranked_as s1 s1 cs [] []).
  { split; [reflexivity|]. intros i j why o Hp. discriminate. }
  destruct (place_ranked_wellformed reasoning cs s1 Hdom ids [] [] ∅ s1
              Hrange Hnd (fun j _ => not_elem_of_empty j)
              (heap_frame_refl _) Hempty (NoDup_nil_2))
    as (ranked & used & s2 & Hrun & Hused & _ & _ & Hframe2 & Hranked2 & Hnd2).
  cbn [length] in Hrun. change (Z.of_nat 0) with 0 in Hrun. rewrite Hrun.
  destruct (place_unranked_wellformed used cs s1 Hdom cs [] _ ranked s2
              eq_refl Hframe2 Hranked2 Hnd2)
    as (out & s3 & Hrun3 & _ & _ & Hframe3 & Hranked3 & Hnd3).
  cbn [length] in Hrun3. change (Z.of_nat 0) with 0 in Hrun3. rewrite Hrun3.
  exists out, s3. split; [reflexivity|].
  assert (Hfilter : filter (fun j => j ∉ used) (seqZ 0 (Z.of_nat (length cs)))
                    = filter (fun j => j ∉ ids) (seqZ 0 (Z.of_nat (length cs)))).
  { apply list_filter_iff. intros j. rewrite Hused, elem_of_empty. tauto. }
  cbn [app length] in Hranked3. change (Z.of_nat 0) with 0 in Hranked3.
  rewrite Hfilter in Hranked3.
  assert (Hplan : ranked_as s s3 cs (rank_plan reasoning (length cs) ids) out)
    by exact Hranked3.
  split; [exact Hplan|]. split; [exact Hperm|]. split.
  - destruct Hplan as [Hl _]. rewrite Hl.
    rewrite <- (length_fmap fst), Hperm, length_seqZ. lia.
  - split; [exact Hnd3|exact Hframe3].
Qed.

Lemma rank_follows_verdict_witness :
  rank_plan (VStr "by relevance") 3 [2; 0]
  = [(2, VStr "by relevance"); (0, VStr "by relevance"); (1, unranked_reason)]
  /\ exists out s',
       RankAgent.rank (Script.lib (Script.ranking "[2, 0]" [2; 0])) Script.ext
         Script.agent_on "query" None [1; 2; 3]%positive
         (Script.start Script.three_chunks
            [Responded (Script.ranking_text "[2, 0]")] (Ok []))
       = (Ok out, s')
       /\ ranked_as
            (Script.start Script.three_chunks
               [Responded (Script.ranking_text "[2, 0]")] (Ok []))
            s' [1; 2; 3]%positive
            (rank_plan (VStr "by relevance") 3 [2; 0]) out
       /\ length out = 3%nat.
Proof.
  split; [vm_compute; reflexivity|].
  edestruct (rank_follows_verdict (Script.lib (Script.ranking "[2, 0]" [2; 0]))
               Script.ext Script.agent_on "query" None [1; 2; 3]%positive
               (Script.start Script.three_chunks
                  [Responded (Script.ranking_text "[2, 0]")] (Ok []))
               match
                 fst (RankAgent.summarize
                        (Script.lib (Script.ranking "[2, 0]" [2; 0])) 0 [1; 2; 3]%positive
                        (Script.start Script.three_chunks [] (Ok [])))
               with
               | Ok summary => summary
               | Raise _ => []
               end
               (Script.ranking_text "[2, 0]")
               (<["ranked_ids" := VList [VInt 2; VInt 0]]>
                  (<["reasoning" := VStr "by relevance"]> ∅))
               [2; 0])
    as (out & s' & Hrun & Hranked & _ & Hlen & _).
  - reflexivity.
  - cbn. lia.
  - repeat constructor; apply elem_of_dom; vm_compute; eauto.
  - vm_compute. reflexivity.
  - vm_compute. reflexivity.
  - discriminate.
  - vm_compute. reflexivity.
  - reflexivity.
  - repeat (apply NoDup_cons; split;
            [rewrite ?elem_of_cons, elem_of_nil; intuition discriminate|]).
    apply NoDup_nil_2.
  - repeat constructor; cbn; lia.
  - exists out, s'. split; [exact Hrun|]. split; [exact Hranked|exact Hlen].
Defined.


(** *** Format stage *)

Section FormatProperties.
Context {W : Type} (lib : PyLib) (ext : External W).

Lemma for_format_metadata (c : Models.Chunk) :
  exists md, Py.get (Routes.for_format c) "metadata" (VDict ∅) = VDict md.
Proof.
  unfold Routes.for_format, Py.get.
  do 2 (rewrite lookup_insert_ne by discriminate). rewrite lookup_insert_eq.
  eauto.
Qed.

Lemma for_format_relevance (c : Models.Chunk) :
  Py.get (Routes.for_format c) "relevance_score" (VFloat 0)
  = VFloat (Models.relevance_score c).
Proof.
  unfold Routes.for_format, Py.get.
  do 3 (rewrite lookup_insert_ne by discriminate). rewrite lookup_insert_eq.
  reflexivity.
Qed.

Lemma basic_block_for_format (include_context : bool) (c : Models.Chunk) :
  in_unit_interval (Models.relevance_score c) ->
  exists lines,
    FormatAgent.basic_block lib include_context (Routes.for_format c) = Ok lines.
Proof.
  intros Hr. unfold FormatAgent.basic_block.
  destruct (for_format_metadata c) as [md ->]. rewrite for_format_relevance.
  cbn [Py.attr_get mbind result_bind]. rewrite stars_of_float.
  destruct (int_of_product_by_5 _ Hr) as (k & -> & _ & _).
  cbn [mbind result_bind Py.format_f]. eauto.
Qed.

Lemma basic_lines_for_format (include_context : bool)
    (chunks : list Models.Chunk) :
  Forall (fun c => in_unit_interval (Models.relevance_score c)) chunks ->
  exists lines,
    FormatAgent.basic_lines lib include_context
      (List.map Routes.for_format chunks) = Ok lines.
Proof.
  induction 1 as [|c chunks Hc _ [lines IH]]; cbn [List.map FormatAgent.basic_lines].
  - eauto.
  - destruct (basic_block_for_format include_context c Hc) as [block ->].
    cbn [mbind result_bind]. rewrite IH. cbn [mbind result_bind]. eauto.
Qed.

Lemma format_basic_for_format (style : string) (include_context : bool)
    (chunks : list Models.Chunk) :
  Forall (fun c => in_unit_interval (Models.relevance_score c)) chunks ->
  exists out,
    FormatAgent._format_basic lib (List.map Routes.for_format chunks) style
      include_context = Ok out.
Proof.
  intros H. unfold FormatAgent._format_basic.
  destruct (basic_lines_for_format include_context chunks H) as [lines ->].
  cbn [mbind result_bind]. eauto.
Qed.

(** The outcomes of [format] on a non-empty list. *)
Lemma format_cases (self : BaseAgent.t) (chunks : list dict) (style : string)
    (include_context : bool) (s : state W) :
  chunks <> [] ->
  format_outcome lib ext self chunks style include_context s
    (fst (FormatAgent.format lib ext self chunks style include_context s)).
Proof.
  intros Hne. unfold FormatAgent.format, format_outcome.
  rewrite bool_decide_false by exact Hne.
  destruct (BaseAgent.enabled self) eqn:Hon; cbn [negb]; [|left; reflexivity].
  rewrite run_try_except. unfold FormatAgent.format_with_model.
  rewrite run_bind, run_lift.
  destruct (FormatAgent.collect_data chunks) as [data|e] eqn:Hdata.
  2: { left. reflexivity. }
  rewrite run_bind, generate_content_enabled by exact Hon.
  destruct (sdk_outcome ext self _ 0.3 2000 s) as [text|e] eqn:Hsdk.
  - destruct (String.eqb text "") eqn:Htext.
    + cbn [Py.truthy_text negb]. rewrite Htext. cbn [negb]. rewrite run_lift.
      destruct (FormatAgent._format_basic lib chunks style include_context);
        left; reflexivity.
    + cbn [Py.truthy_text negb]. rewrite Htext. cbn [negb]. rewrite run_ret.
      right. exists data, text. cbn [fst default from_option id].
      apply String.eqb_neq in Htext. auto 10.
  - cbn [Py.truthy_text negb]. rewrite run_lift.
    destruct (FormatAgent._format_basic lib chunks style include_context);
      left; reflexivity.
Qed.

End FormatProperties.

(** X8. [format] cannot fail on the chunks of a response: for [Chunk]
    objects whose relevance score is in [0, 1] (what the model's validation
    lets through) the stage returns a text, whatever the model does. *)
Theorem format_total_on_valid_chunks {W} (lib : PyLib) (ext : External W)
    (self : BaseAgent.t) (chunks : list Models.Chunk) (style : string)
    (include_context : bool) (s : state W) :
  Forall (fun c => in_unit_interval (Models.relevance_score c)) chunks ->
  exists out,
    fst (FormatAgent.format lib ext self (List.map Routes.for_format chunks)
           style include_context s) = Ok out.
Proof.
  intros Hvalid. destruct chunks as [|c chunks].
  - unfold FormatAgent.format. cbn [List.map].
    rewrite bool_decide_true by reflexivity. rewrite run_ret. eauto.
  - destruct (format_basic_for_format lib style include_context _ Hvalid)
      as [basic Hbasic].
    pose proof (format_cases lib ext self
                  (List.map Routes.for_format (c :: chunks)) style
                  include_context s) as Hcases.
    destruct Hcases as [-> | (data & text & _ & _ & _ & _ & ->)];
      [discriminate| |]; eauto.
Qed.

Lemma format_total_on_valid_chunks_witness :
  exists out,
    fst (FormatAgent.format (Script.lib Script.no_json) Script.ext
           Script.agent_on
           (List.map Routes.for_format
              [ {| Models.id := "c1"; Models.text := "a chunk";
                   Models.source :=
                     {| Models.title := "A title";
                        Models.authors := ["Author, A."];
                        Models.year := 2024;
                        Models.citation := "Author, A. (2024).";
                        Models.item_key := None |};
                   Models.relevance_score := 0.8;
                   Models.agent_filtered := false;
                   Models.agent_rank := Some 1 |} ])
           "APA" true
           (Script.start ∅ [CallFailed (ExternalError "timeout")] (Ok [])))
    = Ok out.
Proof.
  apply (format_total_on_valid_chunks (Script.lib Script.no_json) Script.ext
           Script.agent_on).
  repeat constructor.
Defined.

(** X9. On a non-empty list [format] returns either the basic rendering,
    the very one a disabled agent gives, or a non-empty text of the model
    put inside the wrapper; an exception on the model path (in building the
    prompt, in the call) leads to the basic rendering and to nothing else. *)
Theorem format_outcomes {W} (lib : PyLib) (ext : External W)
    (self : BaseAgent.t) (model_name : string) (chunks : list dict)
    (style : string) (include_context : bool) (s : state W) :
  chunks <> [] ->
  format_outcome lib ext self chunks style include_context s
    (fst (FormatAgent.format lib ext self chunks style include_context s))
  /\ fst (FormatAgent.format lib ext (BaseAgent.Build model_name false) chunks
            style include_context s)
     = FormatAgent._format_basic lib chunks style include_context.
Proof.
  intros Hne. split; [apply format_cases; exact Hne|].
  unfold FormatAgent.format. rewrite bool_decide_false by exact Hne.
  reflexivity.
Qed.

Lemma format_outcomes_witness :
  fst (FormatAgent.format (Script.lib Script.no_json) Script.ext
         Script.agent_on [ {[ "text" := VStr "a chunk" ]} ] "APA" true
         (Script.start ∅ [Responded "1. A citation"] (Ok [])))
  = Ok (FormatAgent._add_wrapper (Script.lib Script.no_json) "1. A citation" 1)
  /\ format_outcome (Script.lib Script.no_json) Script.ext Script.agent_on
       [ {[ "text" := VStr "a chunk" ]} ] "APA" true
       (Script.start ∅ [Responded "1. A citation"] (Ok []))
       (fst (FormatAgent.format (Script.lib Script.no_json) Script.ext
               Script.agent_on [ {[ "text" := VStr "a chunk" ]} ] "APA" true
               (Script.start ∅ [Responded "1. A citation"] (Ok []))))
  /\ fst (FormatAgent.format (Script.lib Script.no_json) Script.ext
            (BaseAgent.Build "gemini" false)
            [ {[ "text" := VStr "a chunk" ]} ] "APA" true
            (Script.start ∅ [Responded "1. A citation"] (Ok [])))
     = FormatAgent._format_basic (Script.lib Script.no_json)
         [ {[ "text" := VStr "a chunk" ]} ] "APA" true.
Proof.
  split; [vm_compute; reflexivity|].
  apply (format_outcomes (Script.lib Script.no_json) Script.ext
           Script.agent_on "gemini" [ {[ "text" := VStr "a chunk" ]} ]
           "APA" true (Script.start ∅ [Responded "1. A citation"] (Ok []))).
  discriminate.
Defined.


(** *** Code fences *)

Lemma split_lines_aux_nonempty (s cur : string) : Py.split_lines_aux cur s <> [].
Proof.
  revert cur. induction s as [|c s IH]; intros cur; cbn [Py.split_lines_aux].
  - discriminate.
  - destruct (Ascii.eqb c _); [discriminate|apply IH].
Qed.

Lemma concat_cons_nonempty (sep x : string) (ls : list string) :
  ls <> [] -> String.concat sep (x :: ls) = x +:+ sep +:+ String.concat sep ls.
Proof. destruct ls; [congruence|reflexivity]. Qed.

(** ['\n'.join(s.split('\n'))] is [s]. *)
Lemma join_split_lines_aux (s cur : string) :
  String.concat Py.nl (Py.split_lines_aux cur s) = cur +:+ s.
Proof.
  revert cur. induction s as [|c s IH]; intros cur; cbn [Py.split_lines_aux].
  - cbn. rewrite string_app_nil_r. reflexivity.
  - destruct (Ascii.eqb c (ascii_of_nat 10)) eqn:Hc.
    + apply Ascii.eqb_eq in Hc. subst c.
      rewrite concat_cons_nonempty by apply split_lines_aux_nonempty.
      rewrite IH. reflexivity.
    + rewrite IH, string_app_assoc. reflexivity.
Qed.

Lemma split_lines_aux_one_line (x t cur : string) :
  one_line x = true ->
  Py.split_lines_aux cur (x +:+ t) = Py.split_lines_aux (cur +:+ x) t.
Proof.
  revert cur. induction x as [|c x IH]; intros cur Hx.
  - cbn. rewrite string_app_nil_r. reflexivity.
  - cbn in Hx. apply andb_prop in Hx as [Hc Hx].
    apply negb_true_iff in Hc. rewrite string_app_cons.
    cbn [Py.split_lines_aux]. rewrite Hc, (IH _ Hx), string_app_assoc.
    reflexivity.
Qed.

(** [('\n'.join(ls)).split('\n')] is [ls], for lines without a line
    break. *)
Lemma split_join_lines (ls : list string) :
  ls <> [] -> Forall (fun l => one_line l = true) ls ->
  forall cur, Py.split_lines_aux cur (String.concat Py.nl ls)
              = match ls with
                | [] => []
                | x :: ls' => (cur +:+ x) :: ls'
                end.
Proof.
  induction ls as [|x ls IH]; intros Hne Hall cur; [congruence|].
  apply Forall_cons in Hall as [Hx Hall].
  destruct ls as [|y ls].
  - cbn [String.concat]. rewrite <- (string_app_nil_r x) at 1.
    rewrite split_lines_aux_one_line by exact Hx. reflexivity.
  - rewrite concat_cons_nonempty by discriminate.
    rewrite split_lines_aux_one_line by exact Hx.
    change (Py.nl +:+ String.concat Py.nl (y :: ls))
      with (String (ascii_of_nat 10) (String.concat Py.nl (y :: ls))).
    cbn [Py.split_lines_aux]. rewrite Ascii.eqb_refl.
    rewrite (IH ltac:(discriminate) Hall ""). reflexivity.
Qed.

Lemma split_lines_aux_lines (s cur : string) :
  one_line cur = true ->
  Forall (fun l => one_line l = true) (Py.split_lines_aux cur s).
Proof.
  revert cur. induction s as [|c s IH]; intros cur Hcur; cbn [Py.split_lines_aux].
  - constructor; [exact Hcur|constructor].
  - destruct (Ascii.eqb c (ascii_of_nat 10)) eqn:Hc.
    + constructor; [exact Hcur|]. apply IH. reflexivity.
    + apply IH. clear IH. induction cur as [|x cur IHc].
      * rewrite string_app_nil_l. cbn [one_line]. rewrite Hc. reflexivity.
      * cbn [one_line] in Hcur. apply andb_prop in Hcur as [Hx Hcur].
        rewrite string_app_cons. cbn [one_line]. rewrite Hx. cbn [andb].
        apply IHc. exact Hcur.
Qed.

Lemma prefix_cons_cons (a b : ascii) (s t : string) :
  String.prefix (String a s) (String b t)
  = if ascii_dec a b then String.prefix s t else false.
Proof. reflexivity. Qed.

Lemma fence_line_break (s t : string) :
  String.prefix (String "`" s) (String (ascii_of_nat 10) t) = false.
Proof.
  rewrite prefix_cons_cons.
  destruct (ascii_dec _ _) as [e|]; [vm_compute in e; discriminate|reflexivity].
Qed.

(** A text that is joined from lines none of which opens with a fence does
    not open with a fence. *)
Lemma join_unfenced (ls : list string) :
  Forall (fun l => unfenced l = true) ls ->
  String.prefix "```" (String.concat Py.nl ls) = false.
Proof.
  destruct ls as [|x ls]; intros Hall; [reflexivity|].
  apply Forall_cons in Hall as [Hx _]. unfold unfenced in Hx.
  apply negb_true_iff in Hx.
  destruct ls as [|y ls]; [exact Hx|].
  rewrite concat_cons_nonempty by discriminate.
  set (t := String.concat Py.nl (y :: ls)). clearbody t.
  unfold Py.nl. rewrite (string_app_cons _ "" t), string_app_nil_l.
  destruct x as [|a [|b [|c x]]];
    rewrite ?string_app_cons, ?string_app_nil_l.
  - apply fence_line_break.
  - rewrite prefix_cons_cons.
    destruct (ascii_dec _ a); [apply fence_line_break|reflexivity].
  - rewrite prefix_cons_cons. destruct (ascii_dec _ a); [|reflexivity].
    rewrite prefix_cons_cons.
    destruct (ascii_dec _ b); [apply fence_line_break|reflexivity].
  - rewrite !prefix_cons_cons in Hx |- *.
    destruct (ascii_dec _ a); [|reflexivity].
    destruct (ascii_dec _ b); [|reflexivity].
    destruct (ascii_dec _ c); [destruct x; discriminate|reflexivity].
Qed.

(** X10. What the model's text looks like when it reaches [json.loads]. It
    never opens with a code fence. A stripped text that does not open with a
    fence is passed as it is. One that does loses exactly its lines that open
    with a fence: the other lines are kept, in their order and unchanged.
    And joining the lines of a text gives the text back. *)
Theorem strip_code_fence_spec (lib : PyLib) (response_text : string) :
  String.prefix "```" (Py.strip_code_fence lib response_text) = false
  /\ (String.prefix "```" (str_strip lib response_text) = false ->
      Py.strip_code_fence lib response_text = str_strip lib response_text)
  /\ (String.prefix "```" (str_strip lib response_text) = true ->
      Py.split_lines (Py.strip_code_fence lib response_text)
      = match List.filter unfenced
                (Py.split_lines (str_strip lib response_text)) with
        | [] => [""]
        | kept => kept
        end)
  /\ String.concat Py.nl (Py.split_lines response_text) = response_text.
Proof.
  assert (Hkept : Forall (fun l => unfenced l = true)
                    (List.filter unfenced
                       (Py.split_lines (str_strip lib response_text)))).
  { apply Forall_forall. intros l Hl. apply list_elem_of_In in Hl.
    apply filter_In in Hl. tauto. }
  assert (Hlines : Forall (fun l => one_line l = true)
                     (List.filter unfenced
                        (Py.split_lines (str_strip lib response_text)))).
  { apply Forall_forall. intros l Hl. apply list_elem_of_In in Hl.
    apply filter_In in Hl. destruct Hl as [Hl _].
    pose proof (split_lines_aux_lines (str_strip lib response_text) ""
                  eq_refl) as Hall.
    rewrite Forall_forall in Hall. apply Hall. apply list_elem_of_In. exact Hl. }
  unfold Py.strip_code_fence. fold unfenced.
  change (fun line => negb (String.prefix "```" line)) with unfenced.
  destruct (String.prefix "```" (str_strip lib response_text)) eqn:Hfence.
  - split; [apply join_unfenced; exact Hkept|].
    split; [discriminate|]. split; [|apply (join_split_lines_aux _ "")].
    intros _. unfold Py.split_lines at 1.
    destruct (List.filter unfenced _) as [|x kept] eqn:Hf; [reflexivity|].
    rewrite split_join_lines by (try discriminate; exact Hlines).
    reflexivity.
  - split; [exact Hfence|]. split; [reflexivity|]. split; [discriminate|].
    apply (join_split_lines_aux _ "").
Qed.

Lemma strip_code_fence_spec_witness :
  Py.strip_code_fence (Script.lib Script.no_json)
    ("```json" +:+ Py.nl +:+ "{}" +:+ Py.nl +:+ "```") = "{}"
  /\ Py.split_lines
       (Py.strip_code_fence (Script.lib Script.no_json)
          ("```json" +:+ Py.nl +:+ "{}" +:+ Py.nl +:+ "```"))
     = match List.filter unfenced
               (Py.split_lines
                  (str_strip (Script.lib Script.no_json)
                     ("```json" +:+ Py.nl +:+ "{}" +:+ Py.nl +:+ "```"))) with
       | [] => [""]
       | kept => kept
       end.
Proof.
  split; [vm_compute; reflexivity|].
  destruct (strip_code_fence_spec (Script.lib Script.no_json)
              ("```json" +:+ Py.nl +:+ "{}" +:+ Py.nl +:+ "```"))
    as (_ & _ & Hfenced & _).
  apply Hfenced. reflexivity.
Defined.


(** *** The request, with no generative model configured *)

Section WithoutAgents.
Context {W : Type} (pyd : Pydantic).

Lemma build_chunks_data_spec (raw_results : list value) :
  forall (s s' : state W) (chunks_data : list loc),
    Routes.build_chunks_data raw_results s = (Ok chunks_data, s') ->
    world s' = world s /\ calls s' = calls s
    /\ heap_frame (heap s) (heap s')
    /\ NoDup chunks_data
    /\ Forall (fun l => l ∉ dom (heap s)) chunks_data
    /\ Forall2 (fun raw l =>
                  exists d, Routes.chunk_data_of raw = Ok d
                            /\ heap s' !! l = Some d)
               raw_results chunks_data.
Proof.
  induction raw_results as [|raw raws IH]; intros s s' chunks_data H;
    cbn [Routes.build_chunks_data] in H.
  - injection H as <- <-. split; [reflexivity|]. split; [reflexivity|].
    split; [apply heap_frame_refl|]. split; [apply NoDup_nil_2|].
    split; constructor.
  - inv_bind H as d s1 Hd. rewrite run_lift in Hd. injection Hd as Hd <-.
    inv_bind H as l s2 Hl. unfold alloc in Hl. injection Hl as <- <-.
    inv_bind H as ls s3 Hls. injection H as <- <-.
    set (l := fresh (dom (heap s))) in *.
    set (s2 := State (<[l := d]> (heap s)) (world s) (calls s)) in *.
    destruct (IH s2 s3 ls Hls) as (Hw & Hc & Hframe & Hnd & Hnew & Hall).
    assert (Hfresh : l ∉ dom (heap s)) by apply is_fresh.
    assert (Hl2 : l ∈ dom (heap s2)).
    { apply elem_of_dom. unfold s2. cbn [heap]. rewrite lookup_insert_eq. eauto. }
    assert (Hsub : forall l', l' ∈ dom (heap s) -> l' ∈ dom (heap s2)).
    { intros l' Hl'. apply elem_of_dom. unfold s2. cbn [heap].
      rewrite lookup_insert_ne by (intros <-; contradiction).
      apply elem_of_dom. exact Hl'. }
    split; [exact Hw|]. split; [exact Hc|]. split; [|split; [|split]].
    + intros l' Hl'. rewrite (Hframe l' (Hsub l' Hl')). unfold s2. cbn [heap].
      apply lookup_insert_ne. intros <-. contradiction.
    + apply NoDup_cons. split; [|exact Hnd]. intros Hin.
      rewrite Forall_forall in Hnew. apply (Hnew l Hin). exact Hl2.
    + constructor; [exact Hfresh|]. eapply Forall_impl; [exact Hnew|].
      cbn. intros l' Hl' Hin. apply Hl'. apply Hsub. exact Hin.
    + constructor; [|exact Hall]. exists d. split; [exact Hd|].
      rewrite (Hframe l Hl2). unfold s2. cbn [heap]. apply lookup_insert_eq.
Qed.

Lemma to_chunks_spec (ranked_data : list loc) :
  forall (s s' : state W) (cs : list Models.Chunk),
    Routes.to_chunks pyd ranked_data s = (Ok cs, s') ->
    s' = s
    /\ Forall2 (fun l c => Routes.to_chunk pyd (heap s !!! l) = Ok c)
               ranked_data cs.
Proof.
  induction ranked_data as [|l ls IH]; intros s s' cs H;
    cbn [Routes.to_chunks] in H.
  - injection H as <- <-. split; [reflexivity|constructor].
  - inv_bind H as d s1 Hd. rewrite run_load in Hd. injection Hd as <- <-.
    inv_bind H as c s2 Hc. rewrite run_lift in Hc. injection Hc as Hc <-.
    inv_bind H as cs' s3 Hcs. injection H as <- <-.
    destruct (IH s s3 cs' Hcs) as [-> Hall].
    split; [reflexivity|]. constructor; assumption.
Qed.

End WithoutAgents.

(** X11. The service with no generative model configured (the three agents
    disabled, which is the default configuration). A request that succeeds
    sends no prompt; its response has as many chunks as the search returned
    results, at most [max_results]; the chunk at position [i] is the dict of
    the i-th search result, given [agent_rank = i + 1] and validated; the
    formatted output is the basic rendering of [routes.py], or the "no
    results" sentence when the search found nothing. *)
Theorem search_without_ai {W} (lib : PyLib) (pyd : Pydantic)
    (ext : External W) (request : Models.SearchRequest)
    (filter_name rank_name format_name : string) (s s' : state W)
    (response : Models.SearchResponse) :
  1 <= Models.max_results request ->
  Routes.search_citations lib pyd ext request
    (BaseAgent.Build filter_name false) (BaseAgent.Build rank_name false)
    (BaseAgent.Build format_name false) s = (Ok response, s') ->
  exists raw_results,
    fst (Routes.search ext (Models.query request) (search_limit request) s)
      = Ok raw_results
    /\ calls s' = calls s
    /\ Models.response_query response = Models.query request
    /\ Models.results_count response
       = Z.of_nat (length (Models.chunks response))
    /\ length (Models.chunks response)
       = Nat.min (length raw_results) (Z.to_nat (Models.max_results request))
    /\ (forall (i : nat) raw c,
          raw_results !! i = Some raw ->
          Models.chunks response !! i = Some c ->
          chunk_at pyd i raw = Ok c)
    /\ Models.formatted_output response
       = if bool_decide (raw_results = []) then Routes.no_results_message
         else Routes._format_basic lib (Models.chunks response)
                (Models.CitationStyle_value (Models.citation_style request)).
Proof.
  intros Hmax. unfold Routes.search_citations. rewrite run_try_except.
  destruct (Routes.search_pipeline _ _ _ _ _ _ _ s) as [[r|e] s1] eqn:Hp;
    [|discriminate].
  intros H. injection H as <- <-. unfold Routes.search_pipeline in Hp.
  fold (search_limit request) in Hp.
  inv_bind Hp as raw s2 Hsearch.
  pose proof (search_keeps_calls ext (Models.query request)
                (search_limit request) s) as [Hcalls _].
  rewrite Hsearch in Hcalls |- *. cbn [fst snd] in *.
  exists raw. split; [reflexivity|].
  destruct raw as [|raw0 raws].
  { rewrite bool_decide_true in Hp by reflexivity.
    inv_bind Hp as t s3 Ht. unfold Routes.processing_time in Ht.
    injection Ht as _ <-. injection Hp as <- <-. cbn.
    split; [exact Hcalls|]. split; [reflexivity|]. split; [reflexivity|].
    split; [reflexivity|]. split; [|reflexivity]. intros i raw c _ Hc.
    discriminate. }
  rewrite bool_decide_false in Hp by discriminate.
  rewrite (bool_decide_false (raw0 :: raws = [])) by discriminate.
  set (raw := raw0 :: raws) in *.
  inv_bind Hp as chunks_data s3 Hbuild.
  destruct (build_chunks_data_spec raw s2 s3 chunks_data Hbuild)
    as (_ & Hc3 & _ & Hnd & _ & Hdata).
  cbn [BaseAgent.enabled] in Hp. rewrite andb_false_r in Hp.
  inv_bind Hp as filtered s4 Hfilter. rewrite run_ret in Hfilter.
  injection Hfilter as <- <-.
  unfold Py.list_slice_to in Hp.
  replace (0 <=? Models.max_results request) with true in Hp
    by (symmetry; apply Z.leb_le; lia).
  set (n := Z.to_nat (Models.max_results request)) in *.
  assert (Hlen : length chunks_data = length raw)
    by (symmetry; eapply Forall2_length; exact Hdata).
  rewrite bool_decide_false in Hp.
  2: { rewrite length_take, Hlen. unfold raw, n. cbn [length]. lia. }
  inv_bind Hp as ranked s5 Hrank.
  destruct (assign_sequential_ranks_in_place (firstn n chunks_data) s3)
    as (s4 & Hassign & _ & Hc4 & _ & Hin).
  rewrite run_bind, Hassign, run_ret in Hrank. injection Hrank as <- <-.
  assert (Hnd' : NoDup (firstn n chunks_data)).
  { apply (sublist_NoDup _ chunks_data); [exact Hnd|apply sublist_take]. }
  specialize (Hin Hnd').
  inv_bind Hp as cs s6 Hcs.
  destruct (to_chunks_spec pyd _ s4 s6 cs Hcs) as [-> Hchunks].
  inv_bind Hp as output s7 Hout. rewrite run_ret in Hout.
  injection Hout as <- <-.
  inv_bind Hp as t s8 Ht. unfold Routes.processing_time in Ht.
  injection Ht as _ <-. injection Hp as <- <-. cbn.
  split; [congruence|]. split; [reflexivity|]. split; [reflexivity|].
  assert (Hcslen : length cs = Nat.min (length raw) n).
  { rewrite <- (Forall2_length _ _ _ Hchunks), length_take, Hlen. lia. }
  split; [exact Hcslen|]. split; [|reflexivity].
  intros i raw_i c Hraw Hc.
  destruct (Forall2_lookup_r _ _ _ i c Hchunks Hc) as (l & Hl & Hto).
  pose proof Hl as Hl'. apply lookup_take_Some in Hl' as [Hl' _].
  destruct (Forall2_lookup_lr _ _ _ i raw_i l Hdata Hraw Hl')
    as (d & Hd & Hheap).
  unfold chunk_at. rewrite Hd. cbn [mbind result_bind].
  rewrite (Hin i l Hl) in Hto.
  rewrite (lookup_total_correct _ _ _ Hheap) in Hto. exact Hto.
Qed.

Lemma search_without_ai_witness :
  exists response s',
    Routes.search_citations (Script.lib Script.no_json) Script.pyd Script.ext
      Script.request Script.agent_off Script.agent_off Script.agent_off
      (Script.start ∅ []
         (Ok [Script.found "c1" "first" 0.8; Script.found "c2" "second" 0.6]))
    = (Ok response, s')
    /\ calls s' = []
    /\ Models.results_count response = 2
    /\ List.map Models.agent_rank (Models.chunks response) = [Some 1; Some 2]
    /\ List.map Models.text (Models.chunks response) = ["first"; "second"].
Proof.
  eexists _, _. split; [vm_compute; reflexivity|].
  edestruct (search_without_ai (Script.lib Script.no_json) Script.pyd
               Script.ext Script.request "gemini" "gemini" "gemini"
               (Script.start ∅ []
                  (Ok [Script.found "c1" "first" 0.8;
                       Script.found "c2" "second" 0.6])))
    as (raw & _ & Hcalls & _ & Hcount & _).
  - vm_compute. discriminate.
  - vm_compute. reflexivity.
  - split; [exact Hcalls|]. split; [exact Hcount|]. split; reflexivity.
Defined.


(** *** The cite-assist client *)

Section CiteAssistProperties.
Context {W : Type} (http : CiteAssist.Http W).

Lemma search_once_requests (self : CiteAssist.t) (query : string) (limit : Z)
    (search_mode : string) (s : CiteAssist.cstate W) :
  CiteAssist.requests
    (snd (CiteAssist.search_once http self query limit search_mode s))
  = (CiteAssist.requests s
     ++ [CiteAssist.payload query limit search_mode])%list.
Proof.
  unfold CiteAssist.search_once.
  destruct (CiteAssist.post http _ _ _ _) as [out w]. reflexivity.
Qed.

Lemma handle_raised (e e' : CiteAssist.error) :
  CiteAssist.handle e = CiteAssist.Raised e' ->
  e' = e /\ forall status_code,
              e = CiteAssist.HTTPStatusError status_code -> 500 <= status_code.
Proof.
  destruct e as [|status_code|x]; cbn.
  - intros [= <-]. split; [reflexivity|discriminate].
  - destruct (Z.leb_spec 500 status_code); [|discriminate].
    intros [= <-]. split; [reflexivity|]. intros st [= <-]. assumption.
  - intros [= <-]. split; [reflexivity|discriminate].
Qed.

(** An attempt does not raise the error of a client-side status. *)
Lemma search_once_raised (self : CiteAssist.t) (query : string) (limit : Z)
    (search_mode : string) (s : CiteAssist.cstate W) (e : CiteAssist.error) :
  fst (CiteAssist.search_once http self query limit search_mode s)
    = CiteAssist.Raised e ->
  forall status_code,
    e = CiteAssist.HTTPStatusError status_code -> 500 <= status_code.
Proof.
  unfold CiteAssist.search_once.
  destruct (CiteAssist.post http _ _ _ _) as [out w]. cbn [fst].
  destruct out as [status_code json|e0].
  - destruct (CiteAssist.raises_for_status http status_code).
    + intros H. apply handle_raised in H as [-> H]. exact H.
    + destruct json as [data|x].
      * destruct (Py.attr_get data "results" (VList [])) as [results|x].
        -- destruct (CiteAssist.has_len results); [discriminate|].
           intros [= <-]. discriminate.
        -- intros [= <-]. discriminate.
      * intros [= <-]. discriminate.
  - intros H. apply handle_raised in H as [-> H]. exact H.
Qed.

Lemma retry_spec (attempt : CiteAssist.cstate W -> CiteAssist.outcome * CiteAssist.cstate W)
    (x : value) :
  (forall s, CiteAssist.requests (snd (attempt s))
             = (CiteAssist.requests s ++ [x])%list) ->
  forall (remaining attempt_number : nat) (s : CiteAssist.cstate W),
    exists n : nat,
      (1 <= n <= S remaining)%nat
      /\ CiteAssist.requests
           (snd (CiteAssist.retry http remaining attempt_number attempt s))
         = (CiteAssist.requests s ++ replicate n x)%list
      /\ (forall e,
            fst (CiteAssist.retry http remaining attempt_number attempt s)
              = CiteAssist.Raised e ->
            n = S remaining
            /\ exists s0, fst (attempt s0) = CiteAssist.Raised e)
      /\ (forall results,
            fst (attempt s) = CiteAssist.Returned results ->
            n = 1%nat
            /\ fst (CiteAssist.retry http remaining attempt_number attempt s)
               = CiteAssist.Returned results).
Proof.
  intros Hreq. induction remaining as [|remaining IH]; intros attempt_number s;
    cbn [CiteAssist.retry]; specialize (Hreq s) as Hs;
    destruct (attempt s) as [[results|e] s1] eqn:Hrun; cbn [fst snd] in *.
  - exists 1%nat. split; [lia|]. split; [exact Hs|]. split; [discriminate|].
    intros r [= <-]. auto.
  - exists 1%nat. split; [lia|]. split; [exact Hs|]. split; [|discriminate].
    intros e' [= <-]. split; [reflexivity|]. exists s. rewrite Hrun. reflexivity.
  - exists 1%nat. split; [lia|]. split; [exact Hs|]. split; [discriminate|].
    intros r [= <-]. auto.
  - destruct (IH (S attempt_number)
                (CiteAssist.CState
                   (CiteAssist.sleep http (CiteAssist.transport s1) attempt_number)
                   (CiteAssist.requests s1)))
      as (n & Hn & Hrequests & Hraised & _).
    exists (S n). split; [lia|]. split; [|split; [|discriminate]].
    + rewrite Hrequests. cbn [CiteAssist.requests]. rewrite Hs, <- app_assoc.
      reflexivity.
    + intros e' He'. destruct (Hraised e' He') as [-> Hlast].
      split; [reflexivity|exact Hlast].
Qed.

Lemma before_requests
    (attempt : CiteAssist.cstate W -> CiteAssist.outcome * CiteAssist.cstate W)
    (x : value) :
  (forall s, CiteAssist.requests (snd (attempt s))
             = (CiteAssist.requests s ++ [x])%list) ->
  forall (k attempt_number : nat) (s : CiteAssist.cstate W),
    CiteAssist.requests (CiteAssist.before http k attempt_number attempt s)
    = (CiteAssist.requests s ++ replicate k x)%list.
Proof.
  intros Hreq. induction k as [|k IH]; intros attempt_number s;
    cbn [CiteAssist.before replicate].
  - rewrite app_nil_r. reflexivity.
  - rewrite IH. cbn [CiteAssist.requests]. rewrite Hreq, <- app_assoc.
    reflexivity.
Qed.

(** The first attempt that returns ends the search, with what it returns
    and in the state it leaves. *)
Lemma retry_returns
    (attempt : CiteAssist.cstate W -> CiteAssist.outcome * CiteAssist.cstate W) :
  forall (k remaining attempt_number : nat) (s : CiteAssist.cstate W)
         (results : value),
    (k <= remaining)%nat ->
    (forall j : nat,
        (j < k)%nat ->
        exists e,
          fst (attempt (CiteAssist.before http j attempt_number attempt s))
          = CiteAssist.Raised e) ->
    fst (attempt (CiteAssist.before http k attempt_number attempt s))
      = CiteAssist.Returned results ->
    CiteAssist.retry http remaining attempt_number attempt s
    = (CiteAssist.Returned results,
       snd (attempt (CiteAssist.before http k attempt_number attempt s))).
Proof.
  induction k as [|k IH];
    intros remaining attempt_number s results Hk Hfailed Hreturned.
  - cbn [CiteAssist.before] in *. destruct remaining; cbn [CiteAssist.retry];
      destruct (attempt s) as [[r|e] s1]; cbn [fst snd] in *;
      congruence.
  - destruct remaining as [|remaining]; [lia|].
    cbn [CiteAssist.retry].
    destruct (Hfailed 0%nat ltac:(lia)) as [e He]. cbn [CiteAssist.before] in He.
    cbn [CiteAssist.before] in Hreturned |- *.
    destruct (attempt s) as [[r|e'] s1] eqn:Hrun; cbn [fst snd] in *;
      [discriminate|].
    apply IH; [lia| |exact Hreturned].
    intros j Hj. specialize (Hfailed (S j) ltac:(lia)).
    cbn [CiteAssist.before] in Hfailed. rewrite Hrun in Hfailed. exact Hfailed.
Qed.

End CiteAssistProperties.

(** X12. [CiteAssistClient.search] posts the same payload one to three
    times. It raises only after three failed attempts, and never for a
    status below 500. On any of the three attempts, the first, the second or
    the third: an attempt that returns ends the search with what it returns,
    and a status below 500 for which [raise_for_status] raises ends it with
    an empty list; no further request is made. *)
Theorem search_retries {W} (http : CiteAssist.Http W) (self : CiteAssist.t)
    (query : string) (limit : Z) (search_mode : string)
    (s : CiteAssist.cstate W) :
  exists n : nat,
    (1 <= n <= 3)%nat
    /\ CiteAssist.requests
         (snd (CiteAssist.search http self query limit search_mode s))
       = (CiteAssist.requests s
          ++ replicate n (CiteAssist.payload query limit search_mode))%list
    /\ (forall e,
          fst (CiteAssist.search http self query limit search_mode s)
            = CiteAssist.Raised e ->
          n = 3%nat
          /\ forall status_code,
               e = CiteAssist.HTTPStatusError status_code ->
               500 <= status_code)
    /\ (forall (k : nat) results,
          (k < 3)%nat ->
          CiteAssist.failed_before http self query limit search_mode k s ->
          fst (CiteAssist.search_once http self query limit search_mode
                 (CiteAssist.before http k 1
                    (CiteAssist.search_once http self query limit search_mode)
                    s))
            = CiteAssist.Returned results ->
          n = S k
          /\ fst (CiteAssist.search http self query limit search_mode s)
             = CiteAssist.Returned results)
    /\ (forall (k : nat) status_code json w,
          (k < 3)%nat ->
          CiteAssist.failed_before http self query limit search_mode k s ->
          CiteAssist.post http
            (CiteAssist.transport
               (CiteAssist.before http k 1
                  (CiteAssist.search_once http self query limit search_mode)
                  s))
            "/api/v1/search"
            (CiteAssist.payload query limit search_mode)
            (CiteAssist.headers self)
            = (CiteAssist.Response status_code json, w) ->
          CiteAssist.raises_for_status http status_code = true ->
          status_code < 500 ->
          n = S k
          /\ fst (CiteAssist.search http self query limit search_mode s)
             = CiteAssist.Returned (VList [])).
Proof.
  set (attempt := CiteAssist.search_once http self query limit search_mode).
  set (x := CiteAssist.payload query limit search_mode).
  pose proof (search_once_requests http self query limit search_mode)
    as Hreq. fold attempt x in Hreq.
  unfold CiteAssist.search. fold attempt.
  destruct (retry_spec http attempt x Hreq 2 1 s)
    as (n & Hn & Hrequests & Hraised & _).
  assert (Hreturned : forall (k : nat) results,
    (k < 3)%nat ->
    CiteAssist.failed_before http self query limit search_mode k s ->
    fst (attempt (CiteAssist.before http k 1 attempt s))
      = CiteAssist.Returned results ->
    n = S k
    /\ fst (CiteAssist.retry http 2 1 attempt s)
       = CiteAssist.Returned results).
  { intros k results Hk Hfailed Hret.
    pose proof (retry_returns http attempt k 2 1 s results ltac:(lia)
                  Hfailed Hret) as Hrun.
    rewrite Hrun in Hrequests |- *. cbn [fst snd] in *.
    split; [|reflexivity].
    rewrite Hreq, (before_requests http attempt x Hreq), <- app_assoc
      in Hrequests.
    apply app_inv_head in Hrequests.
    apply (f_equal length) in Hrequests.
    rewrite length_app, !length_replicate in Hrequests. cbn in Hrequests. lia. }
  exists n. split; [exact Hn|]. split; [exact Hrequests|].
  split; [|split; [exact Hreturned|]].
  - intros e He. destruct (Hraised e He) as [-> [s0 Hs0]].
    split; [reflexivity|]. eapply search_once_raised. exact Hs0.
  - intros k status_code json w Hk Hfailed Hpost Hstatus Hclient.
    apply Hreturned; [exact Hk|exact Hfailed|].
    unfold attempt at 1. unfold CiteAssist.search_once. fold attempt x.
    rewrite Hpost, Hstatus. cbn [fst].
    unfold CiteAssist.handle.
    destruct (Z.leb_spec 500 status_code); [lia|reflexivity].
Qed.

(** A witness of [search_retries]: a server error, then a status 404. The
    second attempt ends the search; the answer scripted for a third one is
    left where it was. *)
Lemma search_retries_witness :
  CiteAssist.search CiteAssist.scripted
    {| CiteAssist.base_url := "http://localhost:8000";
       CiteAssist.api_key := "" |}
    "climate policy" 10 "chunks"
    (CiteAssist.CState
       [CiteAssist.Response 503 (Raise JSONDecodeError);
        CiteAssist.Response 404 (Raise JSONDecodeError);
        CiteAssist.Response 200
          (Ok (VDict {[ "results" := VList [VStr "a result"] ]}))] [])
  = (CiteAssist.Returned (VList []),
     CiteAssist.CState
       [CiteAssist.Response 200
          (Ok (VDict {[ "results" := VList [VStr "a result"] ]}))]
       (replicate 2 (CiteAssist.payload "climate policy" 10 "chunks")))
  /\ exists n : nat,
       n = 2%nat
       /\ CiteAssist.requests
            (snd (CiteAssist.search CiteAssist.scripted
                    {| CiteAssist.base_url := "http://localhost:8000";
                       CiteAssist.api_key := "" |}
                    "climate policy" 10 "chunks"
                    (CiteAssist.CState
                       [CiteAssist.Response 503 (Raise JSONDecodeError);
                        CiteAssist.Response 404 (Raise JSONDecodeError);
                        CiteAssist.Response 200
                          (Ok (VDict
                                 {[ "results" := VList [VStr "a result"] ]}))]
                       [])))
          = replicate n (CiteAssist.payload "climate policy" 10 "chunks")
       /\ fst (CiteAssist.search CiteAssist.scripted
                 {| CiteAssist.base_url := "http://localhost:8000";
                    CiteAssist.api_key := "" |}
                 "climate policy" 10 "chunks"
                 (CiteAssist.CState
                    [CiteAssist.Response 503 (Raise JSONDecodeError);
                     CiteAssist.Response 404 (Raise JSONDecodeError);
                     CiteAssist.Response 200
                       (Ok (VDict
                              {[ "results" := VList [VStr "a result"] ]}))]
                    []))
          = CiteAssist.Returned (VList []).
Proof.
  split; [vm_compute; reflexivity|].
  destruct (search_retries CiteAssist.scripted
              {| CiteAssist.base_url := "http://localhost:8000";
                 CiteAssist.api_key := "" |}
              "climate policy" 10 "chunks"
              (CiteAssist.CState
                 [CiteAssist.Response 503 (Raise JSONDecodeError);
                  CiteAssist.Response 404 (Raise JSONDecodeError);
                  CiteAssist.Response 200
                    (Ok (VDict {[ "results" := VList [VStr "a result"] ]}))]
                 []))
    as (n & _ & Hrequests & _ & _ & Hclient).
  destruct (Hclient 1%nat 404 (Raise JSONDecodeError)
              [CiteAssist.Response 200
                 (Ok (VDict {[ "results" := VList [VStr "a result"] ]}))])
    as [Hn Hresult].
  - lia.
  - intros j Hj. assert (j = 0%nat) as -> by lia.
    exists (CiteAssist.HTTPStatusError 503). vm_compute. reflexivity.
  - vm_compute. reflexivity.
  - reflexivity.
  - lia.
  - exists n. split; [exact Hn|]. split; [exact Hrequests|exact Hresult].
Defined.

(** *** A confidence that is not a number *)

Lemma nan_not_below (x y : float) :
  Prim2SF x = S754_nan -> (x <? y)%float = false.
Proof. intros Hx. rewrite ltb_spec, Hx. reflexivity. Qed.

Lemma clamp_nan (x : float) :
  Prim2SF x = S754_nan -> FilterAgent.clamp x = 1%float.
Proof.
  intros Hx. unfold FilterAgent.clamp, Py.min, Py.max.
  rewrite (nan_not_below x 1 Hx). reflexivity.
Qed.

(** X13. A verdict whose confidence is NaN is not rejected: the clamp
    [max(0.0, min(1.0, x))] turns it into 1.0, the top score, and a chunk the
    verdict calls relevant then passes every threshold up to 1.0. *)
Theorem nan_confidence_scores_one {W} (lib : PyLib) (ext : External W)
    (self : BaseAgent.t) (prompt text : string) (s : state W) (d : dict)
    (relevant : value) (x : float) :
  BaseAgent.enabled self = true ->
  sdk_outcome ext self prompt 0.1 200 s = Responded text ->
  text <> "" ->
  json_loads lib (Py.strip_code_fence lib text) = Ok (VDict d) ->
  d !! "relevant" = Some relevant ->
  d !! "confidence" = Some (VFloat x) ->
  Prim2SF x = S754_nan ->
  fst (FilterAgent.evaluate_response lib ext self prompt s)
    = Ok (<["confidence" := VFloat 1]> d)
  /\ forall (threshold : float) (chunk : loc) (s1 : state W) (why : value),
       Py.truthy relevant = true ->
       d !! "reasoning" = Some why ->
       (threshold <=? 1)%float = true ->
       exists s2,
         FilterAgent.filter_step lib threshold chunk
           (Ok (<["confidence" := VFloat 1]> d)) s1 = (Ok true, s2)
         /\ (heap s2 !!! chunk) !! "relevance_score" = Some (VFloat 1).
Proof.
  intros Hon Hsdk Htext Hjson Hrel Hconf Hnan. split.
  - unfold FilterAgent.evaluate_response.
    rewrite run_bind, generate_content_enabled by exact Hon. rewrite Hsdk.
    assert (Htruthy : Py.truthy_text (Some text) = true).
    { cbn. apply negb_true_iff, String.eqb_neq. exact Htext. }
    rewrite Htruthy. cbn [negb default from_option id].
    rewrite run_bind, run_lift, Hjson, Hrel, Hconf. cbn [Py.to_float].
    rewrite run_bind, run_lift, run_ret, (clamp_nan x Hnan). reflexivity.
  - intros threshold chunk s1 why Htruthy Hwhy Hthr.
    set (v := <["confidence" := VFloat 1]> d).
    assert (H1 : v !! "relevant" = Some relevant)
      by (unfold v; rewrite lookup_insert_ne by discriminate; exact Hrel).
    assert (H2 : v !! "confidence" = Some (VFloat 1))
      by (unfold v; apply lookup_insert_eq).
    assert (H3 : v !! "reasoning" = Some why)
      by (unfold v; rewrite lookup_insert_ne by discriminate; exact Hwhy).
    unfold FilterAgent.filter_step, Py.getitem. rewrite H1, H2, H3.
    run. rewrite Htruthy. run. cbn [Py.ge_float]. run.
    rewrite Hthr. run. eexists. split; [reflexivity|]. cbn [heap].
    rewrite !lookup_total_insert_eq.
    rewrite lookup_insert_ne by discriminate. apply lookup_insert_eq.
Qed.

Lemma nan_confidence_scores_one_witness :
  FilterAgent.filter (Script.lib nan_verdict) Script.ext Script.agent_on
    "query" None [1%positive] 1
    (Script.start {[ 1%positive := {[ "text" := VStr "a chunk" ]} ]}
       [Responded nan_verdict_text] (Ok []))
  = (Ok [1%positive],
     State {[ 1%positive :=
                <["filter_reasoning" := VStr "r"]>
                  (<["relevance_score" := VFloat 1]>
                     (<["agent_filtered" := VBool true]>
                        {[ "text" := VStr "a chunk" ]})) ]}
           (Script.World [] (Ok []) 0)
           [FilterAgent.prompt (Script.lib nan_verdict) "query" None
              (VStr "a chunk") (VStr "Unknown") (VStr "Unknown")])
  /\ fst (FilterAgent.evaluate_response (Script.lib nan_verdict) Script.ext
            Script.agent_on "prompt"
            (Script.start ∅ [Responded nan_verdict_text] (Ok [])))
     = Ok (<["confidence" := VFloat 1]>
             (<["relevant" := VBool true]>
             (<["confidence" := VFloat nan]>
             (<["reasoning" := VStr "r"]> ∅)))).
Proof.
  split; [vm_compute; reflexivity|].
  apply (nan_confidence_scores_one (Script.lib nan_verdict) Script.ext
           Script.agent_on "prompt" nan_verdict_text
           (Script.start ∅ [Responded nan_verdict_text] (Ok []))
           _ (VBool true) nan).
  - reflexivity.
  - reflexivity.
  - discriminate.
  - vm_compute. reflexivity.
  - reflexivity.
  - reflexivity.
  - reflexivity.
Defined.


(** *** Rank stage, no chunk is lost *)

Section RankCoverage.
Context {W : Type} (lib : PyLib) (ext : External W).

Lemma heap_frame_trans (h1 h2 h3 : gmap loc dict) :
  heap_frame h1 h2 -> heap_frame h2 h3 -> heap_frame h1 h3.
Proof.
  intros H12 H23 l Hl. rewrite (H23 l (heap_frame_dom _ _ _ H12 Hl)).
  apply H12. exact Hl.
Qed.

Lemma copy_of_same_but_rank (s0 s : state W) (l o : loc) :
  copy_of s0 s l o -> same_but_rank s0 s l o.
Proof.
  intros (r & why & Ho) k Hk. rewrite lookup_total_alt, Ho. cbn.
  unfold rank_keys in Hk. rewrite !elem_of_cons, elem_of_nil in Hk.
  rewrite !lookup_insert_ne by (intros <-; tauto). reflexivity.
Qed.

Lemma covered_mono (s0 s s1 : state W) (chunks : list loc)
    (I I1 : nat -> Prop) (out out1 : list loc) :
  covered s0 s chunks I out ->
  heap_frame (heap s) (heap s1) ->
  out ⊆ out1 ->
  (forall i, I1 i -> I i) ->
  covered s0 s1 chunks I1 out1.
Proof.
  intros Hcov Hframe Hsub HI i l Hi Hl.
  destruct (Hcov i l (HI i Hi) Hl) as (o & Ho & r & why & Hcopy).
  exists o. split; [apply Hsub; exact Ho|]. exists r, why.
  rewrite (Hframe o); [exact Hcopy|]. apply elem_of_dom. rewrite Hcopy. eauto.
Qed.

(** One chunk copied: the positions covered so far, and its own. *)
Lemma covered_snoc (s0 s : state W) (chunks : list loc) (I : nat -> Prop)
    (ranked : list loc) (j : nat) (original : loc) (r : Z) (why : value) :
  Forall (fun l => l ∈ dom (heap s0)) chunks ->
  heap_frame (heap s0) (heap s) ->
  covered s0 s chunks I ranked ->
  chunks !! j = Some original ->
  let o := fresh (dom (heap s)) in
  let s1 :=
    State (<[o := <["rank_reasoning" := why]>
                     (<["agent_rank" := VInt r]> (heap s !!! original))]>
             (heap s)) (world s) (calls s) in
  heap_frame (heap s0) (heap s1)
  /\ covered s0 s1 chunks (fun i => I i \/ i = j) (ranked ++ [o]).
Proof.
  intros Hdom Hframe Hcov Hj o s1.
  assert (Hstep : heap_frame (heap s) (heap s1)).
  { unfold s1. cbn [heap]. apply heap_frame_alloc, heap_frame_refl. }
  split; [eapply heap_frame_trans; eassumption|].
  intros i l [Hi | ->] Hl.
  - destruct (covered_mono s0 s s1 chunks I I ranked (ranked ++ [o])
                Hcov Hstep) with (i := i) (l := l) as (o' & Ho' & Hc); auto.
    + intros x Hx. apply elem_of_app. left. exact Hx.
    + eauto.
  - assert (l = original) as -> by congruence.
    exists o. split; [apply elem_of_app; right; apply list_elem_of_singleton; reflexivity|].
    exists r, why. unfold s1. cbn [heap]. rewrite lookup_insert_eq.
    rewrite (heap_frame_total (heap s0) (heap s) original Hframe); [reflexivity|].
    rewrite Forall_forall in Hdom. apply Hdom.
    eapply list_elem_of_lookup_2. exact Hj.
Qed.

(** An index that [chunks[v]] accepts. *)
Lemma list_getitem_position (chunks : list loc) (v : value) (original : loc) :
  Py.list_getitem chunks v = Ok original ->
  exists k, Py.as_index v = Some k
    /\ (0 <= k -> chunks !! Z.to_nat k = Some original)
    /\ exists j : nat, chunks !! j = Some original.
Proof.
  unfold Py.list_getitem. destruct (Py.as_index v) as [k|]; [|discriminate].
  destruct (((0 <=? _) && _)%bool); [|discriminate].
  destruct (chunks !! Z.to_nat _) as [x|] eqn:Hx; [|discriminate].
  intros [= ->]. exists k. split; [reflexivity|]. split.
  - intros Hk. destruct (Z.ltb_spec k 0); [lia|]. exact Hx.
  - eauto.
Qed.

Lemma place_ranked_covers (reasoning : value) (chunks : list loc)
    (s0 : state W) :
  Forall (fun l => l ∈ dom (heap s0)) chunks ->
  forall (ids : list value) (rank : Z) (ranked : list loc) (used : gset Z)
         (s s' : state W) (ranked' : list loc) (used' : gset Z),
    heap_frame (heap s0) (heap s) ->
    covered s0 s chunks (fun i => Z.of_nat i ∈ used) ranked ->
    RankAgent.place_ranked reasoning chunks ids rank (ranked, used) s
      = (Ok (ranked', used'), s') ->
    heap_frame (heap s0) (heap s')
    /\ covered s0 s' chunks (fun i => Z.of_nat i ∈ used') ranked'.
Proof.
  intros Hdom. induction ids as [|chunk_id ids IH];
    intros rank ranked used s s' ranked' used' Hframe Hcov Hrun.
  - cbn in Hrun. injection Hrun as <- <- <-. auto.
  - cbn [RankAgent.place_ranked] in Hrun.
    inv_bind Hrun as in_range s1 Hrange. rewrite run_lift in Hrange.
    injection Hrange as Hrange <-.
    inv_bind Hrun as fresh_id s2 Hfresh.
    assert (s2 = s) as ->.
    { destruct in_range.
      - inv_bind Hfresh as u s3 Hu. rewrite run_lift in Hu.
        injection Hu as _ <-. injection Hfresh as _ <-. reflexivity.
      - injection Hfresh as _ <-. reflexivity. }
    destruct fresh_id; [|eapply IH; eassumption].
    rewrite run_bind, run_lift in Hrun.
    destruct (Py.list_getitem chunks chunk_id) as [original|e] eqn:Hget;
      [|discriminate].
    destruct (list_getitem_position chunks chunk_id original Hget)
      as (k & Hk & Hpos & j & Hj).
    rewrite run_copy_mark, Hk in Hrun.
    destruct (covered_snoc s0 s chunks (fun i => Z.of_nat i ∈ used) ranked j
                original (rank + 1) reasoning Hdom Hframe Hcov Hj)
      as [Hframe1 Hcov1].
    eapply IH in Hrun; [exact Hrun|exact Hframe1|].
    intros i l Hi Hl. apply elem_of_union in Hi. destruct Hi as [Hi|Hi].
    + apply elem_of_singleton in Hi.
      assert (Hl' : chunks !! Z.to_nat k = Some original) by (apply Hpos; lia).
      rewrite <- Hi, Nat2Z.id in Hl'.
      assert (l = original) as -> by congruence.
      apply (Hcov1 j original); [right; reflexivity|exact Hj].
    + apply (Hcov1 i l); [left; exact Hi|exact Hl].
Qed.

Lemma place_unranked_covers (used : gset Z) (chunks : list loc)
    (s0 : state W) :
  Forall (fun l => l ∈ dom (heap s0)) chunks ->
  forall (rest pre ranked : list loc) (s : state W),
    chunks = (pre ++ rest)%list ->
    heap_frame (heap s0) (heap s) ->
    covered s0 s chunks
      (fun i => Z.of_nat i ∈ used \/ (i < length pre)%nat) ranked ->
    exists out s',
      RankAgent.place_unranked used (Z.of_nat (length pre)) rest ranked s
        = (Ok out, s')
      /\ heap_frame (heap s0) (heap s')
      /\ covered s0 s' chunks (fun _ => True) out.
Proof.
  intros Hdom. induction rest as [|original rest IH];
    intros pre ranked s Hchunks Hframe Hcov.
  - exists ranked, s. cbn. split; [reflexivity|]. split; [exact Hframe|].
    intros i l _ Hl. apply (Hcov i l); [|exact Hl]. right.
    rewrite Hchunks, app_nil_r in Hl. eapply lookup_lt_Some. exact Hl.
  - cbn [RankAgent.place_unranked].
    assert (Hchunks' : chunks = ((pre ++ [original]) ++ rest)%list)
      by (rewrite <- app_assoc; exact Hchunks).
    assert (Hnext : Z.of_nat (length pre) + 1
                    = Z.of_nat (length (pre ++ [original])))
      by (rewrite length_app; cbn; lia).
    assert (Hhere : chunks !! length pre = Some original)
      by (rewrite Hchunks; apply list_lookup_middle; reflexivity).
    destruct (decide (Z.of_nat (length pre) ∈ used)) as [Hused|Hfree].
    + rewrite bool_decide_true by exact Hused. rewrite Hnext.
      apply IH; [exact Hchunks'|exact Hframe|].
      intros i l Hi Hl. apply (Hcov i l); [|exact Hl].
      destruct Hi as [Hi|Hi]; [left; exact Hi|].
      rewrite length_app in Hi. cbn in Hi.
      destruct (decide (i = length pre)) as [->|]; [left; exact Hused|].
      right. lia.
    + rewrite bool_decide_false by exact Hfree. rewrite run_copy_mark, Hnext.
      destruct (covered_snoc s0 s chunks _ ranked (length pre) original
                  (Z.of_nat (length ranked) + 1) unranked_reason
                  Hdom Hframe Hcov Hhere) as [Hframe1 Hcov1].
      apply IH; [exact Hchunks'|exact Hframe1|].
      intros i l Hi Hl. apply (Hcov1 i l); [|exact Hl].
      destruct Hi as [Hi|Hi]; [left; left; exact Hi|].
      rewrite length_app in Hi. cbn in Hi.
      destruct (decide (i = length pre)) as [->|]; [right; reflexivity|].
      left. right. lia.
Qed.

(** The verdict path, when it runs to its end. *)
Lemma apply_verdict_covers (chunks : list loc) (text : string)
    (s s' : state W) (out : list loc) :
  Forall (fun l => l ∈ dom (heap s)) chunks ->
  RankAgent.apply_verdict lib chunks text s = (Ok out, s') ->
  covered s s' chunks (fun _ => True) out.
Proof.
  intros Hdom Hrun. unfold RankAgent.apply_verdict in Hrun.
  inv_bind Hrun as result s1 H1. rewrite run_lift in H1. injection H1 as _ <-.
  inv_bind Hrun as ranked_ids s1 H1. rewrite run_lift in H1.
  injection H1 as _ <-.
  inv_bind Hrun as reasoning s1 H1. rewrite run_lift in H1.
  injection H1 as _ <-.
  inv_bind Hrun as ids s1 H1. rewrite run_lift in H1. injection H1 as _ <-.
  inv_bind Hrun as acc s1 Hplace. destruct acc as [ranked used].
  destruct (place_ranked_covers reasoning chunks s Hdom ids 0 [] ∅ s s1
              ranked used (heap_frame_refl _)) as [Hframe Hcov]; [|exact Hplace|].
  { intros i l Hi. apply not_elem_of_empty in Hi. contradiction. }
  destruct (place_unranked_covers used chunks s Hdom chunks [] ranked s1
              eq_refl Hframe) as (out' & s2 & Hrun' & _ & Hall).
  { intros i l [Hi|Hi] Hl; [|cbn in Hi; lia]. apply (Hcov i l Hi Hl). }
  cbn [length] in Hrun'. change (Z.of_nat 0) with 0 in Hrun'.
  rewrite Hrun' in Hrun. injection Hrun as <- <-. exact Hall.
Qed.

(** The in-place fallback, after the verdict path gave up. *)
Lemma fallback_keeps (chunks : list loc) (s s1 : state W) :
  Forall (fun l => l ∈ dom (heap s)) chunks ->
  heap_frame (heap s) (heap s1) ->
  exists s',
    (RankAgent.assign_sequential_ranks chunks ;; mret chunks) s1
      = (Ok chunks, s')
    /\ forall l, l ∈ chunks -> same_but_rank s s' l l.
Proof.
  intros Hdom Hframe.
  destruct (assign_sequential_ranks_in_place chunks s1)
    as (s' & Hrun & _ & _ & _ & _).
  exists s'. split; [rewrite run_bind, Hrun; reflexivity|].
  intros l Hl k Hk.
  assert (Hkeys : preserves (only_keys ["agent_rank"])
                    (RankAgent.assign_sequential_ranks chunks : M W unit)).
  { unfold RankAgent.assign_sequential_ranks.
    apply preserves_for_enumerate; [apply _|]. intros i x.
    apply preserves_setitem_only_keys. apply list_elem_of_singleton.
    reflexivity. }
  specialize (Hkeys s1). rewrite Hrun in Hkeys. cbn [snd] in Hkeys.
  rewrite (Hkeys l k).
  - rewrite (heap_frame_total _ _ l Hframe); [reflexivity|].
    rewrite Forall_forall in Hdom. apply Hdom. exact Hl.
  - intros Hin. apply Hk. apply list_elem_of_singleton in Hin. subst k.
    unfold rank_keys. left.
Qed.

End RankCoverage.

(** X14. [rank] loses no chunk and invents none, whatever the model
    answers: it returns, every input chunk has a chunk in the result that is
    the same dict but for [agent_rank] and [rank_reasoning], and every chunk
    of the result is an input chunk in that sense. *)
Theorem rank_keeps_every_chunk {W} (lib : PyLib) (ext : External W)
    (self : BaseAgent.t) (query : string) (context : option string)
    (chunks : list loc) (s : state W) :
  Forall (fun l => l ∈ dom (heap s)) chunks ->
  exists out s',
    RankAgent.rank lib ext self query context chunks s = (Ok out, s')
    /\ (forall l, l ∈ chunks ->
                  exists o, o ∈ out /\ same_but_rank s s' l o)
    /\ (forall o, o ∈ out ->
                  exists l, l ∈ chunks /\ same_but_rank s s' l o).
Proof.
  intros Hdom.
  assert (Hfallback : forall s1,
    heap_frame (heap s) (heap s1) ->
    exists out s',
      (RankAgent.assign_sequential_ranks chunks ;; mret chunks) s1
        = (Ok out, s')
      /\ (forall l, l ∈ chunks -> exists o, o ∈ out /\ same_but_rank s s' l o)
      /\ (forall o, o ∈ out -> exists l, l ∈ chunks /\ same_but_rank s s' l o)).
  { intros s1 Hframe.
    destruct (fallback_keeps chunks s s1 Hdom Hframe) as (s' & Hrun & Hsame).
    exists chunks, s'. split; [exact Hrun|]. split; intros l Hl; eauto. }
  unfold RankAgent.rank.
  destruct (BaseAgent.enabled self); cbn [negb];
    [|apply Hfallback, heap_frame_refl].
  destruct chunks as [|c1 [|c2 chunks]].
  - exists [], s. split; [reflexivity|].
    split; intros l Hl; apply elem_of_nil in Hl; contradiction.
  - rewrite bool_decide_false by discriminate.
    rewrite run_bind, run_setitem, run_ret. eexists _, _.
    split; [reflexivity|].
    assert (Hsame : same_but_rank s
              (State (<[c1 := <["agent_rank" := VInt 1]> (heap s !!! c1)]>
                        (heap s)) (world s) (calls s)) c1 c1).
    { intros k Hk. cbn [heap]. rewrite lookup_total_insert_eq.
      apply lookup_insert_ne. intros <-. apply Hk. unfold rank_keys. left. }
    split; intros l Hl; apply list_elem_of_singleton in Hl; subst l;
      exists c1; (split; [apply list_elem_of_singleton; reflexivity|exact Hsame]).
  - rewrite bool_decide_false by discriminate.
    set (cs := c1 :: c2 :: chunks) in *.
    rewrite run_try_except.
    assert (Hhandler : forall e s1,
      heap_frame (heap s) (heap s1) ->
      exists out s',
        match e with
        | JSONDecodeError =>
            RankAgent.assign_sequential_ranks cs ;; mret cs
        | _ => RankAgent.assign_sequential_ranks cs ;; mret cs
        end s1 = (Ok out, s')
        /\ (forall l, l ∈ cs -> exists o, o ∈ out /\ same_but_rank s s' l o)
        /\ (forall o, o ∈ out -> exists l, l ∈ cs /\ same_but_rank s s' l o)).
    { intros e s1 Hframe. destruct e; apply Hfallback; exact Hframe. }
    unfold RankAgent.rank_with_model. rewrite run_bind.
    destruct (RankAgent.summarize lib 0 cs s) as [[chunks_summary|e] s0] eqn:Hsum;
      apply summarize_state in Hsum; subst s0;
      [|apply Hhandler, heap_frame_refl].
    rewrite run_bind.
    pose proof (generate_content_heap ext self
                  (RankAgent.prompt lib query context (VList chunks_summary))
                  0.2%float 500 s) as Hheap.
    destruct (BaseAgent.generate_content ext self _ 0.2 500 s)
      as [[response_text|e] s1]; cbn [snd] in Hheap.
    2: { apply Hhandler. rewrite Hheap. apply heap_frame_refl. }
    assert (Hframe1 : heap_frame (heap s) (heap s1))
      by (rewrite Hheap; apply heap_frame_refl).
    destruct (negb (Py.truthy_text response_text)).
    { destruct (Hfallback s1 Hframe1) as (out & s' & Hrun & H1 & H2).
      exists out, s'. rewrite Hrun. auto. }
    assert (Hdom1 : Forall (fun l => l ∈ dom (heap s1)) cs)
      by (rewrite Hheap; exact Hdom).
    destruct (RankAgent.apply_verdict lib cs (default "" response_text) s1)
      as [[out|e] s2] eqn:Happly.
    + exists out, s2. split; [reflexivity|].
      pose proof (apply_verdict_covers lib cs _ s1 s2 out Hdom1 Happly) as Hcov.
      destruct (apply_verdict_effect lib cs _ s1 s2 _ Hdom1 Happly)
        as [_ Hcopies].
      specialize (Hcopies out eq_refl).
      assert (Hsame : forall l o, copy_of s1 s2 l o -> same_but_rank s s2 l o).
      { intros l o Hc k Hk.
        rewrite (copy_of_same_but_rank s1 s2 l o Hc k Hk), Hheap. reflexivity. }
      split.
      * intros l Hl. apply list_elem_of_lookup_1 in Hl. destruct Hl as [i Hi].
        destruct (Hcov i l I Hi) as (o & Ho & Hc). eauto.
      * intros o Ho. unfold copies_of in Hcopies.
        rewrite Forall_forall in Hcopies.
        destruct (Hcopies o Ho) as (_ & l & r & why & Hl & Hcopy).
        exists l. split; [exact Hl|]. apply Hsame. exists r, why. exact Hcopy.
    + destruct (apply_verdict_effect lib cs _ s1 s2 _ Hdom1 Happly)
        as [Hframe2 _].
      apply Hhandler. rewrite <- Hheap. exact Hframe2.
Qed.

Lemma rank_keeps_every_chunk_witness :
  exists out s',
    RankAgent.rank (Script.lib (Script.ranking "[-1]" [-1])) Script.ext
      Script.agent_on "query" None [1; 2; 3]%positive
      (Script.start Script.three_chunks
         [Responded (Script.ranking_text "[-1]")] (Ok []))
    = (Ok out, s')
    /\ length out = 4%nat
    /\ forall l, l ∈ [1; 2; 3]%positive ->
         exists o, o ∈ out
           /\ same_but_rank
                (Script.start Script.three_chunks
                   [Responded (Script.ranking_text "[-1]")] (Ok []))
                s' l o.
Proof.
  destruct (rank_keeps_every_chunk
              (Script.lib (Script.ranking "[-1]" [-1])) Script.ext
              Script.agent_on "query" None [1; 2; 3]%positive
              (Script.start Script.three_chunks
                 [Responded (Script.ranking_text "[-1]")] (Ok [])))
    as (out & s' & Hrun & Hall & _).
  - repeat constructor; apply elem_of_dom; vm_compute; eauto.
  - exists out, s'. split; [exact Hrun|]. split; [|exact Hall].
    assert (Hout : fst (RankAgent.rank
                          (Script.lib (Script.ranking "[-1]" [-1])) Script.ext
                          Script.agent_on "query" None [1; 2; 3]%positive
                          (Script.start Script.three_chunks
                             [Responded (Script.ranking_text "[-1]")] (Ok [])))
                   = Ok out) by (rewrite Hrun; reflexivity).
    vm_compute in Hout. injection Hout as <-. reflexivity.
Defined.
